(** * The agent pipeline of [optimal_implementation.py] and the sandbox
      wrapper of [integrate_forevervm.py]

    A shallow embedding of the message record, the agent base class, the
    analysis and feedback computations, the orchestrator's state machine and
    the sandbox wrapper, followed by the properties established about them.

    Python values are dynamically typed: the embedding keeps them so
    ([pyval]), and every operation that can raise in Python returns a
    [result].  Stateful methods live in a state-and-exception monad whose
    state survives a raised exception, as an object's attributes do.  Log
    output is left out throughout. *)

From Stdlib Require Import ZArith String Ascii List Lia Bool.
From Stdlib Require Import Floats.
From stdpp Require Import gmap strings list fin_maps pretty.

Set Warnings "-register-all".
Local Open Scope string_scope.
Local Open Scope Z_scope.

(** ** Python values and exceptions *)

Module Py.

(** JSON-shaped Python values: what [json.load] yields and what message
    payloads carry.  Dictionaries have string keys. *)
Inductive pyval : Type :=
  | PNone
  | PBool (b : bool)
  | PInt (z : Z)
  | PFloat (f : float)
  | PStr (s : string)
  | PList (l : list pyval)
  | PDict (d : gmap string pyval).

(** The exception classes the modelled code can meet. *)
Inductive exn_class : Type :=
  | KeyError | ValueError | TypeError | AttributeError | ZeroDivisionError
  | OverflowError | RuntimeError | OSError | FileNotFoundError
  | JSONDecodeError | OtherException.

(** An exception object: its class and [str(e)]. *)
Record exn : Type := Exn { exn_cls : exn_class; exn_str : string }.

(** [inl e]: the operation raised [e]; [inr v]: it returned [v]. *)
Definition result (A : Type) : Type := exn + A.

Definition ok {A} (a : A) : result A := inr a.
Definition throw {A} (c : exn_class) (msg : string) : result A := inl (Exn c msg).

Definition rbind {A B} (c : result A) (k : A -> result B) : result B :=
  match c with
  | inl e => inl e
  | inr a => k a
  end.

Notation "'let?' x := c 'in' k" := (rbind c (fun x => k))
  (at level 10, x name, c at level 100, k at level 200).

(** Python truthiness ([bool(v)]).  A NaN float is true, both zeros are
    false. *)
Definition truthy (v : pyval) : bool :=
  match v with
  | PNone => false
  | PBool b => b
  | PInt z => negb (z =? 0)
  | PFloat f => negb (PrimFloat.eqb f 0%float)
  | PStr s => negb (String.eqb s "")
  | PList l => match l with [] => false | _ => true end
  | PDict d => negb (Nat.eqb (size d) 0)
  end.

(** [type(v).__name__], as it appears in error messages. *)
Definition type_name (v : pyval) : string :=
  match v with
  | PNone => "NoneType"
  | PBool _ => "bool"
  | PInt _ => "int"
  | PFloat _ => "float"
  | PStr _ => "str"
  | PList _ => "list"
  | PDict _ => "dict"
  end.

(** [v == s] for a string literal [s]. *)
Definition eq_str (v : pyval) (s : string) : bool :=
  match v with
  | PStr t => String.eqb t s
  | _ => false
  end.

(** [v.get(k, default)]: only dictionaries have a [get] method. *)
Definition get (v : pyval) (k : string) (default : pyval) : result pyval :=
  match v with
  | PDict d => ok (match d !! k with Some x => x | None => default end)
  | _ => throw AttributeError
           ("'" +:+ type_name v +:+ "' object has no attribute 'get'")
  end.

(** [v[k]] for a string key [k]. *)
Definition getitem (v : pyval) (k : string) : result pyval :=
  match v with
  | PDict d => match d !! k with
               | Some x => ok x
               | None => throw KeyError ("'" +:+ k +:+ "'")
               end
  | PStr _ => throw TypeError "string indices must be integers"
  | PList _ => throw TypeError "list indices must be integers or slices, not str"
  | _ => throw TypeError ("'" +:+ type_name v +:+ "' object is not subscriptable")
  end.

(** [v[k] = x] for a string key [k]. *)
Definition setitem (v : pyval) (k : string) (x : pyval) : result pyval :=
  match v with
  | PDict d => ok (PDict (<[k := x]> d))
  | PList _ => throw TypeError "list indices must be integers or slices, not str"
  | _ => throw TypeError
           ("'" +:+ type_name v +:+ "' object does not support item assignment")
  end.

(** [v.name] where [name] is not the name of a method of [v]'s type: the
    JSON-shaped values carry no data attributes. *)
Definition getattr (v : pyval) (name : string) : result pyval :=
  throw AttributeError
    ("'" +:+ type_name v +:+ "' object has no attribute '" +:+ name +:+ "'").

Definition chars (s : string) : list pyval :=
  (fun c => PStr (String c EmptyString)) <$> list_ascii_of_string s.

(** The elements a [for] loop or a generator visits. *)
Definition iter (v : pyval) : result (list pyval) :=
  match v with
  | PList l => ok l
  | PDict d => ok ((fun kv => PStr kv.1) <$> map_to_list d)
  | PStr s => ok (chars s)
  | _ => throw TypeError ("'" +:+ type_name v +:+ "' object is not iterable")
  end.

(** [len(v)] *)
Definition len (v : pyval) : result Z :=
  match v with
  | PList l => ok (Z.of_nat (length l))
  | PDict d => ok (Z.of_nat (size d))
  | PStr s => ok (Z.of_nat (String.length s))
  | _ => throw TypeError ("object of type '" +:+ type_name v +:+ "' has no len()")
  end.

(** *** Numbers

    [int] is unbounded ([Z]); [float] is IEEE 754 binary64, which is what
    Rocq's primitive floats are. *)

Definition prec : Z := 53.
Definition emax : Z := 1024.

Definition spec_of_Z (z : Z) : spec_float :=
  match z with
  | Z0 => S754_zero false
  | Zpos p => S754_finite false p 0
  | Zneg p => S754_finite true p 0
  end.

Definition is_infinite (f : float) : bool :=
  match Prim2SF f with
  | S754_infinity _ => true
  | _ => false
  end.

(** [float(z)]: rounded to nearest-even, [OverflowError] beyond the range. *)
Definition float_of_int (z : Z) : result float :=
  let f := SF2Prim (binary_normalize prec emax z 0 false) in
  if is_infinite f then throw OverflowError "int too large to convert to float"
  else ok f.

(** [a / b] on two ints: the correctly rounded quotient. *)
Definition int_truediv (a b : Z) : result float :=
  if b =? 0 then throw ZeroDivisionError "division by zero"
  else
    let f := SF2Prim (SFdiv prec emax (spec_of_Z a) (spec_of_Z b)) in
    if is_infinite f
    then throw OverflowError "integer division result too large for a float"
    else ok f.

(** The numeric reading of a value: [bool] is a subclass of [int]. *)
Inductive number : Type :=
  | NInt (z : Z)
  | NFloat (f : float).

Definition as_number (v : pyval) : option number :=
  match v with
  | PBool b => Some (NInt (if b then 1 else 0))
  | PInt z => Some (NInt z)
  | PFloat f => Some (NFloat f)
  | _ => None
  end.

Definition of_number (n : number) : pyval :=
  match n with
  | NInt z => PInt z
  | NFloat f => PFloat f
  end.

Definition to_float (n : number) : result float :=
  match n with
  | NInt z => float_of_int z
  | NFloat f => ok f
  end.

Definition unsupported {A} (op : string) (a b : pyval) : result A :=
  throw TypeError
    ("unsupported operand type(s) for " +:+ op +:+ ": '" +:+ type_name a
       +:+ "' and '" +:+ type_name b +:+ "'").

(** [a + b] with a numeric left operand (the accumulator of [sum] and the
    score counter are the only left operands in the modelled code). *)
Definition add (a b : pyval) : result pyval :=
  match as_number a, as_number b with
  | Some (NInt x), Some (NInt y) => ok (PInt (x + y))
  | Some x, Some y =>
      let? fx := to_float x in
      let? fy := to_float y in
      ok (PFloat (PrimFloat.add fx fy))
  | _, _ => unsupported "+" a b
  end.

(** [a * b] on numbers. *)
Definition mul (a b : pyval) : result pyval :=
  match as_number a, as_number b with
  | Some (NInt x), Some (NInt y) => ok (PInt (x * y))
  | Some x, Some y =>
      let? fx := to_float x in
      let? fy := to_float y in
      ok (PFloat (PrimFloat.mul fx fy))
  | _, _ => unsupported "*" a b
  end.

(** [n == 0]; converting a non-zero int to a float never gives zero, so
    the test on the number is the test Python makes on the converted one. *)
Definition is_zero (n : number) : bool :=
  match n with
  | NInt z => z =? 0
  | NFloat f => PrimFloat.eqb f 0%float
  end.

(** [a / b] on numbers. *)
Definition truediv (a b : pyval) : result pyval :=
  match as_number a, as_number b with
  | Some (NInt x), Some (NInt y) =>
      let? f := int_truediv x y in ok (PFloat f)
  | Some x, Some y =>
      let? fx := to_float x in
      let? fy := to_float y in
      if is_zero y
      then throw ZeroDivisionError "float division by zero"
      else ok (PFloat (PrimFloat.div fx fy))
  | _, _ => unsupported "/" a b
  end.

(** Comparison of a number with an int: exact, also for floats. *)
Definition compare_int (n : number) (k : Z) : option comparison :=
  match n with
  | NInt z => Some (z ?= k)
  | NFloat f =>
      match Prim2SF f with
      | S754_nan => None
      | S754_infinity s => Some (if s then Lt else Gt)
      | S754_zero _ => Some (0 ?= k)
      | S754_finite s m e =>
          let z := if s then Zneg m else Zpos m in
          if 0 <=? e then Some (z * 2 ^ e ?= k)
          else Some (z ?= k * 2 ^ (- e))
      end
  end.

Definition not_ordered {A} (op : string) (a : pyval) : result A :=
  throw TypeError
    ("'" +:+ op +:+ "' not supported between instances of '" +:+ type_name a
       +:+ "' and 'int'").

(** [v > k] for an int literal [k]. *)
Definition gt_int (v : pyval) (k : Z) : result bool :=
  match as_number v with
  | Some n => ok (match compare_int n k with Some Gt => true | _ => false end)
  | None => not_ordered ">" v
  end.

(** [v >= k] for an int literal [k]. *)
Definition ge_int (v : pyval) (k : Z) : result bool :=
  match as_number v with
  | Some n => ok (match compare_int n k with
                  | Some Gt | Some Eq => true
                  | _ => false
                  end)
  | None => not_ordered ">=" v
  end.

(** [sum(vs)]: starts from the int [0]. *)
Definition sum (vs : list pyval) : result pyval :=
  foldl (fun acc v => let? a := acc in add a v) (ok (PInt 0)) vs.

End Py.

Export Py.

(** ** The ambient services: clock and object identities *)

(** [datetime.utcnow()] *)
Record datetime : Type := Datetime {
  year : Z; month : Z; day : Z;
  hour : Z; minute : Z; second : Z; microsecond : Z
}.

Fixpoint zeros (n : nat) : string :=
  match n with
  | O => ""
  | S k => "0" +:+ zeros k
  end.

(** [s] left-padded with zeros to [width] characters. *)
Definition zero_pad (width : nat) (s : string) : string :=
  zeros (width - String.length s) +:+ s.

Definition digits (width : nat) (z : Z) : string := zero_pad width (pretty z).

(** [datetime.isoformat()]: the microseconds are printed unless they are 0. *)
Definition isoformat (d : datetime) : string :=
  digits 4 (year d) +:+ "-" +:+ digits 2 (month d) +:+ "-" +:+ digits 2 (day d)
    +:+ "T" +:+ digits 2 (hour d) +:+ ":" +:+ digits 2 (minute d) +:+ ":"
    +:+ digits 2 (second d)
    +:+ (if microsecond d =? 0 then "" else "." +:+ digits 6 (microsecond d)).

(** What a constructor call reads from its surroundings: [int(time.time())],
    [id(self)] and [datetime.utcnow()]. *)
Record Ambient : Type := {
  time_time : Z;
  object_id : Z;
  utcnow : datetime
}.

(** ** Enumerations *)

Inductive AgentType : Type :=
  | ORCHESTRATOR | CRAWLER | ANALYSIS | IMPLEMENTATION | FEEDBACK.

Inductive MessageType : Type :=
  | REQUEST | RESPONSE | NOTIFICATION | ERROR.

Module SystemState.
Inductive t : Type :=
  | INITIALIZING | CRAWLING | ANALYZING | IMPLEMENTING | FEEDBACK
  | COMPLETE | ERROR.

Definition value (s : t) : string :=
  match s with
  | INITIALIZING => "initializing"
  | CRAWLING => "crawling"
  | ANALYZING => "analyzing"
  | IMPLEMENTING => "implementing"
  | FEEDBACK => "feedback"
  | COMPLETE => "complete"
  | ERROR => "error"
  end.
End SystemState.
Abbreviation SystemState := SystemState.t.

#[global] Instance AgentType_eq_dec : EqDecision AgentType.
Proof. solve_decision. Defined.
#[global] Instance MessageType_eq_dec : EqDecision MessageType.
Proof. solve_decision. Defined.
#[global] Instance SystemState_eq_dec : EqDecision SystemState.
Proof. solve_decision. Defined.

(** [AgentType.X.value] *)
Definition AgentType_value (a : AgentType) : string :=
  match a with
  | ORCHESTRATOR => "orchestrator"
  | CRAWLER => "crawler"
  | ANALYSIS => "analysis"
  | IMPLEMENTATION => "implementation"
  | FEEDBACK => "feedback"
  end.

(** [MessageType.X.value] *)
Definition MessageType_value (t : MessageType) : string :=
  match t with
  | REQUEST => "request"
  | RESPONSE => "response"
  | NOTIFICATION => "notification"
  | ERROR => "error"
  end.

(** The members in definition order, as iterating the enum class gives. *)
Definition AgentType_members : list AgentType :=
  [ORCHESTRATOR; CRAWLER; ANALYSIS; IMPLEMENTATION; FEEDBACK].

Definition MessageType_members : list MessageType :=
  [REQUEST; RESPONSE; NOTIFICATION; ERROR].

(** The message of the [ValueError] of a failed enum lookup; Python prints
    the [repr] of the value, rendered here for strings and abbreviated to
    the type name otherwise. *)
Definition not_a_valid (v : pyval) (enum : string) : string :=
  match v with
  | PStr s => "'" +:+ s +:+ "' is not a valid " +:+ enum
  | _ => type_name v +:+ " is not a valid " +:+ enum
  end.

(** [AgentType(v)]: lookup by value. *)
Definition AgentType_of (v : pyval) : result AgentType :=
  match List.find (fun a => eq_str v (AgentType_value a)) AgentType_members with
  | Some a => ok a
  | None => throw ValueError (not_a_valid v "AgentType")
  end.

(** [MessageType(v)]: lookup by value. *)
Definition MessageType_of (v : pyval) : result MessageType :=
  match List.find (fun t => eq_str v (MessageType_value t)) MessageType_members with
  | Some t => ok t
  | None => throw ValueError (not_a_valid v "MessageType")
  end.

(** ** Message *)

Module Message.

(** The attributes of a [Message].  Python checks none of the annotated
    types, so the free-form ones are kept as values. *)
Record Message : Type := {
  message_id : pyval;
  source_agent : AgentType;
  destination_agent : AgentType;
  message_type : MessageType;
  timestamp : pyval;
  priority : pyval;
  payload : pyval;
  metadata : pyval
}.

(** [x or y] *)
Definition or_else (x y : pyval) : pyval := if truthy x then x else y.

(** [Message.__init__]; an omitted [message_id], [timestamp] or [metadata]
    is [PNone], an omitted [priority] is [PInt 5]. *)
Definition init (amb : Ambient)
    (source_agent destination_agent : AgentType) (message_type : MessageType)
    (payload message_id timestamp priority metadata : pyval) : Message :=
  {| message_id :=
       or_else message_id
         (PStr (pretty (time_time amb) +:+ "-" +:+ pretty (object_id amb)));
     source_agent := source_agent;
     destination_agent := destination_agent;
     message_type := message_type;
     timestamp := or_else timestamp (PStr (isoformat (utcnow amb)));
     priority := priority;
     payload := payload;
     metadata := or_else metadata (PDict ∅) |}.

(** [Message.to_dict] *)
Definition to_dict (self : Message) : gmap string pyval :=
  <["message_id" := message_id self]>
  (<["source_agent" := PStr (AgentType_value (source_agent self))]>
  (<["destination_agent" := PStr (AgentType_value (destination_agent self))]>
  (<["message_type" := PStr (MessageType_value (message_type self))]>
  (<["timestamp" := timestamp self]>
  (<["priority" := priority self]>
  (<["payload" := payload self]>
  (<["metadata" := metadata self]> ∅))))))).

(** [Message.from_dict]; the arguments are evaluated in the order the call
    lists them. *)
Definition from_dict (amb : Ambient) (data : pyval) : result Message :=
  let? src_v := getitem data "source_agent" in
  let? src := AgentType_of src_v in
  let? dst_v := getitem data "destination_agent" in
  let? dst := AgentType_of dst_v in
  let? mt_v := getitem data "message_type" in
  let? mt := MessageType_of mt_v in
  let? payload := getitem data "payload" in
  let? message_id := getitem data "message_id" in
  let? timestamp := getitem data "timestamp" in
  let? priority := getitem data "priority" in
  let? metadata := getitem data "metadata" in
  ok (init amb src dst mt payload message_id timestamp priority metadata).

End Message.
Abbreviation Message := Message.Message.

(** ** The world an agent acts on *)

(** A file holds JSON text, kept parsed, or something [json.load] rejects. *)
Inductive file : Type :=
  | Json (v : pyval)
  | Unparsable.

(** The files, the shared [asyncio.Queue] (head = next message out) and a
    counter of the interactions with the surroundings so far. *)
Record World : Type := {
  fs : gmap string file;
  queue : list Message;
  clock : nat
}.

(** What the model does not decide, indexed by [clock]: the module
    constants, what the clock and [id] return, whether a file can be opened
    for writing, what the other tasks do to the world while this one
    sleeps, and whether [MultiAgentSystem.stop] runs meanwhile. *)
Record Env : Type := {
  PROJECT_ROOT : string;
  FOREVERVM_AVAILABLE : bool;
  ambient : nat -> Ambient;
  writable : nat -> bool;
  others : nat -> World -> World;
  stop_requested : nat -> bool
}.

(** [a / b] on paths. *)
Definition path_join (a b : string) : string := a +:+ "/" +:+ b.

Definition MULTI_AGENT_DIR (env : Env) : string :=
  path_join (PROJECT_ROOT env) "test_multi_agent".

Definition CONFIG_PATH (env : Env) : string :=
  path_join (path_join (MULTI_AGENT_DIR env) "shared") "config.json".

(** ** State and exceptions *)

Section Monad.
Context {S : Type}.

(** A computation returns or raises, and leaves a state either way. *)
Definition M (A : Type) : Type := S -> result A * S.

Definition ret {A} (a : A) : M A := fun s => (ok a, s).

Definition bind {A B} (c : M A) (k : A -> M B) : M B :=
  fun s =>
    match c s with
    | (inl e, s') => (inl e, s')
    | (inr a, s') => k a s'
    end.

Definition raise {A} (e : exn) : M A := fun s => (inl e, s).

Definition lift {A} (r : result A) : M A := fun s => (r, s).

Definition gets {A} (f : S -> A) : M A := fun s => (ok (f s), s).

Definition modify (f : S -> S) : M unit := fun s => (ok tt, f s).

(** [try: c  except Exception as e: h e] *)
Definition try_except {A} (c : M A) (h : exn -> M A) : M A :=
  fun s =>
    match c s with
    | (inl e, s') => h e s'
    | (inr a, s') => (inr a, s')
    end.

(** [try: c  finally: f] *)
Definition try_finally {A} (c : M A) (f : M unit) : M A :=
  fun s =>
    match c s with
    | (r, s') =>
        match f s' with
        | (inl e, s'') => (inl e, s'')
        | (inr _, s'') => (r, s'')
        end
    end.
End Monad.

Arguments M : clear implicits.

Notation "'do' x <- c ; k" := (bind c (fun x => k))
  (at level 10, x name, c at level 100, k at level 200).
Notation "c ;; k" := (bind c (fun _ => k))
  (at level 100, k at level 200, right associativity).

Definition when {S} (b : bool) (c : M S unit) : M S unit :=
  if b then c else ret tt.

(** ** Agent (base class) *)

Module Agent.

(** The attributes of an agent; [ext] holds those a subclass adds.  The
    paths are functions of [agent_type], the queue is in the world. *)
Record Agent (E : Type) : Type := {
  agent_type : AgentType;
  running : bool;
  status : string;
  ext : E
}.
Arguments agent_type {E}.
Arguments running {E}.
Arguments status {E}.
Arguments ext {E}.

Record State (E : Type) : Type := {
  self : Agent E;
  world : World
}.
Arguments self {E}.
Arguments world {E}.

Section Base.
Context (env : Env) {E : Type}.

Local Abbreviation Act := (M (State E)).

Definition with_running (b : bool) (a : Agent E) : Agent E :=
  {| agent_type := agent_type a; running := b; status := status a; ext := ext a |}.

Definition with_status (s : string) (a : Agent E) : Agent E :=
  {| agent_type := agent_type a; running := running a; status := s; ext := ext a |}.

Definition with_ext (x : E) (a : Agent E) : Agent E :=
  {| agent_type := agent_type a; running := running a; status := status a; ext := x |}.

Definition on_self (f : Agent E -> Agent E) : Act unit :=
  modify (fun st => {| self := f (self st); world := world st |}).

Definition on_world (f : World -> World) : Act unit :=
  modify (fun st => {| self := self st; world := f (world st) |}).

Definition tick (w : World) : World :=
  {| fs := fs w; queue := queue w; clock := S (clock w) |}.

(** Reading the clock and [id]. *)
Definition now : Act Ambient :=
  do t <- gets (fun st => clock (world st));
  on_world tick;;
  ret (ambient env t).

Definition output_dir (a : AgentType) : string :=
  path_join (path_join (MULTI_AGENT_DIR env) (AgentType_value a)) "output".

Definition status_file (a : AgentType) : string :=
  path_join (output_dir a) "status.json".

Definition result_file (a : AgentType) : string :=
  path_join (output_dir a) "result.json".

(** [Agent.__init__] *)
Definition init (agent_type : AgentType) (x : E) : Agent E :=
  {| agent_type := agent_type; running := false; status := "idle"; ext := x |}.

(** The guarded write every writer of the source uses:
    [try: with open(path, 'w') as f: json.dump(v, f, indent=2)
     except Exception as e: logger.error(...)].
    When the file cannot be opened the error is logged and the file keeps
    what it held. *)
Definition write (path : string) (v : pyval) (w : World) : World :=
  {| fs := if writable env (clock w) then <[path := Json v]> (fs w) else fs w;
     queue := queue w;
     clock := S (clock w) |}.

Definition write_json (path : string) (v : pyval) : Act unit :=
  on_world (write path v).

(** [with open(path, 'r') as f: json.load(f)] *)
Definition load_json (path : string) : Act pyval :=
  do files <- gets (fun st => fs (world st));
  match files !! path with
  | Some (Json v) => ret v
  | Some Unparsable =>
      raise (Exn JSONDecodeError "Expecting value: line 1 column 1 (char 0)")
  | None =>
      raise (Exn FileNotFoundError
               ("[Errno 2] No such file or directory: '" +:+ path +:+ "'"))
  end.

(** [load_config]: a missing or unreadable file gives the empty mapping. *)
Definition load_config : Act pyval :=
  do files <- gets (fun st => fs (world st));
  match files !! CONFIG_PATH env with
  | Some _ => try_except (load_json (CONFIG_PATH env)) (fun _ => ret (PDict ∅))
  | None => ret (PDict ∅)
  end.

(** [save_config] *)
Definition save_config (config : pyval) : Act unit :=
  write_json (CONFIG_PATH env) config.

(** [Agent.update_status]; [error] is the [Optional[str]] argument. *)
Definition update_status (error : option string) : Act unit :=
  do st <- gets (fun st => status (self st));
  do amb <- now;
  do a <- gets (fun st => agent_type (self st));
  let status_data : gmap string pyval :=
    <["status" := PStr st]>
    (<["timestamp" := PStr (isoformat (utcnow amb))]>
    (<["agent_type" := PStr (AgentType_value a)]> ∅)) in
  do status_data <-
    match error with
    | Some e =>
        if negb (String.eqb e "")
        then
          let with_error := <["error" := PStr e]> status_data in
          on_self (with_status "error");;
          ret with_error
        else ret status_data
    | None => ret status_data
    end;
  write_json (status_file a) (PDict status_data).

(** [Agent.save_result] *)
Definition save_result (result : pyval) : Act unit :=
  do a <- gets (fun st => agent_type (self st));
  write_json (result_file a) result.

(** [Agent.start] *)
Definition start : Act unit :=
  on_self (with_running true);;
  on_self (with_status "running");;
  update_status None.

(** [Agent.stop] *)
Definition stop : Act unit :=
  on_self (with_running false);;
  on_self (with_status "idle");;
  update_status None.

(** [Agent.handle_message]: logs the message and returns [None]. *)
Definition handle_message (message : Message) : Act (option Message) :=
  ret None.

(** [await self.message_queue.put(m)]: the queue is unbounded. *)
Definition put (m : Message) : Act unit :=
  on_world (fun w => {| fs := fs w; queue := queue w ++ [m]; clock := clock w |}).

(** [Message(source_agent=self.agent_type, ...)] with the defaults of the
    arguments left out. *)
Definition new_message (destination : AgentType) (message_type : MessageType)
    (payload priority metadata : pyval) : Act Message :=
  do a <- gets (fun st => agent_type (self st));
  do amb <- now;
  ret (Message.init amb a destination message_type payload PNone PNone
         priority metadata).

(** [Agent.send_message], returning the message id. *)
Definition send_message (destination : AgentType) (message_type : MessageType)
    (payload : pyval) : Act pyval :=
  do message <- new_message destination message_type payload (PInt 5) PNone;
  put message;;
  ret (Message.message_id message).

(** [await asyncio.sleep(d)]: the other tasks run; when one of them is
    [MultiAgentSystem.stop], it calls this agent's [stop]. *)
Definition sleep : Act unit :=
  do t <- gets (fun st => clock (world st));
  on_world tick;;
  on_world (others env t);;
  when (stop_requested env t) stop.

(** [Agent.do_work] *)
Definition do_work : Act unit := sleep.

(** The methods [run] calls through [self], which a subclass overrides. *)
Record Methods : Type := {
  m_start : Act unit;
  m_handle_message : Message -> Act (option Message);
  m_do_work : Act unit
}.

Definition base_methods : Methods :=
  {| m_start := start; m_handle_message := handle_message; m_do_work := do_work |}.

Section Run.
Context (cls : Methods).

(** The body of the [while self.running] loop. *)
Definition loop_body : Act unit :=
  do q <- gets (fun st => queue (world st));
  match q with
  | message :: rest =>
      on_world (fun w => {| fs := fs w; queue := rest; clock := clock w |});;
      do a <- gets (fun st => agent_type (self st));
      if decide (Message.destination_agent message = a)
      then
        do response <- m_handle_message cls message;
        match response with
        | Some r => put r
        | None => ret tt
        end
      else put message
  | [] =>
      (* asyncio.QueueEmpty *)
      m_do_work cls;;
      sleep
  end.

(** The loop, followed for at most [left] iterations: [Some tt] when it
    has ended, [None] when it is still running after [left] of them. *)
Fixpoint while_running (left : nat) : Act (option unit) :=
  do r <- gets (fun st => running (self st));
  if r
  then match left with
       | O => ret None
       | S n => loop_body;; while_running n
       end
  else ret (Some tt).

(** The [try]/[except] of [run], without the [finally]. *)
Definition run_guarded (left : nat) : Act (option unit) :=
  try_except
    (m_start cls;; while_running left)
    (fun e =>
       on_self (with_status "error");;
       update_status (Some (exn_str e));;
       ret (Some tt)).

(** [Agent.run].  A loop that is still running after [left] iterations
    has not reached the [finally] clause. *)
Definition run (left : nat) : Act (option unit) :=
  fun st =>
    match run_guarded left st with
    | (inr None, st') => (inr None, st')
    | _ => try_finally (run_guarded left) stop st
    end.
End Run.
End Base.

End Agent.

(** [sum(f(x) for x in xs if ...)]: the generator is consumed lazily, so an
    element is produced, and may raise, only after the ones before it have
    been added.  [f x = None] is an element the filter drops. *)
Fixpoint sum_gen (f : pyval -> result (option pyval)) (acc : pyval)
    (xs : list pyval) : result pyval :=
  match xs with
  | [] => ok acc
  | x :: rest =>
      let? y := f x in
      match y with
      | Some v => let? acc' := add acc v in sum_gen f acc' rest
      | None => sum_gen f acc rest
      end
  end.

(** [f"...{str(e)}"] payload of the error notice of a stage. *)
Definition error_payload (prefix : string) (e : exn) : pyval :=
  PDict (<["error" := PStr (prefix +:+ exn_str e)]> ∅).

(** ** AnalysisAgent *)

Module AnalysisAgent.

(** [sum(1 for page in pages if page.get(flag, False))] *)
Definition count_flag (pages : pyval) (flag : string) : result pyval :=
  let? ps := iter pages in
  sum_gen (fun page =>
             let? v := get page flag (PBool false) in
             ok (if truthy v then Some (PInt 1) else None))
          (PInt 0) ps.

(** [sum(x.get(key, 0) for x in xs)] *)
Definition sum_key (xs : pyval) (key : string) : result pyval :=
  let? l := iter xs in
  sum_gen (fun x => let? v := get x key (PInt 0) in ok (Some v)) (PInt 0) l.

(** [(count / len(pages)) * 100 if pages else 0] *)
Definition percentage (count pages : pyval) : result pyval :=
  if truthy pages
  then
    let? n := len pages in
    let? q := truediv count (PInt n) in
    mul q (PInt 100)
  else ok (PInt 0).

(** [total / len(xs)] *)
Definition average (total xs : pyval) : result pyval :=
  let? n := len xs in
  truediv total (PInt n).

(** The mapping assigned to [analysis["page_structure"]]. *)
Definition page_structure_of (pages : pyval) : result (gmap string pyval) :=
  let? has_header_count := count_flag pages "has_header" in
  let? has_footer_count := count_flag pages "has_footer" in
  let? has_nav_count := count_flag pages "has_nav" in
  let? header_percentage := percentage has_header_count pages in
  let? footer_percentage := percentage has_footer_count pages in
  let? nav_percentage := percentage has_nav_count pages in
  let? avg_sections_per_page :=
    if truthy pages
    then let? total := sum_key pages "num_sections" in average total pages
    else ok (PInt 0) in
  ok (<["header_percentage" := header_percentage]>
      (<["footer_percentage" := footer_percentage]>
      (<["nav_percentage" := nav_percentage]>
      (<["avg_sections_per_page" := avg_sections_per_page]> ∅)))).

(** The mapping assigned to [analysis["asset_analysis"]] when the crawl
    result has assets. *)
Definition asset_analysis_of (assets : pyval) : result (gmap string pyval) :=
  let? total_css := sum_key assets "css_count" in
  let? total_js := sum_key assets "js_count" in
  let? total_images := sum_key assets "image_count" in
  let? avg_css := average total_css assets in
  let? avg_js := average total_js assets in
  let? avg_images := average total_images assets in
  ok (<["total_css_files" := total_css]>
      (<["total_js_files" := total_js]>
      (<["total_images" := total_images]>
      (<["avg_css_per_page" := avg_css]>
      (<["avg_js_per_page" := avg_js]>
      (<["avg_images_per_page" := avg_images]> ∅)))))).

(** [analysis["recommendations"].append(text)] when [cond] holds. *)
Definition recommend (cond : bool) (text : string)
    (analysis : gmap string pyval) : result (gmap string pyval) :=
  if cond
  then
    let? rs := getitem (PDict analysis) "recommendations" in
    match rs with
    | PList l => ok (<["recommendations" := PList (l ++ [PStr text])]> analysis)
    | _ => let? absent := getattr rs "append" in ok analysis
    end
  else ok analysis.

(** The computation of [analyze_crawl_result] between loading the crawl
    result and saving the analysis. *)
Definition analysis_of (crawl_result : pyval) : result (gmap string pyval) :=
  let? base_url := getitem crawl_result "base_url" in
  let? pages := getitem crawl_result "pages" in
  let? pages_analyzed := len pages in
  let analysis : gmap string pyval :=
    <["base_url" := base_url]>
    (<["pages_analyzed" := PInt pages_analyzed]>
    (<["page_structure" := PDict ∅]>
    (<["common_patterns" := PDict ∅]>
    (<["asset_analysis" := PDict ∅]>
    (<["recommendations" := PList []]> ∅))))) in
  let? page_structure := page_structure_of pages in
  let analysis := <["page_structure" := PDict page_structure]> analysis in
  let? assets := getitem crawl_result "assets" in
  let? analysis :=
    if truthy assets
    then let? aa := asset_analysis_of assets in
         ok (<["asset_analysis" := PDict aa]> analysis)
    else ok analysis in
  let? ps := getitem (PDict analysis) "page_structure" in
  let? hp := getitem ps "header_percentage" in
  let? c1 := gt_int hp 90 in
  let? analysis :=
    recommend c1 "Implement consistent header across all pages" analysis in
  let? ps := getitem (PDict analysis) "page_structure" in
  let? fp := getitem ps "footer_percentage" in
  let? c2 := gt_int fp 90 in
  let? analysis :=
    recommend c2 "Implement consistent footer across all pages" analysis in
  let? c3 :=
    match analysis !! "asset_analysis" with
    | Some _ =>
        let? aa := getitem (PDict analysis) "asset_analysis" in
        let? avg_js := getitem aa "avg_js_per_page" in
        gt_int avg_js 5
    | None => ok false
    end in
  recommend c3
    "Consider bundling JavaScript files to improve loading performance"
    analysis.

Section Methods.
Context (env : Env).
Local Abbreviation Act := (M (Agent.State unit)).

Definition result_path : pyval := PStr (Agent.result_file env ANALYSIS).

(** [AnalysisAgent.analyze_crawl_result] *)
Definition analyze_crawl_result (crawl_result_path : string) : Act unit :=
  try_except
    (do crawl_result <- Agent.load_json crawl_result_path;
     do analysis <- lift (analysis_of crawl_result);
     Agent.save_result env (PDict analysis);;
     do pages <- lift (getitem crawl_result "pages");
     do n <- lift (len pages);
     Agent.send_message env ORCHESTRATOR NOTIFICATION
       (PDict (<["status" := PStr "complete"]>
               (<["pages_analyzed" := PInt n]>
               (<["result_path" := result_path]> ∅))));;
     Agent.send_message env IMPLEMENTATION REQUEST
       (PDict (<["action" := PStr "implement"]>
               (<["analysis_result_path" := result_path]>
               (<["crawl_result_path" := PStr crawl_result_path]> ∅))));;
     ret tt)
    (fun e =>
       Agent.send_message env ORCHESTRATOR ERROR
         (error_payload "Error analyzing crawl result: " e);;
       Agent.on_self (Agent.with_status "error");;
       Agent.update_status env (Some (exn_str e))).
End Methods.

End AnalysisAgent.

(** ** FeedbackAgent *)

Module FeedbackAgent.

(** The local mapping [feedback] of [evaluate_implementation]; its keys are
    fixed, so it is a record here. *)
Record feedback : Type := {
  implementation_path : string;
  score : pyval;
  strengths : list string;
  weaknesses : list string;
  suggestions : list string;
  overall_assessment : string
}.

Definition add_strength (s : string) (f : feedback) : feedback :=
  {| implementation_path := implementation_path f; score := score f;
     strengths := strengths f ++ [s]; weaknesses := weaknesses f;
     suggestions := suggestions f; overall_assessment := overall_assessment f |}.

Definition add_weakness (s : string) (f : feedback) : feedback :=
  {| implementation_path := implementation_path f; score := score f;
     strengths := strengths f; weaknesses := weaknesses f ++ [s];
     suggestions := suggestions f; overall_assessment := overall_assessment f |}.

Definition add_suggestion (s : string) (f : feedback) : feedback :=
  {| implementation_path := implementation_path f; score := score f;
     strengths := strengths f; weaknesses := weaknesses f;
     suggestions := suggestions f ++ [s]; overall_assessment := overall_assessment f |}.

Definition set_assessment (s : string) (f : feedback) : feedback :=
  {| implementation_path := implementation_path f; score := score f;
     strengths := strengths f; weaknesses := weaknesses f;
     suggestions := suggestions f; overall_assessment := s |}.

(** [feedback["score"] += v] *)
Definition add_score (v : pyval) (f : feedback) : result feedback :=
  let? s := add (score f) v in
  ok {| implementation_path := implementation_path f; score := s;
        strengths := strengths f; weaknesses := weaknesses f;
        suggestions := suggestions f; overall_assessment := overall_assessment f |}.

Definition to_pyval (f : feedback) : pyval :=
  PDict (<["implementation_path" := PStr (implementation_path f)]>
         (<["score" := score f]>
         (<["strengths" := PList (PStr <$> strengths f)]>
         (<["weaknesses" := PList (PStr <$> weaknesses f)]>
         (<["suggestions" := PList (PStr <$> suggestions f)]>
         (<["overall_assessment" := PStr (overall_assessment f)]> ∅)))))).

Definition one_half : float := 0.5%float.

(** [implementation.get("test_results", {}).get("tests_passed")] *)
Definition tests_passed (implementation : pyval) : result pyval :=
  let? tr := get implementation "test_results" (PDict ∅) in
  get tr "tests_passed" PNone.

(** [v is False] *)
Definition is_False (v : pyval) : bool :=
  match v with
  | PBool false => true
  | _ => false
  end.

(** The [if]/[elif]/[else] on [feedback["score"]] that sets
    [feedback["overall_assessment"]]. *)
Definition assess (f : feedback) : result feedback :=
  let? good := ge_int (score f) 2 in
  if good
  then ok (set_assessment "Good implementation that meets most requirements" f)
  else
    let? acceptable := ge_int (score f) 1 in
    if acceptable
    then ok (set_assessment
               "Acceptable implementation with room for improvement" f)
    else ok (set_assessment "Implementation needs significant improvement" f).

(** The computation of [evaluate_implementation] between loading the three
    results and saving the feedback. *)
Definition feedback_of (implementation_result_path : string)
    (implementation analysis : pyval) : result feedback :=
  let feedback :=
    {| implementation_path := implementation_result_path; score := PInt 0;
       strengths := []; weaknesses := []; suggestions := [];
       overall_assessment := "" |} in
  let? files := getitem implementation "files" in
  let? n := len files in
  let? feedback :=
    if 3 <=? n
    then add_score (PInt 1)
           (add_strength "Generated all required files (HTML, CSS, JavaScript)"
              feedback)
    else ok (add_weakness "Missing some required files" feedback) in
  let? passed := tests_passed implementation in
  let? feedback :=
    if truthy passed
    then add_score (PInt 1)
           (add_strength "Implementation passes all tests" feedback)
    else
      let? passed' := tests_passed implementation in
      if is_False passed'
      then ok (add_weakness "Implementation fails some tests" feedback)
      else ok feedback in
  let? recs := get analysis "recommendations" (PList []) in
  let? visited := iter recs in
  let recommendations_followed := Z.of_nat (length visited) in
  let? recs' := get analysis "recommendations" (PList []) in
  let? total := len recs' in
  let? feedback :=
    if recommendations_followed =? total
    then add_score (PInt 1)
           (add_strength
              "Implementation follows all recommendations from analysis"
              feedback)
    else if 0 <? recommendations_followed
    then add_score (PFloat one_half)
           (add_strength
              ("Implementation follows " +:+ pretty recommendations_followed
                 +:+ " recommendations from analysis")
              feedback)
    else ok feedback in
  let feedback :=
    add_suggestion "Consider adding animation effects for better user experience"
      (add_suggestion "Implement accessibility improvements"
         (add_suggestion "Add more responsive design features" feedback)) in
  assess feedback.

Section Methods.
Context (env : Env).
Local Abbreviation Act := (M (Agent.State unit)).

(** [FeedbackAgent.evaluate_implementation] *)
Definition evaluate_implementation
    (implementation_result_path analysis_result_path crawl_result_path : string)
    : Act unit :=
  try_except
    (do implementation <- Agent.load_json implementation_result_path;
     do analysis <- Agent.load_json analysis_result_path;
     do crawl_result <- Agent.load_json crawl_result_path;
     do feedback <-
       lift (feedback_of implementation_result_path implementation analysis);
     Agent.save_result env (to_pyval feedback);;
     Agent.send_message env ORCHESTRATOR NOTIFICATION
       (PDict (<["status" := PStr "complete"]>
               (<["score" := score feedback]>
               (<["result_path" := PStr (Agent.result_file env FEEDBACK)]> ∅))));;
     ret tt)
    (fun e =>
       Agent.send_message env ORCHESTRATOR ERROR
         (error_payload "Error evaluating implementation: " e);;
       Agent.on_self (Agent.with_status "error");;
       Agent.update_status env (Some (exn_str e))).
End Methods.

End FeedbackAgent.

(** ** OrchestratorAgent *)

Module OrchestratorAgent.

(** The attributes [OrchestratorAgent.__init__] adds. *)
Record Fields : Type := {
  config : pyval;
  system_state : SystemState;
  agents_status : gmap string string;
  agent_results : gmap string pyval;
  current_iteration : Z;
  max_iterations : Z;
  target_url : pyval
}.

Definition with_config (v : pyval) (f : Fields) : Fields :=
  {| config := v; system_state := system_state f;
     agents_status := agents_status f; agent_results := agent_results f;
     current_iteration := current_iteration f;
     max_iterations := max_iterations f; target_url := target_url f |}.

Definition with_system_state (s : SystemState) (f : Fields) : Fields :=
  {| config := config f; system_state := s;
     agents_status := agents_status f; agent_results := agent_results f;
     current_iteration := current_iteration f;
     max_iterations := max_iterations f; target_url := target_url f |}.

Definition with_agents_status (m : gmap string string) (f : Fields) : Fields :=
  {| config := config f; system_state := system_state f;
     agents_status := m; agent_results := agent_results f;
     current_iteration := current_iteration f;
     max_iterations := max_iterations f; target_url := target_url f |}.

Definition with_agent_results (m : gmap string pyval) (f : Fields) : Fields :=
  {| config := config f; system_state := system_state f;
     agents_status := agents_status f; agent_results := m;
     current_iteration := current_iteration f;
     max_iterations := max_iterations f; target_url := target_url f |}.

Definition with_current_iteration (n : Z) (f : Fields) : Fields :=
  {| config := config f; system_state := system_state f;
     agents_status := agents_status f; agent_results := agent_results f;
     current_iteration := n;
     max_iterations := max_iterations f; target_url := target_url f |}.

Definition with_max_iterations (n : Z) (f : Fields) : Fields :=
  {| config := config f; system_state := system_state f;
     agents_status := agents_status f; agent_results := agent_results f;
     current_iteration := current_iteration f;
     max_iterations := n; target_url := target_url f |}.

Definition with_target_url (v : pyval) (f : Fields) : Fields :=
  {| config := config f; system_state := system_state f;
     agents_status := agents_status f; agent_results := agent_results f;
     current_iteration := current_iteration f;
     max_iterations := max_iterations f; target_url := v |}.

(** [any(status == "error" for status in statuses.values())] *)
Definition any_error (statuses : gmap string string) : bool :=
  existsb (fun kv => String.eqb kv.2 "error") (map_to_list statuses).

(** [statuses[key]] *)
Definition status_of (statuses : gmap string string) (key : string)
    : result string :=
  match statuses !! key with
  | Some s => ok s
  | None => throw KeyError ("'" +:+ key +:+ "'")
  end.

(** [key in results] *)
Definition has_result (results : gmap string pyval) (key : string) : bool :=
  match results !! key with
  | Some _ => true
  | None => false
  end.

Section Methods.
Context (env : Env).
Local Abbreviation Act := (M (Agent.State Fields)).

Definition fields : Act Fields := gets (fun st => Agent.ext (Agent.self st)).

Definition on_fields (f : Fields -> Fields) : Act unit :=
  Agent.on_self (fun a => Agent.with_ext (f (Agent.ext a)) a).

(** [OrchestratorAgent.__init__] *)
Definition init : Agent.Agent Fields :=
  Agent.init ORCHESTRATOR
    {| config := PDict ∅;
       system_state := SystemState.INITIALIZING;
       agents_status :=
         list_to_map ((fun a => (AgentType_value a, "idle")) <$> AgentType_members);
       agent_results := ∅;
       current_iteration := 0;
       max_iterations := 3;
       target_url := PNone |}.

Definition state_file : string :=
  path_join (Agent.output_dir env ORCHESTRATOR) "system_state.json".

(** [OrchestratorAgent.update_system_state] *)
Definition update_system_state : Act unit :=
  do f <- fields;
  do amb <- Agent.now env;
  let state_data : gmap string pyval :=
    <["state" := PStr (SystemState.value (system_state f))]>
    (<["timestamp" := PStr (isoformat (utcnow amb))]>
    (<["current_iteration" := PInt (current_iteration f)]>
    (<["max_iterations" := PInt (max_iterations f)]>
    (<["agent_states" := PDict (PStr <$> agents_status f)]>
    (<["target_url" := target_url f]>
    (<["forevervm_available" := PBool (FOREVERVM_AVAILABLE env)]> ∅)))))) in
  Agent.write_json env state_file (PDict state_data).

Definition set_state (s : SystemState) : Act unit :=
  on_fields (with_system_state s);;
  update_system_state.

(** [OrchestratorAgent.start_iteration] *)
Definition start_iteration : Act unit :=
  on_fields (fun f => with_current_iteration (current_iteration f + 1) f);;
  on_fields (with_agent_results ∅);;
  do f <- fields;
  if max_iterations f <? current_iteration f
  then set_state SystemState.COMPLETE
  else
    set_state SystemState.CRAWLING;;
    Agent.send_message env CRAWLER REQUEST
      (PDict (<["action" := PStr "crawl"]>
              (<["url" := target_url f]>
              (<["iteration" := PInt (current_iteration f)]> ∅))));;
    on_fields (fun f =>
      with_agents_status
        (<[AgentType_value CRAWLER := "running"]> (agents_status f)) f).

(** The first part of [check_system_progress]: [true] when the crawler's
    failure aborted the iteration and the method returned. *)
Definition check_abort : Act bool :=
  do f <- fields;
  if any_error (agents_status f)
  then
    do crawler <- lift (status_of (agents_status f) (AgentType_value CRAWLER));
    if String.eqb crawler "error"
    then set_state SystemState.ERROR;; ret true
    else ret false
  else ret false.

(** The second part: the transition of the current state, if its stage
    has a recorded result. *)
Definition check_stage : Act unit :=
  do f <- fields;
  match system_state f with
  | SystemState.CRAWLING =>
      when (has_result (agent_results f) (AgentType_value CRAWLER))
           (set_state SystemState.ANALYZING)
  | SystemState.ANALYZING =>
      when (has_result (agent_results f) (AgentType_value ANALYSIS))
           (set_state SystemState.IMPLEMENTING)
  | SystemState.IMPLEMENTING =>
      when (has_result (agent_results f) (AgentType_value IMPLEMENTATION))
           (set_state SystemState.FEEDBACK)
  | SystemState.FEEDBACK =>
      when (has_result (agent_results f) (AgentType_value FEEDBACK))
           (if current_iteration f <? max_iterations f
            then start_iteration
            else set_state SystemState.COMPLETE)
  | _ => ret tt
  end.

(** [OrchestratorAgent.check_system_progress] *)
Definition check_system_progress : Act unit :=
  do aborted <- check_abort;
  if aborted then ret tt else check_stage.

(** [Message(source_agent=self.agent_type,
             destination_agent=message.source_agent, ...)] *)
Definition reply (message : Message) (message_type : MessageType)
    (payload : pyval) : Act (option Message) :=
  do r <- Agent.new_message env (Message.source_agent message) message_type
            payload (PInt 5) PNone;
  ret (Some r).

Definition status_payload (s : string) : gmap string pyval :=
  <["status" := PStr s]> ∅.

Definition set_agent_status (agent_type s : string) : Act unit :=
  on_fields (fun f =>
    with_agents_status (<[agent_type := s]> (agents_status f)) f).

(** [OrchestratorAgent.handle_message] *)
Definition handle_message (message : Message) : Act (option Message) :=
  let payload := Message.payload message in
  match Message.message_type message with
  | NOTIFICATION =>
      do status <- lift (get payload "status" PNone);
      if eq_str status "complete"
      then
        let agent_type := AgentType_value (Message.source_agent message) in
        do result_path <- lift (get payload "result_path" PNone);
        set_agent_status agent_type "idle";;
        when (truthy result_path)
             (on_fields (fun f =>
                with_agent_results
                  (<[agent_type := result_path]> (agent_results f)) f));;
        check_system_progress;;
        reply message RESPONSE (PDict (status_payload "acknowledged"))
      else Agent.handle_message message
  | ERROR =>
      let agent_type := AgentType_value (Message.source_agent message) in
      do error <- lift (get payload "error" PNone);
      set_agent_status agent_type "error";;
      check_system_progress;;
      reply message RESPONSE (PDict (status_payload "error_acknowledged"))
  | REQUEST =>
      do action <- lift (get payload "action" PNone);
      if eq_str action "set_url"
      then
        do url <- lift (get payload "url" PNone);
        if truthy url
        then
          on_fields (with_target_url url);;
          do f <- fields;
          do config' <- lift (setitem (config f) "website_url" url);
          on_fields (with_config config');;
          Agent.save_config env config';;
          do f <- fields;
          when (bool_decide (system_state f = SystemState.COMPLETE)
                || bool_decide (system_state f = SystemState.INITIALIZING))
               start_iteration;;
          reply message RESPONSE
            (PDict (<["url" := url]> (status_payload "url_set")))
        else
          reply message ERROR (PDict (<["error" := PStr "No URL provided"]> ∅))
      else if eq_str action "start"
      then
        do f <- fields;
        if negb (truthy (target_url f))
        then
          reply message ERROR (PDict (<["error" := PStr "No target URL set"]> ∅))
        else
          start_iteration;;
          do f <- fields;
          reply message RESPONSE
            (PDict (<["iteration" := PInt (current_iteration f)]>
                    (status_payload "started")))
      else if eq_str action "stop"
      then
        set_state SystemState.COMPLETE;;
        reply message RESPONSE (PDict (status_payload "stopped"))
      else Agent.handle_message message
  | RESPONSE => Agent.handle_message message
  end.

(** [OrchestratorAgent.start] *)
Definition start : Act unit :=
  Agent.start env;;
  do c <- Agent.load_config env;
  on_fields (with_config c);;
  do url <- lift (get c "website_url" PNone);
  on_fields (with_target_url url);;
  set_state SystemState.INITIALIZING;;
  when (truthy url) start_iteration.

Definition methods : Agent.Methods :=
  {| Agent.m_start := start;
     Agent.m_handle_message := handle_message;
     Agent.m_do_work := Agent.do_work env |}.

(** The completion notice a stage sends to the orchestrator: the payload
    carries the stage's count under [detail_key] and the path of its
    result file. *)
Definition detail_key (stage : AgentType) : string :=
  match stage with
  | CRAWLER => "pages_crawled"
  | ANALYSIS => "pages_analyzed"
  | IMPLEMENTATION => "files_generated"
  | _ => "score"
  end.

Definition completion_notice (amb : Ambient) (stage : AgentType)
    (detail : pyval) : Message :=
  Message.init amb stage ORCHESTRATOR NOTIFICATION
    (PDict (<["status" := PStr "complete"]>
            (<[detail_key stage := detail]>
            (<["result_path" := PStr (Agent.result_file env stage)]> ∅))))
    PNone PNone (PInt 5) PNone.

(** The error notice a stage sends to the orchestrator. *)
Definition error_notice (amb : Ambient) (stage : AgentType) (text : string)
    : Message :=
  Message.init amb stage ORCHESTRATOR ERROR
    (PDict (<["error" := PStr text]> ∅)) PNone PNone (PInt 5) PNone.

(** A [set_url] request, from any sender. *)
Definition set_url_request (amb : Ambient) (sender : AgentType) (url : pyval)
    : Message :=
  Message.init amb sender ORCHESTRATOR REQUEST
    (PDict (<["action" := PStr "set_url"]> (<["url" := url]> ∅)))
    PNone PNone (PInt 5) PNone.

(** Handling the messages of a list one after the other, as the run loop
    does when they arrive in this order; the replies are dropped. *)
Fixpoint handle_all (messages : list Message) : Act unit :=
  match messages with
  | [] => ret tt
  | m :: rest => handle_message m;; handle_all rest
  end.
End Methods.

End OrchestratorAgent.

(** ** The sandbox of [integrate_forevervm.py] *)

Module ForeverVMMachine.

(** How [subprocess.run] ended. *)
Inductive subprocess_outcome : Type :=
  | Completed (stdout stderr : string)
  | TimeoutExpired
  | Failed (e : exn).

Record ForeverVMMachine : Type := { token : string }.

(** [ForeverVMMachine.run], given how the subprocess ends. *)
Definition run (outcome : subprocess_outcome) : pyval :=
  match outcome with
  | Completed stdout stderr =>
      PDict (<["output" := PStr (stdout +:+ stderr)]>
             (<["return_value" := PStr "Stub sandbox simulation result"]>
             (<["state" := PStr "complete"]> ∅)))
  | TimeoutExpired =>
      PDict (<["output" := PStr "Code execution timed out"]>
             (<["return_value" := PNone]>
             (<["state" := PStr "timeout"]> ∅)))
  | Failed e =>
      PDict (<["output" := PStr ("Error executing code: " +:+ exn_str e)]>
             (<["return_value" := PNone]>
             (<["state" := PStr "error"]> ∅)))
  end.

End ForeverVMMachine.

Module ForeverVMSandbox.

Record ForeverVMSandbox : Type := {
  api_token : string;
  machine : option ForeverVMMachine.ForeverVMMachine
}.

Definition DEFAULT_TIMEOUT : Z := 30.

(** The process runner: how the subprocess started for [code] with
    [timeout] ends. *)
Definition runner : Type := string -> Z -> ForeverVMMachine.subprocess_outcome.

(** [ForeverVMSandbox.__init__]; [None] and the empty string both fall back
    on the module constant. *)
Definition init (FOREVERVM_API_TOKEN : string) (api_token : option string)
    : result ForeverVMSandbox :=
  let token :=
    match api_token with
    | Some t => if String.eqb t "" then FOREVERVM_API_TOKEN else t
    | None => FOREVERVM_API_TOKEN
    end in
  if String.eqb token ""
  then throw ValueError
         "ForeverVM API token not provided. Set FOREVERVM_API_TOKEN environment variable."
  else ok {| api_token := token; machine := None |}.

(** [ForeverVMSandbox.__enter__] *)
Definition enter (self : ForeverVMSandbox) : ForeverVMSandbox :=
  {| api_token := api_token self;
     machine := Some {| ForeverVMMachine.token := api_token self |} |}.

(** [ForeverVMSandbox.__exit__] *)
Definition exit (self : ForeverVMSandbox) : ForeverVMSandbox :=
  {| api_token := api_token self; machine := None |}.

(** The mapping of the [except] branches. *)
Definition failure (error : string) : gmap string pyval :=
  <["success" := PBool false]>
  (<["output" := PNone]>
  (<["return_value" := PNone]>
  (<["error" := PStr error]> ∅))).

(** [ForeverVMSandbox.execute_code] *)
Definition execute_code (spawn : runner) (self : ForeverVMSandbox)
    (code : string) (timeout : Z) : result (gmap string pyval) :=
  match machine self with
  | None =>
      throw RuntimeError
        "ForeverVM machine not created. Use with-statement or create_machine()."
  | Some m =>
      let body : result (gmap string pyval) :=
        let result := ForeverVMMachine.run (spawn code timeout) in
        let? output := getattr result "output" in
        let? return_value := getattr result "return_value" in
        ok (<["success" := PBool true]>
            (<["output" := output]>
            (<["return_value" := return_value]>
            (<["error" := PNone]> ∅)))) in
      match body with
      | inr r => ok r
      | inl e => ok (failure (exn_str e))
      end
  end.

(** [ForeverVMSandbox.install_package] *)
Definition install_package (spawn : runner) (self : ForeverVMSandbox)
    (package_name : string) : result (gmap string pyval) :=
  execute_code spawn self
    ("import subprocess; subprocess.check_call(['pip', 'install', '"
       +:+ package_name +:+ "'])")
    60.

End ForeverVMSandbox.

(** [ForeverVMSandbox.execute_file]; [read_text path] is what opening and
    reading the file gives. *)
Module SandboxFiles.
Import ForeverVMSandbox.

Definition execute_file (read_text : string -> result string) (spawn : runner)
    (self : ForeverVMSandbox) (file_path : string) (timeout : Z)
    : result (gmap string pyval) :=
  let body : result (gmap string pyval) :=
    let? code := read_text file_path in
    execute_code spawn self code timeout in
  match body with
  | inr r => ok r
  | inl e => ok (failure ("Error reading file: " +:+ exn_str e))
  end.

End SandboxFiles.

(** ** Requests between the agents *)

(** The coroutine handed to [asyncio.create_task]: the event loop runs it
    after the handler that created it has returned. *)
Inductive task : Type :=
  | crawl_website_task (url : pyval)
  | analyze_crawl_result_task (crawl_result_path : pyval)
  | implement_website_task (analysis_result_path crawl_result_path : pyval)
  | evaluate_implementation_task
      (implementation_result_path analysis_result_path crawl_result_path : pyval).

(** [str(v)] as an f-string takes it.  [render] stands for Python's
    rendering of floats, lists and dictionaries, which is left open. *)
Definition str_of (render : pyval -> string) (v : pyval) : string :=
  match v with
  | PNone => "None"
  | PBool true => "True"
  | PBool false => "False"
  | PInt z => pretty z
  | PStr s => s
  | _ => render v
  end.

(** ** CrawlerAgent *)

Module CrawlerAgent.

(** The attributes [CrawlerAgent.__init__] adds; its thread pool is never
    used. *)
Record Fields : Type := {
  config : pyval;
  target_url : pyval
}.

Definition with_config (v : pyval) (f : Fields) : Fields :=
  {| config := v; target_url := target_url f |}.

Definition with_target_url (v : pyval) (f : Fields) : Fields :=
  {| config := config f; target_url := v |}.

Section Methods.
Context (env : Env).
(** The module constant of [integrate_forevervm.py], the process runner,
    the rendering left open by [str_of], and the text of [crawl_code] as a
    function of [str(url)]. *)
Context (FOREVERVM_API_TOKEN : string) (spawn : ForeverVMSandbox.runner)
        (render : pyval -> string) (crawl_code : string -> string).
Local Abbreviation Act := (M (Agent.State Fields)).

Definition fields : Act Fields := gets (fun st => Agent.ext (Agent.self st)).

Definition on_fields (f : Fields -> Fields) : Act unit :=
  Agent.on_self (fun a => Agent.with_ext (f (Agent.ext a)) a).

(** [CrawlerAgent.__init__] *)
Definition init : Agent.Agent Fields :=
  Agent.init CRAWLER {| config := PDict ∅; target_url := PNone |}.

(** [CrawlerAgent.start] *)
Definition start : Act unit :=
  Agent.start env;;
  do c <- Agent.load_config env;
  on_fields (with_config c);;
  do url <- lift (get c "website_url" PNone);
  on_fields (with_target_url url);;
  when (negb (truthy url))
       (Agent.send_message env ORCHESTRATOR ERROR
          (PDict (<["error" := PStr "No target URL specified"]> ∅));;
        ret tt).

(** [CrawlerAgent.handle_message], returning the reply and the task it
    created. *)
Definition handle_message (message : Message)
    : Act (option Message * option task) :=
  match Message.message_type message with
  | REQUEST =>
      do action <- lift (get (Message.payload message) "action" PNone);
      if eq_str action "crawl"
      then
        do requested <- lift (get (Message.payload message) "url" PNone);
        do f <- fields;
        let url := Message.or_else requested (target_url f) in
        if truthy url
        then
          on_fields (with_target_url url);;
          do r <- Agent.new_message env (Message.source_agent message) RESPONSE
                    (PDict (<["status" := PStr "crawling"]>
                            (<["url" := url]> ∅)))
                    (PInt 5) PNone;
          ret (Some r, Some (crawl_website_task url))
        else
          do r <- Agent.new_message env (Message.source_agent message) ERROR
                    (PDict (<["error" := PStr "No URL specified"]> ∅))
                    (PInt 5) PNone;
          ret (Some r, None)
      else ret (None, None)
  | _ => ret (None, None)
  end.

(** [CrawlerAgent.crawl_website].  The sandbox is local to the call, so
    leaving the [with] block changes nothing the agent can see. *)
Definition crawl_website (url : pyval) : Act unit :=
  try_except
    (if FOREVERVM_AVAILABLE env
     then
       do sandbox <- lift (ForeverVMSandbox.init FOREVERVM_API_TOKEN None);
       let sandbox := ForeverVMSandbox.enter sandbox in
       lift (ForeverVMSandbox.install_package spawn sandbox "requests");;
       lift (ForeverVMSandbox.install_package spawn sandbox "beautifulsoup4");;
       do result <-
         lift (ForeverVMSandbox.execute_code spawn sandbox
                 (crawl_code (str_of render url))
                 ForeverVMSandbox.DEFAULT_TIMEOUT);
       do success <- lift (getitem (PDict result) "success");
       if truthy success
       then
         do crawl_result <- lift (getitem (PDict result) "return_value");
         Agent.save_result env crawl_result;;
         do pages <- lift (getitem crawl_result "pages");
         do n <- lift (len pages);
         Agent.send_message env ORCHESTRATOR NOTIFICATION
           (PDict (<["status" := PStr "complete"]>
                   (<["pages_crawled" := PInt n]>
                   (<["result_path" := PStr (Agent.result_file env CRAWLER)]> ∅))));;
         Agent.send_message env ANALYSIS REQUEST
           (PDict (<["action" := PStr "analyze"]>
                   (<["crawl_result_path" :=
                        PStr (Agent.result_file env CRAWLER)]> ∅)));;
         ret tt
       else
         do error <- lift (getitem (PDict result) "error");
         Agent.send_message env ORCHESTRATOR ERROR
           (PDict (<["error" :=
                       PStr ("Crawling failed: " +:+ str_of render error)]> ∅));;
         ret tt
     else
       Agent.send_message env ORCHESTRATOR ERROR
         (PDict (<["error" := PStr "ForeverVM required for secure crawling"]> ∅));;
       ret tt)
    (fun e =>
       Agent.send_message env ORCHESTRATOR ERROR
         (error_payload "Error crawling website: " e);;
       Agent.on_self (Agent.with_status "error");;
       Agent.update_status env (Some (exn_str e))).
End Methods.

End CrawlerAgent.

(** ** The request handlers of the other stages *)

Module Handlers.

Section Methods.
Context (env : Env).
Local Abbreviation Act := (M (Agent.State unit)).

Definition respond (message : Message) (message_type : MessageType)
    (payload : pyval) : Act Message :=
  Agent.new_message env (Message.source_agent message) message_type payload
    (PInt 5) PNone.

(** [AnalysisAgent.handle_message] *)
Definition AnalysisAgent_handle_message (message : Message)
    : Act (option Message * option task) :=
  match Message.message_type message with
  | REQUEST =>
      do action <- lift (get (Message.payload message) "action" PNone);
      if eq_str action "analyze"
      then
        do crawl_result_path <-
          lift (get (Message.payload message) "crawl_result_path" PNone);
        if truthy crawl_result_path
        then
          do r <- respond message RESPONSE
                    (PDict (<["status" := PStr "analyzing"]>
                            (<["crawl_result_path" := crawl_result_path]> ∅)));
          ret (Some r, Some (analyze_crawl_result_task crawl_result_path))
        else
          do r <- respond message ERROR
                    (PDict (<["error" := PStr "No crawl result path specified"]> ∅));
          ret (Some r, None)
      else ret (None, None)
  | _ => ret (None, None)
  end.

(** [ImplementationAgent.handle_message] *)
Definition ImplementationAgent_handle_message (message : Message)
    : Act (option Message * option task) :=
  match Message.message_type message with
  | REQUEST =>
      do action <- lift (get (Message.payload message) "action" PNone);
      if eq_str action "implement"
      then
        do analysis_result_path <-
          lift (get (Message.payload message) "analysis_result_path" PNone);
        do crawl_result_path <-
          lift (get (Message.payload message) "crawl_result_path" PNone);
        if truthy analysis_result_path && truthy crawl_result_path
        then
          do r <- respond message RESPONSE
                    (PDict (<["status" := PStr "implementing"]>
                            (<["analysis_result_path" := analysis_result_path]>
                            (<["crawl_result_path" := crawl_result_path]> ∅))));
          ret (Some r,
               Some (implement_website_task analysis_result_path
                       crawl_result_path))
        else
          do r <- respond message ERROR
                    (PDict (<["error" := PStr "Missing result paths"]> ∅));
          ret (Some r, None)
      else ret (None, None)
  | _ => ret (None, None)
  end.

(** [FeedbackAgent.handle_message] *)
Definition FeedbackAgent_handle_message (message : Message)
    : Act (option Message * option task) :=
  match Message.message_type message with
  | REQUEST =>
      do action <- lift (get (Message.payload message) "action" PNone);
      if eq_str action "evaluate"
      then
        do implementation_result_path <-
          lift (get (Message.payload message) "implementation_result_path" PNone);
        do analysis_result_path <-
          lift (get (Message.payload message) "analysis_result_path" PNone);
        do crawl_result_path <-
          lift (get (Message.payload message) "crawl_result_path" PNone);
        if truthy implementation_result_path && truthy analysis_result_path
           && truthy crawl_result_path
        then
          do r <- respond message RESPONSE
                    (PDict (<["status" := PStr "evaluating"]>
                            (<["implementation_result_path" :=
                                 implementation_result_path]> ∅)));
          ret (Some r,
               Some (evaluate_implementation_task implementation_result_path
                       analysis_result_path crawl_result_path))
        else
          do r <- respond message ERROR
                    (PDict (<["error" := PStr "Missing result paths"]> ∅));
          ret (Some r, None)
      else ret (None, None)
  | _ => ret (None, None)
  end.
End Methods.

End Handlers.

(** ** The configuration step of [run_system] *)

Section RunSystem.
Context (env : Env) {E : Type}.

(** [config = load_config()], [if args.url: config["website_url"] =
    args.url], [save_config(config)]; it runs before any agent exists and
    touches the files only. *)
Definition update_configuration (url : pyval) : M (Agent.State E) unit :=
  do config <- Agent.load_config env;
  do config <-
    (if truthy url then lift (setitem config "website_url" url)
     else ret config);
  Agent.save_config env config.
End RunSystem.

(** ** Derived notions used in the statements *)

(** *** Status files *)

Section StatusFiles.
Context (env : Env) {E : Type}.
Import Agent.

(** The mapping held by the agent's status file, if it holds one. *)
Definition status_record (st : State E) : option (gmap string pyval) :=
  match fs (world st) !! status_file env (agent_type (self st)) with
  | Some (Json (PDict d)) => Some d
  | _ => None
  end.

(** What a call [update_status(e)] with a string [e] is expected to do:
    write the status held before the call, attach [e] under ["error"], and
    leave the attribute at ["error"]. *)
Definition status_written_with_error (st : State E) (e : string) : Prop :=
  let st' := (update_status env (Some e) st).2 in
  exists data : gmap string pyval,
    status_record st' = Some data
    /\ data !! "status" = Some (PStr (status (self st)))
    /\ data !! "error" = Some (PStr e)
    /\ status (self st') = "error".
End StatusFiles.

(** *** The orchestrator's attributes as a transition system *)

Module Orchestration.
Import Agent OrchestratorAgent.

(** The state [st] with the orchestrator's attributes replaced by [f] and
    the world by [w]. *)
Definition moved (st : State Fields) (f : Fields) (w : World) : State Fields :=
  {| self := with_ext f (self st); world := w |}.

Definition attributes (st : State Fields) : Fields := ext (self st).

(** The attributes after [start_iteration]. *)
Definition started (f : Fields) : Fields :=
  let f1 := with_agent_results ∅
              (with_current_iteration (current_iteration f + 1) f) in
  if max_iterations f1 <? current_iteration f1
  then with_system_state SystemState.COMPLETE f1
  else with_agents_status
         (<[AgentType_value CRAWLER := "running"]> (agents_status f1))
         (with_system_state SystemState.CRAWLING f1).

(** The stage of the current state has a recorded result. *)
Definition stage_done (f : Fields) : bool :=
  match system_state f with
  | SystemState.CRAWLING => has_result (agent_results f) (AgentType_value CRAWLER)
  | SystemState.ANALYZING => has_result (agent_results f) (AgentType_value ANALYSIS)
  | SystemState.IMPLEMENTING =>
      has_result (agent_results f) (AgentType_value IMPLEMENTATION)
  | SystemState.FEEDBACK => has_result (agent_results f) (AgentType_value FEEDBACK)
  | _ => false
  end.

(** The attributes after the second part of [check_system_progress]. *)
Definition advanced (f : Fields) : Fields :=
  if stage_done f
  then
    match system_state f with
    | SystemState.CRAWLING => with_system_state SystemState.ANALYZING f
    | SystemState.ANALYZING => with_system_state SystemState.IMPLEMENTING f
    | SystemState.IMPLEMENTING => with_system_state SystemState.FEEDBACK f
    | SystemState.FEEDBACK =>
        if current_iteration f <? max_iterations f
        then started f
        else with_system_state SystemState.COMPLETE f
    | _ => f
    end
  else f.

(** The attributes after [check_system_progress]. *)
Definition checked (f : Fields) : Fields :=
  if any_error (agents_status f)
  then
    match agents_status f !! AgentType_value CRAWLER with
    | None => f
    | Some s =>
        if String.eqb s "error" then with_system_state SystemState.ERROR f
        else advanced f
    end
  else advanced f.

(** What [check_system_progress] returns: it raises only when some status
    is an error and the crawler has no entry. *)
Definition check_result (f : Fields) : result unit :=
  if any_error (agents_status f)
  then match agents_status f !! AgentType_value CRAWLER with
       | Some _ => ok tt
       | None => throw KeyError ("'" +:+ AgentType_value CRAWLER +:+ "'")
       end
  else ok tt.

(** An iteration is in progress. *)
Definition in_progress (s : SystemState) : bool :=
  match s with
  | SystemState.CRAWLING | SystemState.ANALYZING
  | SystemState.IMPLEMENTING | SystemState.FEEDBACK => true
  | _ => false
  end.

(** The states in which a [set_url] request starts an iteration. *)
Definition idle_state (s : SystemState) : bool :=
  bool_decide (s = SystemState.COMPLETE)
  || bool_decide (s = SystemState.INITIALIZING).

(** The attributes after an error notice whose payload is a mapping. *)
Definition after_error (m : Message) (f : Fields) : Fields :=
  match Message.payload m with
  | PDict _ =>
      checked (with_agents_status
                 (<[AgentType_value (Message.source_agent m) := "error"]>
                    (agents_status f)) f)
  | _ => f
  end.

(** The attributes after a completion notice with payload [d], before and
    after the progress check. *)
Definition recorded (m : Message) (d : gmap string pyval) (f : Fields) : Fields :=
  let agent := AgentType_value (Message.source_agent m) in
  let f1 := with_agents_status (<[agent := "idle"]> (agents_status f)) f in
  let result_path := default PNone (d !! "result_path") in
  if truthy result_path
  then with_agent_results (<[agent := result_path]> (agent_results f1)) f1
  else f1.

Definition after_completion (m : Message) (d : gmap string pyval) (f : Fields)
    : Fields := checked (recorded m d f).

(** [m] is a [set_url] request carrying [url]. *)
Definition is_set_url (m : Message) (url : pyval) : Prop :=
  Message.message_type m = REQUEST
  /\ exists d, Message.payload m = PDict d
             /\ eq_str (default PNone (d !! "action")) "set_url" = true
             /\ default PNone (d !! "url") = url.

(** The attributes after a [set_url] request carrying [url]; a request
    without a true URL is answered with an error and changes nothing. *)
Definition after_set_url (url : pyval) (f : Fields) : Fields :=
  if truthy url
  then
    match config f with
    | PDict c =>
        let f1 := with_config (PDict (<["website_url" := url]> c))
                    (with_target_url url f) in
        if idle_state (system_state f) then started f1 else f1
    | _ => with_target_url url f
    end
  else f.

(** The only statuses recorded as error are those of the analysis, the
    implementation and the feedback agent. *)
Definition stage_errors_only (statuses : gmap string string) : bool :=
  forallb (fun kv =>
             negb (String.eqb kv.2 "error")
             || existsb (String.eqb kv.1)
                  [AgentType_value ANALYSIS; AgentType_value IMPLEMENTATION;
                   AgentType_value FEEDBACK])
          (map_to_list statuses).

Section Claims.
Context (env : Env).

(** Escalation as the specification words it, for the error notice [m]
    handled in [st]: a crawler recorded as failed forces the state
    [error]; with failures of the later stages only, the state stays what
    it was. *)
Definition escalation_as_specified (st : State Fields) (m : Message) : Prop :=
  let f := attributes st in
  let f' := attributes (handle_message env m st).2 in
  let statuses :=
    <[AgentType_value (Message.source_agent m) := "error"]> (agents_status f) in
  (statuses !! AgentType_value CRAWLER = Some "error"
     -> system_state f' = SystemState.ERROR)
  /\ (stage_errors_only statuses = true -> system_state f' = system_state f).

(** Idempotence of [set_url] as the specification words it, for the
    request [m] handled twice from [st]: the second handling leaves
    [current_iteration] where the first left it, and a request that meets
    an iteration in progress changes neither the counter nor the state and
    queues nothing. *)
Definition set_url_idempotent (st : State Fields) (m : Message) : Prop :=
  let st1 := (handle_message env m st).2 in
  let st2 := (handle_message env m st1).2 in
  current_iteration (attributes st2) = current_iteration (attributes st1)
  /\ (in_progress (system_state (attributes st)) = true ->
      current_iteration (attributes st1) = current_iteration (attributes st)
      /\ system_state (attributes st1) = system_state (attributes st)
      /\ queue (world st1) = queue (world st)).

(** [current_iteration] is not smaller in [st'] than in [st]. *)
Definition grows (st st' : State Fields) : Prop :=
  current_iteration (attributes st) <= current_iteration (attributes st').

(** A freshly constructed orchestrator with the iteration budget [budget],
    in the world [w]. *)
Definition fresh (budget : Z) (w : World) : State Fields :=
  {| self := with_ext (with_max_iterations budget (ext init)) init;
     world := w |}.

(** The stages in pipeline order. *)
Definition stages : list AgentType :=
  [CRAWLER; ANALYSIS; IMPLEMENTATION; FEEDBACK].

(** The completion notices of one successful pass, in pipeline order. *)
Definition pass (amb : AgentType -> Ambient) (detail : AgentType -> pyval)
    : list Message :=
  (fun stage => completion_notice env (amb stage) stage (detail stage))
    <$> stages.

(** The messages [ms] are completion notices of the stages [l], in order. *)
Definition notices_of (ms : list Message) (l : list AgentType) : Prop :=
  Forall2 (fun m stage =>
             exists amb detail, m = completion_notice env amb stage detail)
          ms l.

(** The attributes after the completion notice of [stage]. *)
Definition noticed (stage : AgentType) (f : Fields) : Fields :=
  let agent := AgentType_value stage in
  checked
    (with_agent_results
       (<[agent := PStr (result_file env stage)]> (agent_results f))
       (with_agents_status (<[agent := "idle"]> (agents_status f)) f)).

(** No progress check raises while the notices of [l] are handled. *)
Fixpoint smooth (l : list AgentType) (f : Fields) : bool :=
  match l with
  | [] => true
  | stage :: rest =>
      let agent := AgentType_value stage in
      match check_result
              (with_agent_results
                 (<[agent := PStr (result_file env stage)]> (agent_results f))
                 (with_agents_status (<[agent := "idle"]> (agents_status f)) f))
      with
      | inr _ => smooth rest (noticed stage f)
      | inl _ => false
      end
  end.
End Claims.

End Orchestration.

(** *** Analysis and feedback *)

Module Scoring.

(** The flag [flag] of the page [page] is set. *)
Definition flagged (flag : string) (page : pyval) : bool :=
  match page with
  | PDict d => truthy (default (PBool false) (d !! flag))
  | _ => false
  end.

(** The number of pages whose flag is set. *)
Definition flag_count (flag : string) (pages : list pyval) : Z :=
  Z.of_nat (length (List.filter (flagged flag) pages)).

Definition hundred : float := 100%float.

(** [v] is [(count / total) * 100]. *)
Definition is_percentage (count total : Z) (v : pyval) : Prop :=
  exists q : float,
    int_truediv count total = ok q /\ v = PFloat (PrimFloat.mul q hundred).

(** The page structure of a crawl result without pages. *)
Definition zero_structure : gmap string pyval :=
  <["header_percentage" := PInt 0]>
  (<["footer_percentage" := PInt 0]>
  (<["nav_percentage" := PInt 0]>
  (<["avg_sections_per_page" := PInt 0]> ∅))).

(** The percentages of zero to three pages out of three; Python prints
    them 0.0, 33.33333333333333, 66.66666666666666 and 100.0. *)
Definition thirds : list float :=
  [0%float; 0x1.0aaaaaaaaaaaap+5%float; 0x1.0aaaaaaaaaaaap+6%float; 100%float].

(** The three flags and the keys of their percentages. *)
Definition flag_keys : list (string * string) :=
  [("has_header", "header_percentage"); ("has_footer", "footer_percentage");
   ("has_nav", "nav_percentage")].

(** The computation raises nothing, or something other than a
    [ZeroDivisionError]. *)
Definition no_zero_division {A} (r : result A) : Prop :=
  forall e, r = inl e -> exn_cls e <> ZeroDivisionError.

Definition point (b : bool) : Z := if b then 1 else 0.

(** Each of the three percentages in [ps] is the number of [pages] whose
    flag is set, divided by the number of pages, times 100; for three pages
    it is one of [thirds]. *)
Definition exact_percentages (pages : list pyval) (ps : gmap string pyval)
    : Prop :=
  forall flag key, In (flag, key) flag_keys ->
    exists v, ps !! key = Some v
              /\ is_percentage (flag_count flag pages)
                               (Z.of_nat (length pages)) v
              /\ (length pages = 3%nat -> In v (PFloat <$> thirds)).

(** The rubric of the specification.  What an implementation result says
    about its tests: the entry [tests_passed] of its entry [test_results],
    [None] where one of them is missing. *)
Definition recorded_tests (implementation : gmap string pyval) : pyval :=
  match implementation !! "test_results" with
  | Some (PDict results) => default PNone (results !! "tests_passed")
  | _ => PNone
  end.

(** One point for three or more files, one for passed tests, and one for
    the recommendations, all of which count as followed. *)
Definition rubric (files : Z) (tests : pyval) : Z :=
  point (3 <=? files) + point (truthy tests) + 1.

(** The three bands of the specification. *)
Definition band (score : Z) : string :=
  if 2 <=? score then "Good implementation that meets most requirements"
  else if 1 <=? score
       then "Acceptable implementation with room for improvement"
       else "Implementation needs significant improvement".

End Scoring.

(** *** Concrete surroundings and inputs *)

Module Examples.
Import Agent OrchestratorAgent Orchestration.

(** Surroundings in which every write succeeds, no other task runs and
    nobody stops the system. *)
Definition quiet_env : Env :=
  {| PROJECT_ROOT := "/srv/app";
     FOREVERVM_AVAILABLE := true;
     ambient := fun t =>
       {| time_time := 1700000000 + Z.of_nat t;
          object_id := 140000000000000 + Z.of_nat t;
          utcnow := Datetime 2024 5 17 9 30 (Z.of_nat t) 0 |};
     writable := fun _ => true;
     others := fun _ w => w;
     stop_requested := fun _ => false |}.

Definition noon : Ambient := ambient quiet_env 0.

Definition empty_world : World := {| fs := ∅; queue := []; clock := 0 |}.

Definition example_url : pyval := PStr "http://example.com".

(** A world whose configuration file names [url]. *)
Definition configured_world (url : pyval) : World :=
  {| fs := <[CONFIG_PATH quiet_env :=
               Json (PDict (<["website_url" := url]> ∅))]> ∅;
     queue := [];
     clock := 0 |}.

(** An orchestrator started on [example_url] that has received the
    completion notice of the analysis before that of the crawler. *)
Definition reordered : State Fields :=
  (handle_all quiet_env
     [completion_notice quiet_env noon ANALYSIS (PInt 3);
      completion_notice quiet_env noon CRAWLER (PInt 3)]
     (start quiet_env (fresh 3 (configured_world example_url))).2).2.

(** An orchestrator with a budget of two iterations after two full passes. *)
Definition finished : State Fields :=
  (handle_all quiet_env
     (pass quiet_env (fun _ => noon) (fun _ => PInt 3)
        ++ pass quiet_env (fun _ => noon) (fun _ => PInt 3))
     (start quiet_env (fresh 2 (configured_world example_url))).2).2.

(** An agent whose [do_work] raises. *)
Definition failing_methods : @Methods unit :=
  {| m_start := Agent.start quiet_env;
     m_handle_message := Agent.handle_message;
     m_do_work := raise (Exn RuntimeError "boom") |}.

Definition idle_analysis : State unit :=
  {| self := Agent.init ANALYSIS tt; world := empty_world |}.

Definition running_analysis : State unit :=
  {| self := with_status "running" (with_running true (Agent.init ANALYSIS tt));
     world := empty_world |}.

Definition page (header footer nav : bool) (sections : Z) : pyval :=
  PDict (<["url" := PStr "http://example.com/"]>
         (<["has_header" := PBool header]>
         (<["has_footer" := PBool footer]>
         (<["has_nav" := PBool nav]>
         (<["num_sections" := PInt sections]> ∅))))).

Definition asset (css js images : Z) : pyval :=
  PDict (<["css_count" := PInt css]>
         (<["js_count" := PInt js]>
         (<["image_count" := PInt images]> ∅))).

Definition crawl (pages assets : list pyval) : pyval :=
  PDict (<["base_url" := example_url]>
         (<["pages" := PList pages]>
         (<["assets" := PList assets]> ∅))).

Definition three_pages : list pyval :=
  [page true true false 2; page true false false 1; page false true false 4].

Definition three_assets : list pyval :=
  [asset 1 2 3; asset 1 0 0; asset 2 2 5].

(** An analysis agent whose world holds the crawl result of the end-to-end
    scenario: three pages and no assets. *)
Definition scenario_analysis : State unit :=
  {| self := self idle_analysis;
     world := {| fs := <["crawl.json" := Json (crawl three_pages [])]> ∅;
                 queue := [];
                 clock := 0 |} |}.

Definition implementation_result (tests_passed : pyval) : pyval :=
  PDict (<["files" := PList [PStr "implementation.py"; PStr "template.html";
                             PStr "styles.css"]]>
         (<["test_results" := PDict (<["tests_passed" := tests_passed]> ∅)]> ∅)).

Definition analysis_result : pyval :=
  PDict (<["recommendations" :=
             PList [PStr "Implement consistent header across all pages"]]> ∅).

(** A subprocess that never finishes in time. *)
Definition hanging : ForeverVMSandbox.runner :=
  fun _ _ => ForeverVMMachine.TimeoutExpired.

End Examples.

(** *** Notions used in the further properties *)

(** The keys of the dictionary [Message.to_dict] builds. *)
Definition Message_keys : gset string :=
  {["message_id"; "source_agent"; "destination_agent"; "message_type";
    "timestamp"; "priority"; "payload"; "metadata"]}.

(** The queue after [n] messages have been taken from its head and put
    back at its end, one after the other. *)
Fixpoint requeued (n : nat) (q : list Message) : list Message :=
  match n, q with
  | S k, m :: rest => requeued k (rest ++ [m])
  | _, _ => q
  end.

(** *** The orchestrator's attributes, continued *)

Module Frame.
Import OrchestratorAgent.

(** The configuration is a dictionary and the crawler has a status entry,
    as after [__init__]. *)
Definition well_formed (f : Fields) : Prop :=
  (exists c, config f = PDict c)
  /\ is_Some (agents_status f !! AgentType_value CRAWLER).

(** What the methods keep when they take the attributes from [f] to [f']:
    the iteration budget, the configuration being a dictionary, and the
    status entries there are. *)
Definition framed (f f' : Fields) : Prop :=
  max_iterations f' = max_iterations f
  /\ ((exists c, config f = PDict c) -> exists c', config f' = PDict c')
  /\ (forall k, is_Some (agents_status f !! k) -> is_Some (agents_status f' !! k)).

(** [r] is no reply, or one that goes back to the sender of [m] in the
    name of the agent of [st], as a response or an error. *)
Definition answers (m : Message) (st : Agent.State Fields)
    (r : result (option Message)) : Prop :=
  forall reply, r = ok (Some reply) ->
    Message.destination_agent reply = Message.source_agent m
    /\ Message.source_agent reply = Agent.agent_type (Agent.self st)
    /\ (Message.message_type reply = RESPONSE
        \/ Message.message_type reply = ERROR).

(** [r] is not an exception when the payload of [m] is a dictionary and
    the attributes in [st] are well formed. *)
Definition returns (m : Message) (st : Agent.State Fields)
    (r : result (option Message)) : Prop :=
  forall d, Message.payload m = PDict d ->
    well_formed (Agent.ext (Agent.self st)) ->
    exists x, r = ok x.

End Frame.

(** The message [send_message] builds when it is called in [st]. *)
Definition sent (env : Env) {E : Type} (st : Agent.State E)
    (destination : AgentType) (message_type : MessageType) (payload : pyval)
    : Message :=
  Message.init (ambient env (clock (Agent.world st)))
    (Agent.agent_type (Agent.self st)) destination message_type payload
    PNone PNone (PInt 5) PNone.

(** The text of the error notice [crawl_website] ends with. *)
Definition crawl_failure (env : Env) (FOREVERVM_API_TOKEN : string) : string :=
  if FOREVERVM_AVAILABLE env
  then
    if String.eqb FOREVERVM_API_TOKEN ""
    then "Error crawling website: ForeverVM API token not provided. Set FOREVERVM_API_TOKEN environment variable."
    else "Crawling failed: 'dict' object has no attribute 'output'"
  else "ForeverVM required for secure crawling".

(** The configuration file of [w] gives no usable URL: it is missing or
    unreadable, or it holds a dictionary whose [website_url] is missing or
    false. *)
Definition no_url (env : Env) (w : World) : Prop :=
  match fs w !! CONFIG_PATH env with
  | Some (Json (PDict c)) => truthy (default PNone (c !! "website_url")) = false
  | Some (Json _) => False
  | _ => True
  end.

(** The keys of an analysis. *)
Definition Analysis_keys : gset string :=
  {["base_url"; "pages_analyzed"; "page_structure"; "common_patterns";
    "asset_analysis"; "recommendations"]}.

(** The recommendations of an analysis whose three tests came out as
    [header], [footer] and [scripts]. *)
Definition recommendations_of (header footer scripts : bool) : list pyval :=
  ((if header then [PStr "Implement consistent header across all pages"] else [])
   ++ (if footer then [PStr "Implement consistent footer across all pages"] else [])
   ++ (if scripts
       then [PStr "Consider bundling JavaScript files to improve loading performance"]
       else []))%list.

(** *** Further surroundings and inputs *)

Module Scenarios.
Import Agent Examples.

(** Surroundings in which [MultiAgentSystem.stop] runs during every sleep. *)
Definition stopping_env : Env :=
  {| PROJECT_ROOT := PROJECT_ROOT quiet_env;
     FOREVERVM_AVAILABLE := FOREVERVM_AVAILABLE quiet_env;
     ambient := ambient quiet_env;
     writable := writable quiet_env;
     others := others quiet_env;
     stop_requested := fun _ => true |}.

(** Surroundings in which no file can be written. *)
Definition read_only_env : Env :=
  {| PROJECT_ROOT := PROJECT_ROOT quiet_env;
     FOREVERVM_AVAILABLE := FOREVERVM_AVAILABLE quiet_env;
     ambient := ambient quiet_env;
     writable := fun _ => false;
     others := others quiet_env;
     stop_requested := stop_requested quiet_env |}.

(** Surroundings without the ForeverVM integration. *)
Definition plain_env : Env :=
  {| PROJECT_ROOT := PROJECT_ROOT quiet_env;
     FOREVERVM_AVAILABLE := false;
     ambient := ambient quiet_env;
     writable := writable quiet_env;
     others := others quiet_env;
     stop_requested := stop_requested quiet_env |}.

(** A crawl request waiting in the queue of a running analysis agent. *)
Definition crawl_request : Message :=
  Message.init noon ORCHESTRATOR CRAWLER REQUEST
    (PDict (<["action" := PStr "crawl"]> (<["url" := example_url]> ∅)))
    PNone PNone (PInt 5) PNone.

Definition waiting_analysis : State unit :=
  {| self := self running_analysis;
     world := {| fs := ∅; queue := [crawl_request]; clock := 0 |} |}.

(** An analysis agent whose world holds a crawl result of three pages. *)
Definition crawled_analysis : State unit :=
  {| self := self idle_analysis;
     world := {| fs := <["crawl.json" := Json (crawl three_pages three_assets)]> ∅;
                 queue := [];
                 clock := 0 |} |}.

Definition idle_implementation : State unit :=
  {| self := Agent.init IMPLEMENTATION tt; world := empty_world |}.

Definition idle_crawler : State CrawlerAgent.Fields :=
  {| self := CrawlerAgent.init; world := empty_world |}.

(** A rendering of the values [str_of] leaves open. *)
Definition no_render : pyval -> string := fun _ => "...".

(** A crawl code template. *)
Definition code_for : string -> string := fun url => "crawl " +:+ url.

End Scenarios.


(** * Properties *)

(** ** Strings and truthiness *)

Lemma truthy_append_l (x y : string) : truthy (PStr x) = true -> truthy (PStr (x +:+ y)) = true.
Proof. destruct x; [discriminate | reflexivity]. Qed.

Lemma truthy_append_r x y : truthy (PStr y) = true -> truthy (PStr (x +:+ y)) = true.
Proof. destruct x; [trivial | reflexivity]. Qed.

Lemma append_assoc (x y z : string) : (x +:+ y) +:+ z = x +:+ (y +:+ z).
Proof.
  induction x as [|c x IH]; [reflexivity|].
  change (String c ((x +:+ y) +:+ z) = String c (x +:+ (y +:+ z))).
  now rewrite IH.
Qed.

Lemma append_inv_head (x y z : string) : x +:+ y = x +:+ z -> y = z.
Proof.
  induction x as [|c x IH]; [trivial|].
  change (String c (x +:+ y) = String c (x +:+ z) -> y = z).
  intros [= H]. auto.
Qed.

(** ** Message *)

Section MessageFacts.
Import Message.

Lemma AgentType_of_value a : AgentType_of (PStr (AgentType_value a)) = ok a.
Proof. destruct a; reflexivity. Qed.

Lemma MessageType_of_value t : MessageType_of (PStr (MessageType_value t)) = ok t.
Proof. destruct t; reflexivity. Qed.

Lemma or_else_truthy x y : truthy y = true -> truthy (or_else x y) = true.
Proof. unfold or_else. destruct (truthy x) eqn:Hx; auto. Qed.

Lemma or_else_keep x y : truthy x = true -> or_else x y = x.
Proof. unfold or_else. now intros ->. Qed.

Lemma generated_id_truthy amb :
  truthy (PStr (pretty (time_time amb) +:+ "-" +:+ pretty (object_id amb))) = true.
Proof. apply truthy_append_r, truthy_append_l. reflexivity. Qed.

Lemma isoformat_truthy d : truthy (PStr (isoformat d)) = true.
Proof. unfold isoformat. apply truthy_append_r, truthy_append_l. reflexivity. Qed.

(** What the constructor guarantees of a message: an identifier and a
    timestamp that are true values, and metadata that are a true value or
    the empty mapping. *)
Lemma init_fields amb src dst mt payload mid ts prio md :
  let m := init amb src dst mt payload mid ts prio md in
  truthy (message_id m) = true
  /\ truthy (timestamp m) = true
  /\ (truthy (metadata m) = true \/ metadata m = PDict ∅).
Proof.
  cbn. repeat split.
  - apply or_else_truthy, generated_id_truthy.
  - apply or_else_truthy, isoformat_truthy.
  - unfold or_else. destruct (truthy md) eqn:H; auto.
Qed.

(** Such a message is rebuilt as it was. *)
Lemma from_dict_to_dict_fields amb m :
  truthy (message_id m) = true ->
  truthy (timestamp m) = true ->
  truthy (metadata m) = true \/ metadata m = PDict ∅ ->
  from_dict amb (PDict (to_dict m)) = ok m.
Proof.
  intros Hid Hts Hmd. unfold from_dict, to_dict, getitem.
  simplify_map_eq.
  rewrite !AgentType_of_value, MessageType_of_value. cbn [rbind ok].
  unfold init. rewrite (or_else_keep _ _ Hid), (or_else_keep _ _ Hts).
  assert (Hm : or_else (metadata m) (PDict ∅) = metadata m).
  { destruct Hmd as [H | H]; [now apply or_else_keep|].
    rewrite H. reflexivity. }
  rewrite Hm. now destruct m.
Qed.

(** C2: a message built by the constructor, from any arguments, is
    rebuilt field for field by [from_dict] from what [to_dict] gives,
    whatever clock and identity the rebuilding call sees. *)
Theorem from_dict_to_dict amb amb' src dst mt payload mid ts prio md :
  from_dict amb' (PDict (to_dict (init amb src dst mt payload mid ts prio md)))
  = ok (init amb src dst mt payload mid ts prio md).
Proof.
  destruct (init_fields amb src dst mt payload mid ts prio md)
    as (Hid & Hts & Hmd).
  now apply from_dict_to_dict_fields.
Qed.
End MessageFacts.

(** ** Agent *)

Section AgentFacts.
Import Agent Examples.

(** C10, as amended: when the status file can be written, a call with a
    non-empty error text writes the status held before the call together
    with the text under its own key, and leaves the attribute at error;
    whatever the argument, the status written is the one held before the
    call, so the file says error only if the attribute already did; and a
    call with the empty text, as one without a text, attaches no error
    entry and leaves the attribute as it was. *)
Theorem update_status_writes_previous env E (st : State E) :
  writable env (S (clock (world st))) = true ->
  (forall e, e <> "" -> status_written_with_error env st e)
  /\ (forall error,
        exists data : gmap string pyval,
          status_record env (update_status env error st).2 = Some data
          /\ data !! "status" = Some (PStr (status (self st))))
  /\ (forall error, error = None \/ error = Some "" ->
        let st' := (update_status env error st).2 in
        exists data : gmap string pyval,
          status_record env st' = Some data
          /\ data !! "status" = Some (PStr (status (self st)))
          /\ data !! "error" = None
          /\ dom data = ({["status"; "timestamp"; "agent_type"]} : gset string)
          /\ status (self st') = status (self st)).
Proof.
  intros Hw. split; [|split].
  - intros e He. unfold status_written_with_error, update_status.
    apply String.eqb_neq in He. rewrite He.
    eexists. unfold status_record. cbn. rewrite Hw, lookup_insert_eq.
    split; [reflexivity|]. simplify_map_eq. auto.
  - intros error. unfold update_status, status_record.
    destruct error as [e|]; [destruct (String.eqb e "")|];
      eexists; cbn; rewrite Hw, lookup_insert_eq;
      (split; [reflexivity|]); now simplify_map_eq.
  - intros error Herr st'. subst st'. unfold update_status, status_record.
    destruct Herr as [-> | ->]; cbn [String.eqb negb];
      eexists; cbn; rewrite Hw, lookup_insert_eq;
      (split; [reflexivity|]);
      (split; [now simplify_map_eq|]);
      (split; [now simplify_map_eq|]);
      (split; [|reflexivity]);
      rewrite !dom_insert_L, dom_empty_L;
      apply set_eq; intros k;
      rewrite !elem_of_union, !elem_of_singleton, elem_of_empty; tauto.
Qed.

Lemma update_status_writes_previous_witness :
  status_written_with_error quiet_env running_analysis "boom"
  /\ exists data : gmap string pyval,
       status_record quiet_env
         (update_status quiet_env (Some "") running_analysis).2 = Some data
       /\ data !! "status" = Some (PStr "running")
       /\ data !! "error" = None.
Proof.
  destruct (update_status_writes_previous quiet_env unit running_analysis
              eq_refl) as (Herror & _ & Hnone).
  split; [apply Herror; discriminate|].
  destruct (Hnone (Some "") (or_intror eq_refl))
    as (data & Hrec & Hst & Herr & _).
  exists data. auto.
Defined.

(** C10, as stated, fails for the empty text. *)
Lemma update_status_empty_error :
  ~ status_written_with_error quiet_env running_analysis "".
Proof.
  intros (data & Hrec & _ & _ & Hst). vm_compute in Hst. discriminate.
Qed.

(** Whatever the agent went through, [stop] leaves it idle, and the status
    file with it when the file can be written. *)
Lemma stop_persists_idle env E (st : State E) :
  writable env (S (clock (world st))) = true ->
  exists data : gmap string pyval,
    status_record env (stop env st).2 = Some data
    /\ data !! "status" = Some (PStr "idle")
    /\ data !! "error" = None
    /\ status (self (stop env st).2) = "idle".
Proof.
  intros Hw. destruct st as [[a rn s x] [files q c]]. cbn in Hw.
  eexists. unfold status_record. cbn. rewrite Hw, lookup_insert_eq.
  split; [reflexivity|]. now simplify_map_eq.
Qed.

(** A [run] that has returned, normally or after an exception in its
    loop, has gone through [stop] last. *)
Lemma run_returns_through_stop env E (cls : Methods) left (st st' : State E) r :
  run env cls left st = (r, st') ->
  r <> inr None ->
  exists st1, st' = (stop env st1).2.
Proof.
  unfold run, try_finally. intros H Hr.
  destruct (run_guarded env cls left st) as [[e|[[]|]] st1];
    try (injection H as <- <-; congruence);
    exists st1; destruct (stop env st1) as [[e'|[]] st2];
    injection H as <- <-; reflexivity.
Qed.

(** C3: with a [do_work] that raises, the [except] clause persists the
    error, and the [finally] clause then overwrites it: once [run] has
    returned, the status file says idle and carries no error. *)
Theorem run_error_overwritten :
  let guarded := run_guarded quiet_env failing_methods 5 idle_analysis in
  let final := run quiet_env failing_methods 5 idle_analysis in
  guarded.1 = ok (Some tt)
  /\ (status_record quiet_env guarded.2 ≫= (.!! "status")) = Some (PStr "error")
  /\ (status_record quiet_env guarded.2 ≫= (.!! "error")) = Some (PStr "boom")
  /\ final.1 = ok (Some tt)
  /\ (status_record quiet_env final.2 ≫= (.!! "status")) = Some (PStr "idle")
  /\ (status_record quiet_env final.2 ≫= (.!! "error")) = None
  /\ status (self final.2) = "idle".
Proof. vm_compute. repeat split. Qed.
End AgentFacts.

(** ** Orchestrator *)

Section OrchestratorFacts.
Import Agent OrchestratorAgent Orchestration Examples.

Lemma current_iteration_started f :
current_iteration (started f) = current_iteration f + 1.
Proof. unfold started. cbn. now destruct (_ <? _). Qed.

Lemma current_iteration_advanced f :
current_iteration f <= current_iteration (advanced f).
Proof.
unfold advanced. destruct (stage_done f); [|lia].
destruct (system_state f); cbn; try lia.
destruct (_ <? _); [rewrite current_iteration_started|cbn]; lia.
Qed.

Lemma current_iteration_checked f :
current_iteration f <= current_iteration (checked f).
Proof.
unfold checked.
destruct (any_error _); [destruct (_ !! _) as [c|]; [destruct (String.eqb c _)|]|];
  cbn; auto using current_iteration_advanced; lia.
Qed.

(** *** What each method does to the attributes

  Every method leaves the agent's own attributes alone and replaces the
  orchestrator's by a function of the old ones; the world it leaves is
  of no interest here and is quantified away. *)

Section Runs.
Context (env : Env).

(** Unfolds the monad and the methods without control flow of their own. *)
Ltac prim :=
cbv [bind ret gets modify lift raise when ok throw
     on_fields on_self on_world fields now write_json put
     new_message send_message reply set_agent_status
     set_state update_system_state
     self world ext agent_type running status
     with_ext moved].

Lemma set_state_run s st :
exists w, set_state env s st
          = (ok tt, moved st (with_system_state s (ext (self st))) w).
Proof. prim. eexists. reflexivity. Qed.

Lemma start_iteration_run st :
exists w, start_iteration env st = (ok tt, moved st (started (ext (self st))) w).
Proof.
unfold start_iteration, started. prim.
cbv [with_current_iteration with_agent_results max_iterations current_iteration].
destruct (_ <? _); eexists; reflexivity.
Qed.

Lemma check_stage_run st :
exists w, check_stage env st = (ok tt, moved st (advanced (ext (self st))) w).
Proof.
unfold check_stage, advanced, stage_done.
cbv [bind fields gets ok when self ext].
destruct st as [[a r s f] w].
destruct (system_state f) eqn:Hs; try (eexists; reflexivity);
  destruct (has_result _ _); try (eexists; reflexivity);
  try apply set_state_run.
destruct (_ <? _); [apply start_iteration_run | apply set_state_run].
Qed.

Lemma check_system_progress_run st :
exists w, check_system_progress env st
          = (check_result (ext (self st)), moved st (checked (ext (self st))) w).
Proof.
unfold check_system_progress, check_abort, checked, check_result, status_of.
destruct st as [[a r s f] w].
cbv [bind fields gets ok self ext lift throw].
destruct (any_error (agents_status f)).
- destruct (agents_status f !! AgentType_value CRAWLER) as [c|].
  + destruct (String.eqb c "error").
    * prim. eexists. reflexivity.
    * cbv [ret ok]. destruct (check_stage_run {| self := {| agent_type := a; running := r; status := s; ext := f |}; world := w |}) as [w' ->].
      eexists. reflexivity.
  + eexists. reflexivity.
- cbv [ret ok]. destruct (check_stage_run {| self := {| agent_type := a; running := r; status := s; ext := f |}; world := w |}) as [w' ->].
  eexists. reflexivity.
Qed.

(** An error notice. *)
Lemma handle_error_run m st :
Message.message_type m = ERROR ->
exists r w, handle_message env m st = (r, moved st (after_error m (ext (self st))) w).
Proof.
intros Hm. unfold handle_message, after_error. rewrite Hm.
destruct st as [[a rn s f] w].
destruct (Message.payload m); try (do 2 eexists; reflexivity).
cbv [get]. prim.
match goal with
| |- context [check_system_progress env ?s] =>
    destruct (check_system_progress_run s) as (w' & ->)
end.
destruct (check_result _); prim; do 2 eexists; reflexivity.
Qed.

(** A completion notice; it is acknowledged unless the progress check
  raises. *)
Lemma handle_completion_run m d st :
Message.message_type m = NOTIFICATION ->
Message.payload m = PDict d ->
eq_str (default PNone (d !! "status")) "complete" = true ->
exists r w, handle_message env m st
            = (r, moved st (after_completion m d (ext (self st))) w)
  /\ (check_result (recorded m d (ext (self st))) = ok tt ->
      exists reply, r = ok (Some reply)).
Proof.
intros Hm Hp Hs. unfold handle_message, after_completion, recorded.
rewrite Hm, Hp.
destruct st as [[a rn s f] w].
cbv [get lift bind ok]. 
change (match d !! "status" with Some x => x | None => PNone end)
  with (default PNone (d !! "status")). rewrite Hs.
change (match d !! "result_path" with Some x => x | None => PNone end)
  with (default PNone (d !! "result_path")).
destruct (truthy (default PNone (d !! "result_path"))); prim;
match goal with
| |- context [check_system_progress env ?s] =>
    destruct (check_system_progress_run s) as (w' & ->)
end;
cbn [self ext];
(destruct (check_result _) as [e|[]]; prim; do 2 eexists;
 (split; [reflexivity|]); [discriminate | eexists; reflexivity]).
Qed.

(** Any other notification changes nothing. *)
Lemma handle_other_notification m st :
Message.message_type m = NOTIFICATION ->
(forall d, Message.payload m = PDict d ->
           eq_str (default PNone (d !! "status")) "complete" = false) ->
exists r, handle_message env m st = (r, st).
Proof.
intros Hm Hp. unfold handle_message. rewrite Hm.
destruct (Message.payload m) eqn:Hd; try (eexists; reflexivity).
specialize (Hp _ eq_refl).
cbv [get lift bind ok].
change (match d !! "status" with Some x => x | None => PNone end)
  with (default PNone (d !! "status")). rewrite Hp.
eexists; reflexivity.
Qed.

(** Whatever the message, [handle_message] only replaces the
  orchestrator's attributes, and the counter does not go down. *)
Lemma handle_message_moves m st :
exists r w f',
  handle_message env m st = (r, moved st f' w)
  /\ current_iteration (ext (self st)) <= current_iteration f'.
Proof.
destruct (Message.message_type m) eqn:Hm.
- (* request *)
  unfold handle_message. rewrite Hm.
  destruct st as [[a rn s f] w].
  destruct (Message.payload m) eqn:Hp;
    try (do 3 eexists; split; [reflexivity | cbn; lia]).
  cbv [get lift bind ok].
  destruct (eq_str _ "set_url").
  { destruct (truthy _).
    - cbv [setitem]. prim. cbn [config with_target_url].
      destruct (config f) eqn:Hc;
        try (do 3 eexists; split; [reflexivity | cbn; lia]).
      cbv [Agent.save_config]. prim.
      cbn [system_state with_config with_target_url].
      destruct (bool_decide _ || bool_decide _).
      + match goal with
        | |- context [start_iteration env ?s] =>
            destruct (start_iteration_run s) as (w' & ->)
        end.
        prim. do 3 eexists. split; [reflexivity|].
        rewrite current_iteration_started. cbn. lia.
      + do 3 eexists; split; [reflexivity | cbn; lia].
    - prim. do 3 eexists; split; [reflexivity | cbn; lia]. }
  destruct (eq_str _ "start").
  { prim. destruct (truthy (target_url f)); cbn [negb].
    - match goal with
      | |- context [start_iteration env ?s] =>
          destruct (start_iteration_run s) as (w' & ->)
      end.
      prim. do 3 eexists. split; [reflexivity|].
      rewrite current_iteration_started. cbn. lia.
    - do 3 eexists; split; [reflexivity | cbn; lia]. }
  destruct (eq_str _ "stop").
  { prim. do 3 eexists; split; [reflexivity | cbn; lia]. }
  do 3 eexists; split; [reflexivity | cbn; lia].
- (* response *)
  unfold handle_message. rewrite Hm. destruct st as [[a rn s f] w].
  do 3 eexists; split; [reflexivity | cbn; lia].
- (* notification *)
  destruct (Message.payload m) as [| | | | | |d] eqn:Hp.
  1-6: (unfold handle_message; rewrite Hm, Hp; destruct st as [[? ? ? ?] ?];
         do 3 eexists; split; [reflexivity | cbn; lia]).
  destruct (eq_str (default PNone (d !! "status")) "complete") eqn:Hs.
  + destruct (handle_completion_run m d st Hm Hp Hs) as (r & w & -> & _).
    do 3 eexists; split; [reflexivity|].
    unfold after_completion.
    etransitivity; [|apply current_iteration_checked].
    unfold recorded. destruct (truthy _); cbn; lia.
  + destruct (handle_other_notification m st Hm) as (r & ->).
    { intros d' Hd'. congruence. }
    destruct st as [[? ? ? ?] ?].
    do 3 eexists; split; [reflexivity | cbn; lia].
- (* error *)
  destruct (handle_error_run m st Hm) as (r & w & ->).
  do 3 eexists; split; [reflexivity|].
  unfold after_error. destruct (Message.payload m); try lia.
  etransitivity; [|apply current_iteration_checked]. cbn; lia.
Qed.

(** A [set_url] request; outside the idle states nothing is queued. *)
Lemma handle_set_url_run m url st :
is_set_url m url ->
exists r w,
  handle_message env m st = (r, moved st (after_set_url url (ext (self st))) w)
  /\ (idle_state (system_state (ext (self st))) = false ->
      queue w = queue (world st)).
Proof.
intros (Hm & d & Hp & Ha & Hu). unfold handle_message, after_set_url.
rewrite Hm, Hp. destruct st as [[a rn s f] w].
cbv [get lift bind ok].
change (match d !! "action" with Some x => x | None => PNone end)
  with (default PNone (d !! "action")). rewrite Ha.
change (match d !! "url" with Some x => x | None => PNone end)
  with (default PNone (d !! "url")). rewrite Hu.
destruct (truthy url).
2:{ prim. do 2 eexists. split; reflexivity. }
cbv [setitem]. prim. cbn [config with_target_url].
destruct (config f) eqn:Hc;
  try (do 2 eexists; split; [reflexivity | reflexivity]).
cbv [Agent.save_config]. prim.
cbn [system_state with_config with_target_url].
fold (idle_state (system_state f)).
destruct (idle_state (system_state f)).
- match goal with
  | |- context [start_iteration env ?s] =>
      destruct (start_iteration_run s) as (w' & ->)
  end.
  prim. do 2 eexists. split; [reflexivity | discriminate].
- do 2 eexists. split; [reflexivity | reflexivity].
Qed.

(** A [set_url] request that meets a configuration that is no dictionary
  raises at the item assignment. *)
Lemma handle_set_url_raises m url st :
is_set_url m url ->
truthy url = true ->
(forall c, config (ext (self st)) <> PDict c) ->
exists e, (handle_message env m st).1 = inl e /\ exn_cls e = TypeError.
Proof.
intros (Hm & d & Hp & Ha & Hu) Ht Hc. unfold handle_message.
rewrite Hm, Hp. destruct st as [[a rn s f] w].
cbv [get lift bind ok].
change (match d !! "action" with Some x => x | None => PNone end)
  with (default PNone (d !! "action")). rewrite Ha.
change (match d !! "url" with Some x => x | None => PNone end)
  with (default PNone (d !! "url")). rewrite Hu, Ht.
cbv [setitem]. prim. cbn [config with_target_url].
cbn [self ext] in Hc.
destruct (config f) as [| | | | | |c] eqn:Hcf;
  try (eexists; split; reflexivity).
now destruct (Hc c).
Qed.
End Runs.

Lemma in_progress_not_idle s : in_progress s = true -> idle_state s = false.
Proof. now destruct s. Qed.

Lemma after_set_url_in_progress url f :
idle_state (system_state f) = false ->
system_state (after_set_url url f) = system_state f
/\ current_iteration (after_set_url url f) = current_iteration f.
Proof.
intros H. unfold after_set_url. destruct (truthy url); [|split; reflexivity].
destruct (config f); try (split; reflexivity).
rewrite H. split; reflexivity.
Qed.

Lemma started_below_max f :
current_iteration f < max_iterations f ->
system_state (started f) = SystemState.CRAWLING.
Proof.
intros H. unfold started. cbn.
destruct (_ <? _) eqn:E; [apply Z.ltb_lt in E; lia | reflexivity].
Qed.

Lemma after_set_url_twice url f :
current_iteration f < max_iterations f ->
current_iteration (after_set_url url (after_set_url url f))
= current_iteration (after_set_url url f).
Proof.
intros H. unfold after_set_url at 2 3.
destruct (truthy url) eqn:Ht.
2:{ unfold after_set_url. now rewrite Ht. }
destruct (config f) eqn:Hc;
  try (unfold after_set_url; rewrite Ht; cbn [config with_target_url];
       rewrite Hc; reflexivity).
destruct (idle_state (system_state f)) eqn:Hi;
  apply after_set_url_in_progress.
- rewrite started_below_max; [reflexivity | exact H].
- exact Hi.
Qed.

(** *** Statuses *)

Lemma any_error_lookup (m : gmap string string) k :
  m !! k = Some "error" -> any_error m = true.
Proof.
  intros H. unfold any_error. apply existsb_exists.
  exists (k, "error"). split; [|reflexivity].
  apply list_elem_of_In, elem_of_map_to_list, H.
Qed.

Lemma stage_errors_only_crawler (m : gmap string string) :
  stage_errors_only m = true -> m !! AgentType_value CRAWLER <> Some "error".
Proof.
  unfold stage_errors_only. intros H Hc.
  rewrite forallb_forall in H.
  specialize (H (AgentType_value CRAWLER, "error")).
  cbn in H. discriminate H.
  apply list_elem_of_In, elem_of_map_to_list, Hc.
Qed.

Lemma checked_crawler_error f :
  agents_status f !! AgentType_value CRAWLER = Some "error" ->
  system_state (checked f) = SystemState.ERROR.
Proof.
  intros H. unfold checked. rewrite (any_error_lookup _ _ H), H. reflexivity.
Qed.

Lemma checked_otherwise f :
  agents_status f !! AgentType_value CRAWLER <> Some "error" ->
  checked f = f \/ checked f = advanced f.
Proof.
  intros H. unfold checked. destruct (any_error _); [|now right].
  destruct (_ !! _) as [c|] eqn:Hc; [|now left].
  destruct (String.eqb c "error") eqn:He; [|now right].
  apply String.eqb_eq in He. subst c. now destruct H.
Qed.

Lemma system_state_started f :
  system_state (started f) = SystemState.COMPLETE
  \/ system_state (started f) = SystemState.CRAWLING.
Proof. unfold started. destruct (_ <? _); cbn; auto. Qed.

Lemma advanced_not_done f : stage_done f = false -> advanced f = f.
Proof. unfold advanced. now intros ->. Qed.

Lemma advanced_error f :
  system_state (advanced f) = SystemState.ERROR ->
  system_state f = SystemState.ERROR.
Proof.
  unfold advanced. destruct (stage_done f); [|trivial].
  destruct (system_state f) eqn:Hs; cbn; try congruence.
  destruct (_ <? _); [|cbn; congruence].
  destruct (system_state_started f) as [-> | ->]; congruence.
Qed.

Lemma checked_advanced f c :
  agents_status f !! AgentType_value CRAWLER = Some c ->
  c <> "error" ->
  checked f = advanced f.
Proof.
  intros Hc Hne. unfold checked. rewrite Hc.
  apply String.eqb_neq in Hne. rewrite Hne. now destruct (any_error _).
Qed.

Lemma stage_errors_only_entry (m : gmap string string) k :
  stage_errors_only m = true ->
  is_Some (m !! k) ->
  k = AgentType_value CRAWLER ->
  exists c, m !! k = Some c /\ c <> "error".
Proof.
  intros Honly [c Hc] ->. exists c. split; [exact Hc|].
  intros ->. now apply stage_errors_only_crawler in Honly.
Qed.

(** C1, as amended: handling an error notice sent by the crawler, or sent
    while the crawler is already recorded as failed, moves the state to
    error.  When the only recorded failures are those of the later stages,
    the state never becomes error, and it stays what it was unless the
    stage of the current state has its result recorded already; in that
    case, the crawler having a status entry, the transition of the
    progress check is taken: from crawling to analyzing, from analyzing to
    implementing, from implementing to feedback, and from feedback to the
    crawling of the next iteration, with the counter incremented, while
    the budget lasts, and to complete otherwise.  Without a status entry
    of the crawler the progress check raises and the state stays. *)
Theorem error_escalation env st m d :
  Message.message_type m = ERROR ->
  Message.payload m = PDict d ->
  let f := attributes st in
  let f' := attributes (handle_message env m st).2 in
  let statuses :=
    <[AgentType_value (Message.source_agent m) := "error"]> (agents_status f) in
  let recorded stage := agent_results f !! AgentType_value stage in
  (statuses !! AgentType_value CRAWLER = Some "error"
     -> system_state f' = SystemState.ERROR)
  /\ (Message.source_agent m = CRAWLER -> system_state f' = SystemState.ERROR)
  /\ (stage_errors_only statuses = true ->
      (stage_done f = false -> system_state f' = system_state f)
      /\ (system_state f' = SystemState.ERROR
          -> system_state f = SystemState.ERROR)
      /\ (system_state f = SystemState.CRAWLING ->
          recorded CRAWLER = None -> system_state f' = SystemState.CRAWLING)
      /\ (system_state f = SystemState.ANALYZING ->
          recorded ANALYSIS = None -> system_state f' = SystemState.ANALYZING)
      /\ (system_state f = SystemState.IMPLEMENTING ->
          recorded IMPLEMENTATION = None ->
          system_state f' = SystemState.IMPLEMENTING)
      /\ (system_state f = SystemState.FEEDBACK ->
          recorded FEEDBACK = None -> system_state f' = SystemState.FEEDBACK)
      /\ (system_state f = SystemState.INITIALIZING
          \/ system_state f = SystemState.COMPLETE
          \/ system_state f = SystemState.ERROR ->
          system_state f' = system_state f)
      /\ (agents_status f !! AgentType_value CRAWLER = None ->
          system_state f' = system_state f)
      /\ (is_Some (agents_status f !! AgentType_value CRAWLER) ->
          (system_state f = SystemState.CRAWLING ->
           is_Some (recorded CRAWLER) ->
           system_state f' = SystemState.ANALYZING
           /\ current_iteration f' = current_iteration f)
          /\ (system_state f = SystemState.ANALYZING ->
              is_Some (recorded ANALYSIS) ->
              system_state f' = SystemState.IMPLEMENTING
              /\ current_iteration f' = current_iteration f)
          /\ (system_state f = SystemState.IMPLEMENTING ->
              is_Some (recorded IMPLEMENTATION) ->
              system_state f' = SystemState.FEEDBACK
              /\ current_iteration f' = current_iteration f)
          /\ (system_state f = SystemState.FEEDBACK ->
              is_Some (recorded FEEDBACK) ->
              (current_iteration f < max_iterations f ->
               system_state f' = SystemState.CRAWLING
               /\ current_iteration f' = current_iteration f + 1)
              /\ (max_iterations f <= current_iteration f ->
                  system_state f' = SystemState.COMPLETE
                  /\ current_iteration f' = current_iteration f)))).
Proof.
  intros Hm Hp f f' statuses recorded.
  destruct (handle_error_run env m st Hm) as (r & w & Hrun).
  assert (Hf' : f' = checked (with_agents_status statuses f)).
  { subst f'. rewrite Hrun. unfold after_error. rewrite Hp. reflexivity. }
  clearbody f'. subst f'.
  assert (Hcrawler : statuses !! AgentType_value CRAWLER = Some "error"
                     -> system_state (checked (with_agents_status statuses f))
                        = SystemState.ERROR).
  { intros H. now apply checked_crawler_error. }
  split; [exact Hcrawler|]. split.
  { intros Hsrc. apply Hcrawler. subst statuses. rewrite Hsrc.
    apply lookup_insert_eq. }
  intros Honly.
  assert (Hkeep : stage_done f = false ->
                  system_state (checked (with_agents_status statuses f))
                  = system_state f).
  { intros Hd. pose proof (stage_errors_only_crawler _ Honly) as Hc.
    destruct (checked_otherwise (with_agents_status statuses f) Hc)
      as [-> | ->]; [reflexivity|].
    now rewrite advanced_not_done. }
  split; [exact Hkeep|]. split.
  { intros He. pose proof (stage_errors_only_crawler _ Honly) as Hc.
    destruct (checked_otherwise (with_agents_status statuses f) Hc)
      as [Hch | Hch]; rewrite Hch in He; [exact He|].
    now apply advanced_error in He. }
  unfold recorded.
  do 4 (split; [intros Hs Hr; rewrite Hkeep;
                [exact Hs | unfold stage_done, has_result; now rewrite Hs, Hr]|]).
  split.
  { intros Hs. apply Hkeep. unfold stage_done.
    now destruct Hs as [-> | [-> | ->]]. }
  split.
  { intros Hnone.
    assert (Hnone' : statuses !! AgentType_value CRAWLER = None).
    { subst statuses.
      destruct (decide (AgentType_value (Message.source_agent m)
                        = AgentType_value CRAWLER)) as [Heq | Hne].
      - pose proof (stage_errors_only_crawler _ Honly) as Hc.
        rewrite Heq, lookup_insert_eq in Hc. congruence.
      - now rewrite lookup_insert_ne. }
    unfold checked. cbn [agents_status with_agents_status].
    rewrite (any_error_lookup statuses
               (AgentType_value (Message.source_agent m))), Hnone';
      [reflexivity | apply lookup_insert_eq]. }
  intros Hentry.
  assert (Hadv : checked (with_agents_status statuses f)
                 = advanced (with_agents_status statuses f)).
  { assert (Hsome : is_Some (statuses !! AgentType_value CRAWLER)).
    { subst statuses.
      destruct (decide (AgentType_value (Message.source_agent m)
                        = AgentType_value CRAWLER)) as [-> | Hne].
      - rewrite lookup_insert_eq. eauto.
      - now rewrite lookup_insert_ne. }
    destruct (stage_errors_only_entry statuses _ Honly Hsome eq_refl)
      as (c & Hc & Hne).
    exact (checked_advanced (with_agents_status statuses f) c Hc Hne). }
  rewrite Hadv. unfold advanced, stage_done, has_result.
  cbn [system_state agent_results with_agents_status].
  clear Hentry.
  repeat split;
    match goal with
    | Hs : system_state f = _, Hr : is_Some _ |- _ =>
        destruct Hr as [v Hv]; rewrite Hs, Hv
    end; try reflexivity;
    cbn [current_iteration max_iterations with_agents_status];
    match goal with
    | H : _ < _ |- _ => pose proof (proj2 (Z.ltb_lt _ _) H) as Hb
    | H : _ <= _ |- _ => pose proof (proj2 (Z.ltb_ge _ _) H) as Hb
    end; rewrite Hb; try reflexivity.
  - now apply started_below_max.
  - now rewrite current_iteration_started.
Qed.

Lemma error_escalation_witness :
  let st := (start quiet_env (fresh 3 (configured_world example_url))).2 in
  let m := error_notice noon ANALYSIS "boom" in
  let m' := error_notice noon IMPLEMENTATION "boom" in
  (system_state (attributes st) = SystemState.CRAWLING
   /\ system_state (attributes (handle_message quiet_env m st).2)
      = SystemState.CRAWLING)
  /\ (system_state (attributes reordered) = SystemState.ANALYZING
      /\ system_state (attributes (handle_message quiet_env m' reordered).2)
         = SystemState.IMPLEMENTING).
Proof.
  intros st m m'. split; (split; [reflexivity|]).
  - destruct (error_escalation quiet_env st m (<["error" := PStr "boom"]> ∅)
                eq_refl eq_refl) as (_ & _ & H).
    destruct (H eq_refl) as [Hkeep _]. exact (Hkeep eq_refl).
  - destruct (error_escalation quiet_env reordered m'
                (<["error" := PStr "boom"]> ∅) eq_refl eq_refl) as (_ & _ & H).
    destruct (H eq_refl) as (_ & _ & _ & _ & _ & _ & _ & _ & Hmove).
    destruct (Hmove ltac:(vm_compute; eauto)) as (_ & Han & _).
    destruct (Han eq_refl ltac:(vm_compute; eauto)) as [Hs _]. exact Hs.
Defined.

(** C1, as stated, fails: with the analysis result recorded before the
    crawler's, an error notice of the implementation agent takes the
    state from analyzing to implementing. *)
Lemma error_notice_advances_state :
  ~ escalation_as_specified quiet_env reordered
      (error_notice noon IMPLEMENTATION "boom").
Proof.
  intros [_ H]. specialize (H eq_refl). vm_compute in H. discriminate H.
Qed.


(** *** Files *)

Lemma status_file_not_config env a : status_file env a <> CONFIG_PATH env.
Proof.
  unfold status_file, output_dir, CONFIG_PATH, path_join.
  rewrite !append_assoc. intros H. apply append_inv_head in H.
  destruct a; vm_compute in H; discriminate.
Qed.

Lemma state_file_not_config env : state_file env <> CONFIG_PATH env.
Proof.
  unfold state_file, output_dir, CONFIG_PATH, path_join.
  rewrite !append_assoc. intros H. apply append_inv_head in H.
  vm_compute in H; discriminate.
Qed.

Lemma fs_write_other env p q v w :
  p <> q -> fs (write env p v w) !! q = fs w !! q.
Proof.
  intros H. unfold write. cbn [fs].
  destruct (writable env _); [apply lookup_insert_ne, H | reflexivity].
Qed.

Lemma load_config_configured env E (st : State E) c :
  fs (world st) !! CONFIG_PATH env = Some (Json c) ->
  load_config env st = (ok c, st).
Proof.
  intros H. unfold load_config, load_json.
  cbv [bind gets try_except ok ret]. rewrite H. cbn. rewrite H. reflexivity.
Qed.

Lemma start_configured env st c url :
  fs (world st) !! CONFIG_PATH env = Some (Json (PDict c)) ->
  default PNone (c !! "website_url") = url ->
  truthy url = true ->
  exists w,
    start env st
    = (ok tt,
       {| self :=
            with_ext
              (started
                 (with_system_state SystemState.INITIALIZING
                    (with_target_url url
                       (with_config (PDict c) (ext (self st))))))
              (with_status "running" (with_running true (self st)));
          world := w |}).
Proof.
  intros Hc Hu Ht. unfold start, Agent.start, update_status.
  destruct st as [[a rn s f] w]. cbn [world] in Hc.
  cbv [bind ret gets modify lift raise when ok throw
       on_fields on_self on_world fields now write_json
       self world ext agent_type running status with_running with_status].
  rewrite (load_config_configured env _ _ (PDict c)).
  2:{ cbn [world]. rewrite fs_write_other by apply status_file_not_config.
      exact Hc. }
  cbv [get ok].
  change (match c !! "website_url" with Some x => x | None => PNone end)
    with (default PNone (c !! "website_url")).
  rewrite Hu, Ht.
  cbv [bind ret gets modify lift raise when ok throw
       on_fields on_self on_world fields now write_json
       set_state update_system_state
       self world ext agent_type running status with_ext].
  match goal with
  | |- context [start_iteration env ?s] =>
      destruct (start_iteration_run env s) as (w' & ->)
  end.
  eexists. reflexivity.
Qed.

(** *** A run of completion notices *)

Lemma result_file_truthy env a : truthy (PStr (result_file env a)) = true.
Proof. unfold result_file, path_join. apply truthy_append_r. reflexivity. Qed.

Lemma handle_completion_notice env amb stage detail st :
  check_result
    (with_agent_results
       (<[AgentType_value stage := PStr (result_file env stage)]>
          (agent_results (attributes st)))
       (with_agents_status
          (<[AgentType_value stage := "idle"]> (agents_status (attributes st)))
          (attributes st))) = ok tt ->
  exists reply w,
    handle_message env (completion_notice env amb stage detail) st
    = (ok (Some reply), moved st (noticed env stage (attributes st)) w).
Proof.
  intros Hok.
  set (d := <["status" := PStr "complete"]>
            (<[detail_key stage := detail]>
            (<["result_path" := PStr (result_file env stage)]> (∅ : gmap string pyval)))).
  assert (Hpath : default PNone (d !! "result_path")
                  = PStr (result_file env stage)).
  { subst d. rewrite lookup_insert_ne by discriminate.
    rewrite lookup_insert_ne by (destruct stage; discriminate).
    now rewrite lookup_insert_eq. }
  assert (Hstatus : eq_str (default PNone (d !! "status")) "complete" = true).
  { subst d. now rewrite lookup_insert_eq. }
  destruct (handle_completion_run env
              (completion_notice env amb stage detail) d st
              eq_refl eq_refl Hstatus)
    as (r & w & Hrun & Hreply).
  unfold after_completion, recorded in Hrun, Hreply.
  rewrite Hpath, result_file_truthy in Hrun, Hreply.
  destruct (Hreply Hok) as [reply ->].
  exists reply, w. exact Hrun.
Qed.

Lemma handle_all_notices env ms l :
  notices_of env ms l ->
  forall st,
    smooth env l (attributes st) = true ->
    exists w,
      handle_all env ms st
      = (ok tt,
         moved st (foldl (fun f stage => noticed env stage f) (attributes st) l) w).
Proof.
  induction 1 as [|m stage ms l (amb & detail & ->) _ IH]; intros st Hs.
  - destruct st as [[? ? ? ?] ?]. eexists. reflexivity.
  - cbn [smooth] in Hs.
    destruct (check_result _) as [e|[]] eqn:Hok; [discriminate|].
    destruct (handle_completion_notice env amb stage detail st Hok)
      as (reply & w & Hrun).
    cbn [handle_all]. cbv [bind]. rewrite Hrun.
    destruct (IH (moved st (noticed env stage (attributes st)) w) Hs)
      as (w' & ->).
    eexists. reflexivity.
Qed.

Lemma pass_notices env amb detail : notices_of env (pass env amb detail) stages.
Proof.
  unfold notices_of, pass, stages. cbn.
  repeat constructor; eexists _, _; reflexivity.
Qed.


(** *** The iteration counter never decreases *)

Lemma grows_refl st : grows st st.
Proof. unfold grows. lia. Qed.

Lemma grows_trans st1 st2 st3 : grows st1 st2 -> grows st2 st3 -> grows st1 st3.
Proof. unfold grows. lia. Qed.

Lemma handle_message_grows env m st : grows st (handle_message env m st).2.
Proof.
  destruct (handle_message_moves env m st) as (r & w & f' & -> & H). exact H.
Qed.

Lemma start_iteration_grows env st : grows st (start_iteration env st).2.
Proof.
  destruct (start_iteration_run env st) as (w & ->). unfold grows, attributes.
  cbn. rewrite current_iteration_started. lia.
Qed.

Lemma check_system_progress_grows env st :
  grows st (check_system_progress env st).2.
Proof.
  destruct (check_system_progress_run env st) as (w & ->).
  apply current_iteration_checked.
Qed.

Lemma load_config_pure env E (st : State E) :
  exists c, load_config env st = (ok c, st).
Proof.
  unfold load_config, load_json. cbv [bind gets try_except ok ret raise].
  destruct (fs (world st) !! CONFIG_PATH env) as [[v|]|] eqn:H;
    cbn; rewrite ?H; eexists; reflexivity.
Qed.

Lemma start_grows env st : grows st (start env st).2.
Proof.
  unfold start, Agent.start, update_status.
  destruct st as [[a rn s f] w].
  cbv [bind ret gets modify lift raise when ok throw
       on_fields on_self on_world fields now write_json
       self world ext agent_type running status with_running with_status].
  match goal with
  | |- context [load_config env ?s] =>
      destruct (load_config_pure env _ s) as (c & ->)
  end.
  destruct c as [| | | | | |d]; try (unfold grows, attributes; cbn; lia).
  cbv [get ok].
  cbv [bind ret gets modify lift raise when ok throw
       on_fields on_self on_world fields now write_json
       set_state update_system_state
       self world ext agent_type running status with_ext].
  destruct (truthy _); [|unfold grows, attributes; cbn; lia].
  match goal with
  | |- context [start_iteration env ?s] =>
      destruct (start_iteration_run env s) as (w' & ->)
  end.
  unfold grows, attributes. cbn. rewrite current_iteration_started. cbn. lia.
Qed.

Lemma update_status_self env E (st : State E) error :
  exists s' w, update_status env error st
               = (ok tt, {| self := with_status s' (self st); world := w |}).
Proof.
  unfold update_status. destruct st as [[a rn s x] w].
  destruct error as [e|]; [destruct (String.eqb e "")|];
    do 2 eexists; reflexivity.
Qed.

Lemma stop_grows env st : grows st (stop env st).2.
Proof. unfold grows. destruct st as [[a rn s x] w]. cbn. lia. Qed.

Lemma sleep_attributes env (st : State Fields) :
  exists st', sleep env st = (ok tt, st') /\ attributes st' = attributes st.
Proof.
  destruct st as [[a rn s f] [files q c]]. unfold sleep.
  cbv [bind gets modify ok on_world when ret world clock self].
  destruct (stop_requested env c); [|eexists; split; reflexivity].
  unfold stop, update_status.
  cbv [bind gets modify ok on_world on_self now write_json ret].
  eexists; split; reflexivity.
Qed.

Lemma loop_body_grows env st : grows st (loop_body env (methods env) st).2.
Proof.
  unfold loop_body. destruct st as [[a rn s f] [files q c]].
  cbv [bind gets ok world queue]. destruct q as [|m rest].
  - cbn [m_do_work methods]. unfold do_work.
    destruct (sleep_attributes env
                {| self := {| agent_type := a; running := rn; status := s; ext := f |};
                   world := {| fs := files; queue := []; clock := c |} |})
      as (st1 & -> & H1).
    destruct (sleep_attributes env st1) as (st2 & -> & H2).
    unfold grows. cbv [ok snd]. rewrite H2, H1. cbn. lia.
  - cbv [on_world modify self world agent_type ok].
    destruct (decide _); [|unfold grows, attributes; cbn; lia].
    cbn [m_handle_message methods].
    match goal with
    | |- context [handle_message env m ?s] =>
        pose proof (handle_message_grows env m s) as H;
        destruct (handle_message env m s) as [[?|[reply|]] st']
    end; cbn in *; exact H.
Qed.

Lemma while_running_grows env left :
  forall st, grows st (while_running env (methods env) left st).2.
Proof.
  induction left as [|n IH]; intros st; cbn [while_running];
    cbv [bind gets ok ret]; destruct (running (self st));
    try apply grows_refl.
  - pose proof (loop_body_grows env st) as H.
    destruct (loop_body env (methods env) st) as [[e|[]] st']; [exact H|].
    eapply grows_trans; [exact H | apply IH].
Qed.

Lemma body_grows env left st :
  grows st ((Agent.m_start (methods env);;
             while_running env (methods env) left) st).2.
Proof.
  cbv [bind]. cbn [m_start methods].
  pose proof (start_grows env st) as Hs.
  destruct (start env st) as [[e|[]] st1]; [exact Hs|].
  eapply grows_trans; [exact Hs | apply while_running_grows].
Qed.

Lemma handler_attributes env (e : exn) (st : State Fields) :
  attributes ((on_self (with_status "error");;
               update_status env (Some (exn_str e));;
               ret (Some tt)) st).2 = attributes st.
Proof.
  destruct st as [[a rn s f] w]. unfold update_status.
  cbv [bind ret gets modify ok on_self on_world now write_json].
  cbn. destruct (String.eqb (exn_str e) ""); reflexivity.
Qed.

Lemma run_guarded_grows env left st :
  grows st (run_guarded env (methods env) left st).2.
Proof.
  unfold run_guarded, try_except.
  pose proof (body_grows env left st) as H.
  destruct ((Agent.m_start (methods env);;
             while_running env (methods env) left) st) as [[e|r] st1];
    cbn [snd] in H; [|exact H].
  eapply grows_trans; [exact H|].
  unfold grows. rewrite handler_attributes. lia.
Qed.

Lemma run_grows env left st : grows st (run env (methods env) left st).2.
Proof.
  unfold run, try_finally. pose proof (run_guarded_grows env left st) as Hg.
  destruct (run_guarded env (methods env) left st) as [[e|[[]|]] st1];
    cbn [snd] in Hg; try exact Hg;
    pose proof (stop_grows env st1) as Hs;
    destruct (stop env st1) as [[e'|[]] st2]; cbn [snd] in Hs |- *;
    eapply grows_trans; eassumption.
Qed.

(** C4: with a budget of two iterations and a configured URL, starting
    the orchestrator and handling the completion notices of two full
    passes ends in state complete with [current_iteration] equal to 2; and
    neither [start], [handle_message], [start_iteration],
    [check_system_progress] nor a whole [run] ever leaves
    [current_iteration] smaller than it found it. *)
Theorem two_passes_complete env w c url amb1 detail1 amb2 detail2 :
  fs w !! CONFIG_PATH env = Some (Json (PDict c)) ->
  default PNone (c !! "website_url") = url ->
  truthy url = true ->
  let st1 := (start env (fresh 2 w)).2 in
  let st2 :=
    (handle_all env (pass env amb1 detail1 ++ pass env amb2 detail2) st1).2 in
  (system_state (attributes st2) = SystemState.COMPLETE
   /\ current_iteration (attributes st2) = 2)
  /\ (forall st m, grows st (handle_message env m st).2)
  /\ (forall st, grows st (start env st).2)
  /\ (forall st, grows st (start_iteration env st).2)
  /\ (forall st, grows st (check_system_progress env st).2)
  /\ (forall st left, grows st (run env (methods env) left st).2).
Proof.
  intros Hc Hu Ht st1 st2. split.
  - destruct (start_configured env (fresh 2 w) c url Hc Hu Ht) as (w1 & Hstart).
    subst st2 st1. rewrite Hstart. cbn [snd].
    match goal with
    | |- context [handle_all env ?ms ?s] =>
        destruct (handle_all_notices env ms (stages ++ stages)) with (st := s)
          as (w2 & ->)
    end.
    + apply Forall2_app; apply pass_notices.
    + vm_compute. reflexivity.
    + split; vm_compute; reflexivity.
  - auto using handle_message_grows, start_grows, start_iteration_grows,
      check_system_progress_grows, run_grows.
Qed.

Lemma two_passes_complete_witness :
  system_state (attributes finished) = SystemState.COMPLETE
  /\ current_iteration (attributes finished) = 2.
Proof.
  refine (proj1 (two_passes_complete quiet_env (configured_world example_url)
                   (<["website_url" := example_url]> ∅) example_url
                   (fun _ => noon) (fun _ => PInt 3)
                   (fun _ => noon) (fun _ => PInt 3) _ _ _));
    reflexivity.
Defined.


(** *** [set_url] *)

(** C5, as amended: when the iteration budget is not used up, or the
    state is not one in which [set_url] starts an iteration, handling the
    same [set_url] request twice leaves [current_iteration] where the
    first handling left it; and a request that meets an iteration in
    progress changes neither the counter nor the state and queues no
    crawl request.  In the states complete and initializing a request
    with a true URL that meets a configuration dictionary increments
    [current_iteration] by one, whatever the budget, and leaves the state
    crawling while the budget lasts and complete otherwise.  A request
    with a true URL that meets a configuration that is no dictionary
    raises a [TypeError] and changes neither the counter nor the state. *)
Theorem set_url_twice env st m url :
  is_set_url m url ->
  let f := attributes st in
  let out := handle_message env m st in
  let f1 := attributes out.2 in
  (current_iteration f < max_iterations f
   \/ idle_state (system_state f) = false ->
   set_url_idempotent env st m)
  /\ (system_state f = SystemState.COMPLETE
      \/ system_state f = SystemState.INITIALIZING ->
      truthy url = true ->
      forall c, config f = PDict c ->
        current_iteration f1 = current_iteration f + 1
        /\ (current_iteration f < max_iterations f ->
            system_state f1 = SystemState.CRAWLING)
        /\ (max_iterations f <= current_iteration f ->
            system_state f1 = SystemState.COMPLETE)
        /\ config f1 = PDict (<["website_url" := url]> c)
        /\ target_url f1 = url)
  /\ (truthy url = true ->
      (forall c, config f <> PDict c) ->
      (exists e, out.1 = inl e /\ exn_cls e = TypeError)
      /\ current_iteration f1 = current_iteration f
      /\ system_state f1 = system_state f
      /\ config f1 = config f
      /\ target_url f1 = url).
Proof.
  intros Hm f out f1. split; [|split].
  - intros Hcase. unfold set_url_idempotent.
    destruct (handle_set_url_run env m url st Hm) as (r1 & w1 & -> & Hq1).
    cbn [snd].
    destruct (handle_set_url_run env m url
                (moved st (after_set_url url (ext (self st))) w1) Hm)
      as (r2 & w2 & -> & _).
    cbn [snd]. unfold attributes. cbn [moved self ext with_ext world]. split.
    + destruct Hcase as [Hlt | Hidle].
      * now apply after_set_url_twice.
      * destruct (after_set_url_in_progress url (ext (self st)) Hidle)
          as [Hs Hc].
        apply after_set_url_in_progress. now rewrite Hs.
    + intros Hp. apply in_progress_not_idle in Hp.
      destruct (after_set_url_in_progress url (ext (self st)) Hp) as [Hs Hc].
      auto.
  - intros Hidle Ht c Hc.
    assert (Hf1 : f1 = started (with_config (PDict (<["website_url" := url]> c))
                                  (with_target_url url f))).
    { subst f1 out f. unfold attributes in *.
      destruct (handle_set_url_run env m url st Hm) as (r1 & w1 & -> & _).
      cbn [snd moved self ext with_ext].
      unfold after_set_url. rewrite Ht, Hc.
      now destruct Hidle as [-> | ->]. }
    clearbody f1. subst f1. rewrite current_iteration_started.
    split; [reflexivity|]. unfold started.
    cbn [current_iteration max_iterations with_agent_results
         with_current_iteration with_config with_target_url].
    repeat split.
    + intros Hlt. destruct (_ <? _) eqn:E; [apply Z.ltb_lt in E; lia|].
      reflexivity.
    + intros Hge. destruct (_ <? _) eqn:E; [reflexivity|].
      apply Z.ltb_ge in E. lia.
    + now destruct (_ <? _).
    + now destruct (_ <? _).
  - intros Ht Hc. split; [exact (handle_set_url_raises env m url st Hm Ht Hc)|].
    assert (Hf1 : f1 = with_target_url url f).
    { subst f1 out f. unfold attributes in *.
      destruct (handle_set_url_run env m url st Hm) as (r1 & w1 & -> & _).
      cbn [snd moved self ext with_ext].
      unfold after_set_url. rewrite Ht.
      destruct (config (ext (self st))) as [| | | | | |c] eqn:Hcf;
        try reflexivity.
      now destruct (Hc c). }
    rewrite Hf1. repeat split.
Qed.

Lemma set_url_twice_witness :
  let m := set_url_request noon CRAWLER example_url in
  set_url_idempotent quiet_env
    (start quiet_env (fresh 3 (configured_world example_url))).2 m
  /\ current_iteration (attributes finished) = 2
  /\ current_iteration (attributes (handle_message quiet_env m finished).2) = 3.
Proof.
  intros m.
  assert (Hm : is_set_url m example_url).
  { split; [reflexivity|]. eexists. repeat split; reflexivity. }
  assert (Hci : current_iteration (attributes finished) = 2)
    by (vm_compute; reflexivity).
  assert (Hs : system_state (attributes finished) = SystemState.COMPLETE)
    by (vm_compute; reflexivity).
  assert (Hc : config (attributes finished)
               = PDict (<["website_url" := example_url]> ∅))
    by (vm_compute; reflexivity).
  split; [|split; [exact Hci|]].
  - destruct (set_url_twice quiet_env
                (start quiet_env (fresh 3 (configured_world example_url))).2
                m example_url Hm) as [H _].
    apply H. left. vm_compute. reflexivity.
  - destruct (set_url_twice quiet_env finished m example_url Hm)
      as (_ & H & _).
    destruct (H (or_introl Hs) eq_refl _ Hc) as [Hnext _].
    rewrite Hci in Hnext. exact Hnext.
Defined.

(** C5, as stated, fails: once the budget is used up and the state is
    complete, every [set_url] request increments [current_iteration]. *)
Lemma set_url_increments_when_complete :
  ~ set_url_idempotent quiet_env finished
      (set_url_request noon CRAWLER example_url).
Proof. intros [H _]. vm_compute in H. discriminate H. Qed.

End OrchestratorFacts.


Lemma rbind_ok {A B} (c : result A) (k : A -> result B) b :
  rbind c k = ok b -> exists a, c = ok a /\ k a = ok b.
Proof. destruct c as [e|a]; [discriminate | intros H; now exists a]. Qed.

(** [H : c = ok x] with [c] a closed computation: evaluate and substitute. *)
Ltac read_ok H := cbn in H; unfold ok in H; injection H as <-.

(** ** Sandbox *)

Section SandboxFacts.
Import ForeverVMSandbox Examples.

(** C8: once the machine exists, [execute_code] returns the same failure
    mapping however the subprocess ended: reading [result.output] of the
    mapping the machine returns raises, and the handler reports that.  A
    timed-out execution is therefore indistinguishable from any other. *)
Theorem execute_code_hides_timeout spawn self code timeout :
  execute_code spawn (enter self) code timeout
  = ok (failure "'dict' object has no attribute 'output'")
  /\ execute_code hanging (enter self) code timeout
     = execute_code spawn (enter self) code timeout
  /\ dom (failure "'dict' object has no attribute 'output'")
     = ({["success"; "output"; "return_value"; "error"]} : gset string)
  /\ getitem (ForeverVMMachine.run (hanging code timeout)) "state"
     = ok (PStr "timeout").
Proof.
  unfold execute_code, enter, hanging. cbn [machine].
  destruct (spawn code timeout); repeat split; vm_compute; reflexivity.
Qed.
End SandboxFacts.

(** ** Feedback *)

Section FeedbackFacts.
Import FeedbackAgent Scoring Examples.


Lemma length_chars s : length (chars s) = String.length s.
Proof.
  unfold chars. rewrite length_fmap.
  induction s as [|c s IH]; [reflexivity | cbn; now rewrite IH].
Qed.

Lemma iter_len v l n :
  iter v = ok l -> len v = ok n -> Z.of_nat (length l) = n.
Proof.
  destruct v; cbn; try discriminate; intros [= <-] [= <-].
  - now rewrite length_chars.
  - reflexivity.
  - now rewrite length_fmap, length_map_to_list.
Qed.

Lemma is_False_spec v : is_False v = true <-> v = PBool false.
Proof.
  split; [|now intros ->].
  destruct v as [|[|]| | | | |]; cbn; congruence.
Qed.

Lemma truthy_not_False v : truthy v = true -> is_False v = false.
Proof. now destruct v as [|[|]| | | | |]. Qed.

(** The assessment is the text of the band of the score. *)
Lemma assess_band f s :
  score f = PInt s -> assess f = ok (set_assessment (band s) f).
Proof.
  intros Hs. unfold assess, band, ge_int. rewrite Hs.
  cbn [as_number compare_int rbind ok].
  destruct (Z.compare_spec s 2), (Z.compare_spec s 1),
    (Z.leb_spec 2 s), (Z.leb_spec 1 s); cbn; try reflexivity; lia.
Qed.

Lemma tests_passed_recorded d passed :
  tests_passed (PDict d) = ok passed -> passed = recorded_tests d.
Proof.
  unfold tests_passed, recorded_tests. cbn [get rbind ok].
  destruct (d !! "test_results") as [[| | | | | |results]|];
    cbn; try discriminate; unfold ok; now intros [= <-].
Qed.

(** C7: when the evaluation succeeds, the implementation result is a
    dictionary with an entry [files], and the score is that of the rubric:
    one point for three or more files, one point when the entry
    [tests_passed] of the entry [test_results] is true, and the point for
    the recommendations, every one of which counts as followed.  The
    assessment is the text of the band of the score and is not empty;
    passed tests are listed as a strength and tests recorded as [False] as
    a weakness.  The band is chosen by [assess], which for every integer
    score gives the first text from 2 on, the second for 1, and the third
    below 1. *)
Theorem feedback_bands path implementation analysis fb :
  feedback_of path implementation analysis = ok fb ->
  (exists d files n,
     implementation = PDict d
     /\ d !! "files" = Some files
     /\ len files = ok n
     /\ let s := rubric n (recorded_tests d) in
        score fb = PInt s
        /\ overall_assessment fb = band s
        /\ overall_assessment fb <> ""
        /\ (In "Implementation passes all tests" (strengths fb)
            <-> truthy (recorded_tests d) = true)
        /\ (In "Implementation fails some tests" (weaknesses fb)
            <-> recorded_tests d = PBool false)
        /\ exists scored, assess scored = ok fb /\ score scored = PInt s)
  /\ (forall scored s,
        score scored = PInt s ->
        exists text,
          assess scored = ok (set_assessment text scored)
          /\ (2 <= s ->
              text = "Good implementation that meets most requirements")
          /\ (1 <= s < 2 ->
              text = "Acceptable implementation with room for improvement")
          /\ (s < 1 ->
              text = "Implementation needs significant improvement")).
Proof.
  intros H. split.
  2:{ intros scored s Hs. exists (band s).
      split; [now apply assess_band|]. unfold band.
      repeat split; intros Hb;
        destruct (2 <=? s) eqn:H2; destruct (1 <=? s) eqn:H1;
        try reflexivity;
        rewrite ?Z.leb_le, ?Z.leb_gt in H1, H2; lia. }
  unfold feedback_of in H.
  apply rbind_ok in H as (files & Hfiles & H).
  apply rbind_ok in H as (n & Hn & H).
  apply rbind_ok in H as (fb1 & H1 & H).
  apply rbind_ok in H as (passed & Hp & H).
  apply rbind_ok in H as (fb2 & H2 & H).
  apply rbind_ok in H as (recs & Hrecs & H).
  apply rbind_ok in H as (visited & Hi & H).
  apply rbind_ok in H as (recs' & Hrecs' & H).
  apply rbind_ok in H as (total & Hl & H).
  apply rbind_ok in H as (fb3 & H3 & H).
  rewrite Hrecs in Hrecs'. injection Hrecs' as <-.
  rewrite (iter_len _ _ _ Hi Hl), Z.eqb_refl in H3.
  rewrite Hp in H2. cbn [rbind ok] in H2.
  destruct implementation as [| | | | | |d]; try discriminate Hfiles.
  assert (Hf : d !! "files" = Some files).
  { cbn in Hfiles. destruct (d !! "files"); [|discriminate Hfiles].
    unfold ok in Hfiles. now injection Hfiles as ->. }
  apply tests_passed_recorded in Hp. subst passed.
  exists d, files, n. do 3 (split; [assumption || reflexivity|]).
  match type of H with
  | assess ?f = _ => set (scored := f) in H
  end.
  pose proof H as Hscored.
  unfold rubric.
  destruct (3 <=? n); read_ok H1;
    destruct (truthy (recorded_tests d)) eqn:Htests;
    [ pose proof (truthy_not_False _ Htests) as Hfalse
    | destruct (is_False (recorded_tests d)) eqn:Hfalse
    | pose proof (truthy_not_False _ Htests) as Hfalse
    | destruct (is_False (recorded_tests d)) eqn:Hfalse ];
    rewrite ?Hfalse in H2; read_ok H2; read_ok H3;
    vm_compute in H; injection H as <-; cbn;
    rewrite <- is_False_spec, Hfalse;
    repeat match goal with |- _ /\ _ => split end;
    try reflexivity; try discriminate;
    try (exists scored; split; [exact Hscored | reflexivity]);
    split; intuition discriminate.
Qed.

(** The feedback that [feedback_of] computes is what
    [evaluate_implementation] saves as its result. *)
Lemma evaluate_implementation_saves env (st : Agent.State unit)
    p1 p2 p3 implementation analysis crawl_result fb :
  Agent.agent_type (Agent.self st) = FEEDBACK ->
  fs (Agent.world st) !! p1 = Some (Json implementation) ->
  fs (Agent.world st) !! p2 = Some (Json analysis) ->
  fs (Agent.world st) !! p3 = Some (Json crawl_result) ->
  feedback_of p1 implementation analysis = ok fb ->
  writable env (clock (Agent.world st)) = true ->
  fs (Agent.world (evaluate_implementation env p1 p2 p3 st).2)
    !! Agent.result_file env FEEDBACK = Some (Json (to_pyval fb)).
Proof.
  intros Ht H1 H2 H3 Hfb Hw. unfold evaluate_implementation.
  destruct st as [[t rn s x] [files q c]]. cbn in Ht, H1, H2, H3, Hw. subst t.
  unfold Agent.load_json, Agent.save_result, Agent.send_message,
    Agent.new_message.
  cbv [try_except bind gets ok lift ret Agent.world fs Agent.self
       Agent.agent_type].
  rewrite H1, H2, H3, Hfb.
  cbv [Agent.write_json Agent.on_world modify Agent.now Agent.put Agent.write
       Agent.tick ok ret bind gets Agent.world fs Agent.self Agent.agent_type
       clock queue].
  cbn. rewrite Hw. apply lookup_insert_eq.
Qed.

Lemma feedback_bands_witness :
  (exists fb,
     feedback_of "result.json" (implementation_result (PBool true))
       analysis_result = ok fb
     /\ score fb = PInt 3
     /\ overall_assessment fb
        = "Good implementation that meets most requirements"
     /\ In "Implementation passes all tests" (strengths fb))
  /\ (exists fb,
        feedback_of "result.json" (implementation_result (PBool false))
          analysis_result = ok fb
        /\ score fb = PInt 2
        /\ In "Implementation fails some tests" (weaknesses fb)).
Proof.
  split.
  - assert (Hfb : exists fb,
               feedback_of "result.json" (implementation_result (PBool true))
                 analysis_result = ok fb) by (eexists; reflexivity).
    destruct Hfb as [fb Hfb]. exists fb. split; [exact Hfb|].
    destruct (feedback_bands _ _ _ _ Hfb) as [(d & files & n & Hd & Hf & Hn & H) _].
    unfold implementation_result in Hd. injection Hd as <-.
    rewrite lookup_insert_eq in Hf. injection Hf as <-.
    unfold ok in Hn. cbn in Hn. injection Hn as <-.
    destruct H as (Hs & Hband & _ & Hpass & _).
    split; [exact Hs|]. split; [exact Hband|]. apply Hpass. reflexivity.
  - assert (Hfb : exists fb,
               feedback_of "result.json" (implementation_result (PBool false))
                 analysis_result = ok fb) by (eexists; reflexivity).
    destruct Hfb as [fb Hfb]. exists fb. split; [exact Hfb|].
    destruct (feedback_bands _ _ _ _ Hfb) as [(d & files & n & Hd & Hf & Hn & H) _].
    unfold implementation_result in Hd. injection Hd as <-.
    rewrite lookup_insert_eq in Hf. injection Hf as <-.
    unfold ok in Hn. cbn in Hn. injection Hn as <-.
    destruct H as (Hs & _ & _ & _ & Hfail & _).
    split; [exact Hs|]. apply Hfail. reflexivity.
Defined.
End FeedbackFacts.

(** ** Analysis *)

Section AnalysisFacts.
Import AnalysisAgent Scoring Examples.

Lemma get_dict d k v : get (PDict d) k v = ok (default v (d !! k)).
Proof. unfold get. now destruct (d !! k). Qed.

Lemma sum_gen_count flag pages : forall acc v,
  sum_gen (fun page =>
             let? x := get page flag (PBool false) in
             ok (if truthy x then Some (PInt 1) else None))
          (PInt acc) pages = ok v ->
  v = PInt (acc + flag_count flag pages).
Proof.
  unfold flag_count.
  induction pages as [|page rest IH]; intros acc v H.
  - cbn in H. unfold ok in H. injection H as <-. cbn. f_equal. lia.
  - cbn [sum_gen] in H.
    destruct page as [| | | | | |d]; try discriminate H.
    rewrite get_dict in H. cbn [rbind ok] in H.
    cbn [List.filter flagged].
    destruct (truthy (default (PBool false) (d !! flag))).
    + cbn [add as_number rbind ok] in H. apply IH in H. subst v.
      cbn [length]. f_equal. lia.
    + apply IH in H. exact H.
Qed.

Lemma count_flag_count flag pages v :
  count_flag (PList pages) flag = ok v -> v = PInt (flag_count flag pages).
Proof.
  unfold count_flag. cbn [iter rbind ok]. intros H.
  apply sum_gen_count in H. exact H.
Qed.

Lemma flag_count_bounds flag pages :
  0 <= flag_count flag pages <= Z.of_nat (length pages).
Proof.
  unfold flag_count. pose proof (filter_length_le (flagged flag) pages). lia.
Qed.

Lemma float_of_int_100 : float_of_int 100 = ok hundred.
Proof. vm_compute. reflexivity. Qed.

Lemma percentage_is count pages v :
  pages <> [] ->
  percentage (PInt count) (PList pages) = ok v ->
  is_percentage count (Z.of_nat (length pages)) v.
Proof.
  intros Hne. unfold percentage. destruct pages as [|p rest]; [congruence|].
  cbn [truthy len rbind ok]. unfold truediv. cbn [as_number].
  intros H. apply rbind_ok in H as (qv & Hq & H).
  apply rbind_ok in Hq as (q & Hq & Hqv).
  unfold ok in Hqv. injection Hqv as <-.
  unfold mul in H. cbn [as_number to_float rbind ok] in H.
  rewrite float_of_int_100 in H. cbn [rbind ok] in H.
  unfold ok in H. injection H as <-.
  exists q. split; [exact Hq | reflexivity].
Qed.

Lemma percentage_of_three count v :
  0 <= count <= 3 -> is_percentage count 3 v -> In v (PFloat <$> thirds).
Proof.
  intros Hc (q & Hq & ->).
  assert (count = 0 \/ count = 1 \/ count = 2 \/ count = 3) as Hk by lia.
  destruct Hk as [-> | [-> | [-> | ->]]];
    vm_compute in Hq; injection Hq as <-; vm_compute; tauto.
Qed.

Lemma recommend_lookup cond text (m m' : gmap string pyval) k :
  recommend cond text m = ok m' -> k <> "recommendations" -> m' !! k = m !! k.
Proof.
  unfold recommend. destruct cond.
  - intros H Hk. apply rbind_ok in H as (rs & _ & H).
    destruct rs; try discriminate H.
    unfold ok in H. injection H as <-. now rewrite lookup_insert_ne.
  - unfold ok. now intros [= <-].
Qed.

(** The page structure computed from the pages is the one the analysis
    carries. *)
Lemma analysis_page_structure cr a :
  analysis_of cr = ok a ->
  exists pages ps,
    getitem cr "pages" = ok pages
    /\ page_structure_of pages = ok ps
    /\ a !! "page_structure" = Some (PDict ps).
Proof.
  unfold analysis_of. intros H.
  apply rbind_ok in H as (base_url & _ & H).
  apply rbind_ok in H as (pages & Hpages & H).
  apply rbind_ok in H as (n & _ & H).
  apply rbind_ok in H as (ps & Hps & H).
  apply rbind_ok in H as (assets & _ & H).
  apply rbind_ok in H as (a0 & H0 & H).
  apply rbind_ok in H as (ps1 & _ & H).
  apply rbind_ok in H as (hp & _ & H).
  apply rbind_ok in H as (c1 & _ & H).
  apply rbind_ok in H as (a1 & H1 & H).
  apply rbind_ok in H as (ps2 & _ & H).
  apply rbind_ok in H as (fp & _ & H).
  apply rbind_ok in H as (c2 & _ & H).
  apply rbind_ok in H as (a2 & H2 & H).
  apply rbind_ok in H as (c3 & _ & H).
  exists pages, ps. repeat (split; [assumption|]).
  rewrite (recommend_lookup _ _ _ _ _ H) by discriminate.
  rewrite (recommend_lookup _ _ _ _ _ H2) by discriminate.
  rewrite (recommend_lookup _ _ _ _ _ H1) by discriminate.
  destruct (truthy assets).
  - apply rbind_ok in H0 as (aa & _ & H0). unfold ok in H0. injection H0 as <-.
    rewrite lookup_insert_ne by discriminate. now rewrite lookup_insert_eq.
  - unfold ok in H0. injection H0 as <-. now rewrite lookup_insert_eq.
Qed.

Lemma page_structure_percentages pages ps :
  pages <> [] ->
  page_structure_of (PList pages) = ok ps ->
  forall flag key, In (flag, key) flag_keys ->
    exists v, ps !! key = Some v
              /\ is_percentage (flag_count flag pages)
                               (Z.of_nat (length pages)) v.
Proof.
  intros Hne H. unfold page_structure_of in H.
  apply rbind_ok in H as (hh & Hhh & H).
  apply rbind_ok in H as (hf & Hhf & H).
  apply rbind_ok in H as (hn & Hhn & H).
  apply rbind_ok in H as (hp & Hhp & H).
  apply rbind_ok in H as (fp & Hfp & H).
  apply rbind_ok in H as (np & Hnp & H).
  apply rbind_ok in H as (avg & _ & H).
  unfold ok in H. injection H as <-.
  apply count_flag_count in Hhh, Hhf, Hhn. subst hh hf hn.
  apply percentage_is in Hhp, Hfp, Hnp; try assumption.
  intros flag key Hin. cbn in Hin.
  destruct Hin as [[= <- <-] | [[= <- <-] | [[= <- <-] | []]]];
    eexists; (split; [|eassumption]); now simplify_map_eq.
Qed.

(** The analysis that [analysis_of] computes is what
    [analyze_crawl_result] saves as its result. *)
Lemma analyze_crawl_result_saves env (st : Agent.State unit) path cr a :
  Agent.agent_type (Agent.self st) = ANALYSIS ->
  fs (Agent.world st) !! path = Some (Json cr) ->
  analysis_of cr = ok a ->
  writable env (clock (Agent.world st)) = true ->
  fs (Agent.world (analyze_crawl_result env path st).2)
    !! Agent.result_file env ANALYSIS = Some (Json (PDict a)).
Proof.
  intros Ht Hf Ha Hw. unfold analyze_crawl_result.
  destruct st as [[t rn s x] [files q c]]. cbn in Ht, Hf, Hw. subst t.
  unfold Agent.load_json, Agent.save_result, Agent.send_message,
    Agent.new_message.
  cbv [try_except bind gets ok lift ret Agent.world fs Agent.self
       Agent.agent_type].
  rewrite Hf, Ha.
  assert (Hp : exists pages n,
             getitem cr "pages" = inr pages /\ len pages = inr n).
  { unfold analysis_of in Ha.
    apply rbind_ok in Ha as (base_url & _ & Ha).
    apply rbind_ok in Ha as (pages & Hpages & Ha).
    apply rbind_ok in Ha as (n & Hn & _). eauto. }
  destruct Hp as (pages & n & -> & ->).
  cbv [Agent.write_json Agent.on_world modify Agent.now Agent.put Agent.write
       Agent.tick ok ret bind gets Agent.world fs Agent.self Agent.agent_type
       clock queue].
  cbn. rewrite Hw. apply lookup_insert_eq.
Qed.

(** When [analysis_of] raises, the result file is left as it was, an error
    notice goes to the orchestrator and the agent's status becomes
    error. *)
Lemma analyze_crawl_result_fails env (st : Agent.State unit) path cr e :
  Agent.agent_type (Agent.self st) = ANALYSIS ->
  fs (Agent.world st) !! path = Some (Json cr) ->
  analysis_of cr = inl e ->
  let st' := (analyze_crawl_result env path st).2 in
  fs (Agent.world st') !! Agent.result_file env ANALYSIS
  = fs (Agent.world st) !! Agent.result_file env ANALYSIS
  /\ Agent.status (Agent.self st') = "error"
  /\ exists notice,
       queue (Agent.world st') = (queue (Agent.world st) ++ [notice])%list
       /\ Message.message_type notice = ERROR
       /\ Message.destination_agent notice = ORCHESTRATOR.
Proof.
  intros Ht Hf Ha. unfold analyze_crawl_result.
  destruct st as [[t rn s x] [files q c]]. cbn in Ht, Hf. subst t.
  unfold Agent.load_json, Agent.send_message, Agent.new_message,
    Agent.update_status.
  cbv [try_except bind gets ok lift ret Agent.world fs Agent.self
       Agent.agent_type].
  rewrite Hf, Ha.
  cbv [Agent.write_json Agent.on_world Agent.on_self modify Agent.now Agent.put
       Agent.write Agent.tick ok ret bind gets Agent.world fs Agent.self
       Agent.agent_type Agent.status Agent.with_status clock queue].
  destruct (negb (String.eqb (exn_str e) "")); cbn;
    (split; [|split; [reflexivity | eexists; repeat split; reflexivity]]);
    destruct (writable env _); try reflexivity;
    apply lookup_insert_ne; unfold Agent.status_file, Agent.result_file,
      path_join; intros H; apply append_inv_head in H; discriminate H.
Qed.

(** Without assets the recommendation step looks up a key that was never
    written, and no analysis is produced. *)
Lemma analysis_without_assets :
  analysis_of (crawl three_pages [])
  = throw KeyError "'avg_js_per_page'".
Proof. reflexivity. Qed.

(** An analysis is only produced from a crawl result with assets. *)
Lemma analysis_of_assets cr a :
  analysis_of cr = ok a ->
  exists assets, getitem cr "assets" = ok assets /\ truthy assets = true.
Proof.
  unfold analysis_of. intros H.
  apply rbind_ok in H as (base_url & _ & H).
  apply rbind_ok in H as (pages & Hpages & H).
  apply rbind_ok in H as (n & _ & H).
  apply rbind_ok in H as (ps & Hps & H).
  apply rbind_ok in H as (assets & Hassets & H).
  apply rbind_ok in H as (a0 & H0 & H).
  apply rbind_ok in H as (ps1 & _ & H).
  apply rbind_ok in H as (hp & _ & H).
  apply rbind_ok in H as (c1 & _ & H).
  apply rbind_ok in H as (a1 & H1 & H).
  apply rbind_ok in H as (ps2 & _ & H).
  apply rbind_ok in H as (fp & _ & H).
  apply rbind_ok in H as (c2 & _ & H).
  apply rbind_ok in H as (a2 & H2 & H).
  apply rbind_ok in H as (c3 & H3 & H).
  exists assets. split; [exact Hassets|].
  destruct (truthy assets) eqn:Ht; [reflexivity|exfalso].
  unfold ok in H0. injection H0 as <-.
  assert (Ha2 : a2 !! "asset_analysis" = Some (PDict ∅)).
  { rewrite (recommend_lookup _ _ _ _ _ H2) by discriminate.
    rewrite (recommend_lookup _ _ _ _ _ H1) by discriminate.
    rewrite lookup_insert_ne by discriminate.
    rewrite lookup_insert_ne by discriminate.
    rewrite lookup_insert_ne by discriminate.
    rewrite lookup_insert_ne by discriminate.
    rewrite lookup_insert_ne by discriminate.
    now rewrite lookup_insert_eq. }
  rewrite Ha2 in H3. cbn in H3. rewrite Ha2 in H3. cbn in H3. discriminate H3.
Qed.

Lemma recommend_list cond text (m : gmap string pyval) l :
  m !! "recommendations" = Some (PList l) ->
  recommend cond text m
  = ok (if cond
        then <["recommendations" := PList (l ++ [PStr text])]> m
        else m).
Proof.
  intros Hl. unfold recommend. destruct cond; [|reflexivity].
  cbn. rewrite Hl. reflexivity.
Qed.

(** Looks a literal key up in a mapping built by insertions. *)
Ltac look :=
  repeat first [ rewrite lookup_insert_eq
               | rewrite lookup_insert_ne by discriminate ];
  try reflexivity.

Lemma gt_int_percentage count total v k :
  is_percentage count total v -> exists b, gt_int v k = ok b.
Proof. intros (q & _ & ->). unfold gt_int. cbn. eauto. Qed.

(** With the page structure computed and no assets, the recommendation
    step fails on the average number of scripts. *)
Lemma analysis_of_no_assets cr base_url pages ps assets :
  getitem cr "base_url" = ok base_url ->
  getitem cr "pages" = ok (PList pages) ->
  pages <> [] ->
  page_structure_of (PList pages) = ok ps ->
  getitem cr "assets" = ok assets ->
  truthy assets = false ->
  analysis_of cr = throw KeyError "'avg_js_per_page'".
Proof.
  intros Hbase Hpages Hne Hps Hassets Ht.
  pose proof (page_structure_percentages pages ps Hne Hps) as Hall.
  destruct (Hall "has_header" "header_percentage") as (hp & Hhp & Hhpv);
    [cbn; auto|].
  destruct (Hall "has_footer" "footer_percentage") as (fp & Hfp & Hfpv);
    [cbn; auto|].
  destruct (gt_int_percentage _ _ _ 90 Hhpv) as [c1 Hc1].
  destruct (gt_int_percentage _ _ _ 90 Hfpv) as [c2 Hc2].
  unfold analysis_of. rewrite Hbase, Hpages. cbn [rbind ok len].
  rewrite Hps. cbn [rbind ok]. rewrite Hassets. cbn [rbind ok].
  rewrite Ht. cbn [rbind ok getitem].
  rewrite lookup_insert_eq. cbn [rbind ok getitem]. rewrite Hhp.
  cbn [rbind ok]. rewrite Hc1. cbn [rbind ok].
  rewrite (recommend_list _ _ _ []) by look.
  cbn [rbind ok].
  match goal with
  | |- context [if c1 then ?x else ?y] => set (a1 := if c1 then x else y)
  end.
  assert (H1 : a1 !! "page_structure" = Some (PDict ps))
    by (subst a1; destruct c1; look).
  assert (H1r : exists l, a1 !! "recommendations" = Some (PList l))
    by (subst a1; destruct c1; eexists; look).
  assert (H1a : a1 !! "asset_analysis" = Some (PDict ∅))
    by (subst a1; destruct c1; look).
  clearbody a1. rewrite H1. cbn [rbind ok getitem]. rewrite Hfp.
  cbn [rbind ok]. rewrite Hc2. cbn [rbind ok].
  destruct H1r as [l Hl]. rewrite (recommend_list _ _ _ l Hl).
  cbn [rbind ok].
  match goal with
  | |- context [if c2 then ?x else ?y] => set (a2 := if c2 then x else y)
  end.
  assert (H2a : a2 !! "asset_analysis" = Some (PDict ∅))
    by (subst a2; destruct c2; look; exact H1a).
  clearbody a2. rewrite H2a. reflexivity.
Qed.

(** C6: for a crawl result whose pages list is not empty, the page
    structure computed has, for each of the three flags, the number of
    pages whose flag is set, divided by the number of pages, times 100, in
    float arithmetic, and for three pages one of the four percentages of
    three; an analysis that is produced carries this page structure.  But
    an analysis is produced only when the crawl result has assets: with
    an empty list of assets, as in the end-to-end scenario of three pages
    and no assets, the recommendation step raises a [KeyError], no
    analysis is saved, and the agent's status becomes error. *)
Theorem analysis_percentages cr pages assets :
  getitem cr "pages" = ok (PList pages) ->
  pages <> [] ->
  getitem cr "assets" = ok assets ->
  (forall ps, page_structure_of (PList pages) = ok ps ->
              exact_percentages pages ps)
  /\ (forall a, analysis_of cr = ok a ->
        truthy assets = true
        /\ exists ps, a !! "page_structure" = Some (PDict ps)
                      /\ exact_percentages pages ps)
  /\ (truthy assets = false ->
      (exists e, analysis_of cr = inl e)
      /\ (forall base_url ps,
            getitem cr "base_url" = ok base_url ->
            page_structure_of (PList pages) = ok ps ->
            analysis_of cr = throw KeyError "'avg_js_per_page'")
      /\ (forall env path (st : Agent.State unit),
            Agent.agent_type (Agent.self st) = ANALYSIS ->
            fs (Agent.world st) !! path = Some (Json cr) ->
            let st' := (analyze_crawl_result env path st).2 in
            fs (Agent.world st') !! Agent.result_file env ANALYSIS
            = fs (Agent.world st) !! Agent.result_file env ANALYSIS
            /\ Agent.status (Agent.self st') = "error")).
Proof.
  intros Hpages Hne Hassets.
  assert (Hexact : forall ps, page_structure_of (PList pages) = ok ps ->
                              exact_percentages pages ps).
  { intros ps Hps flag key Hin.
    destruct (page_structure_percentages pages ps Hne Hps flag key Hin)
      as (v & Hv & Hpct).
    exists v. repeat split; try assumption.
    intros H3. apply (percentage_of_three (flag_count flag pages)).
    - pose proof (flag_count_bounds flag pages). lia.
    - now rewrite H3 in Hpct. }
  assert (Hneeds : forall a, analysis_of cr = ok a -> truthy assets = true).
  { intros a Ha. apply analysis_of_assets in Ha as (assets' & Ha' & Ht).
    rewrite Hassets in Ha'. unfold ok in Ha'. now injection Ha' as <-. }
  split; [exact Hexact|]. split.
  - intros a Ha. split; [now apply (Hneeds a)|].
    destruct (analysis_page_structure cr a Ha) as (pages' & ps & Hp' & Hps & Hl).
    rewrite Hpages in Hp'. unfold ok in Hp'. injection Hp' as <-.
    exists ps. split; [exact Hl | now apply Hexact].
  - intros Ht.
    assert (Hfails : exists e, analysis_of cr = inl e).
    { destruct (analysis_of cr) as [e|a]; [eauto|].
      specialize (Hneeds a eq_refl). congruence. }
    split; [exact Hfails|]. split.
    + intros base_url ps Hbase Hps.
      now apply (analysis_of_no_assets cr base_url pages ps assets).
    + intros env path st Hty Hfile st'. destruct Hfails as [e He].
      destruct (analyze_crawl_result_fails env st path cr e Hty Hfile He)
        as (Hkeep & Hstatus & _).
      split; assumption.
Qed.

Lemma analysis_percentages_witness :
  (exists ps,
     page_structure_of (PList three_pages) = ok ps
     /\ ps !! "header_percentage" = Some (PFloat 0x1.0aaaaaaaaaaaap+6%float)
     /\ ps !! "footer_percentage" = Some (PFloat 0x1.0aaaaaaaaaaaap+6%float)
     /\ ps !! "nav_percentage" = Some (PFloat 0%float))
  /\ analysis_of (crawl three_pages []) = throw KeyError "'avg_js_per_page'"
  /\ (let st' := (analyze_crawl_result quiet_env "crawl.json"
                    scenario_analysis).2 in
      fs (Agent.world st') !! Agent.result_file quiet_env ANALYSIS = None
      /\ Agent.status (Agent.self st') = "error").
Proof.
  destruct (analysis_percentages (crawl three_pages []) three_pages (PList [])
              eq_refl ltac:(discriminate) eq_refl) as (Hexact & _ & Hbug).
  destruct (Hbug eq_refl) as (_ & Hkey & Hmethod).
  assert (Hps : exists ps, page_structure_of (PList three_pages) = ok ps)
    by (eexists; reflexivity).
  destruct Hps as [ps Hps]. split; [|split].
  - exists ps. split; [exact Hps|].
    pose proof (Hexact ps Hps) as Hall.
    split; [|split].
    + destruct (Hall "has_header" "header_percentage")
        as (v & -> & (q & Hq & ->) & _); [cbn; auto|].
      vm_compute in Hq. injection Hq as <-. reflexivity.
    + destruct (Hall "has_footer" "footer_percentage")
        as (v & -> & (q & Hq & ->) & _); [cbn; auto|].
      vm_compute in Hq. injection Hq as <-. reflexivity.
    + destruct (Hall "has_nav" "nav_percentage")
        as (v & -> & (q & Hq & ->) & _); [cbn; auto|].
      vm_compute in Hq. injection Hq as <-. reflexivity.
  - exact (Hkey example_url ps eq_refl Hps).
  - destruct (Hmethod quiet_env "crawl.json" scenario_analysis eq_refl eq_refl)
      as [Hkeep Hstatus].
    split; [rewrite Hkeep; reflexivity | exact Hstatus].
Defined.

(** *** No division by zero *)

Lemma nzd_ok {A} (a : A) : no_zero_division (ok a).
Proof. intros e H. discriminate H. Qed.

Lemma nzd_throw {A} c msg :
  c <> ZeroDivisionError -> no_zero_division (@throw A c msg).
Proof. intros Hc e H. unfold throw in H. injection H as <-. exact Hc. Qed.

Lemma nzd_bind {A B} (c : result A) (k : A -> result B) :
  no_zero_division c ->
  (forall a, c = ok a -> no_zero_division (k a)) ->
  no_zero_division (rbind c k).
Proof.
  intros Hc Hk. destruct c as [e|a]; cbn [rbind].
  - intros e' [= <-]. now apply Hc.
  - now apply Hk.
Qed.

Create HintDb nzd.
Hint Resolve nzd_ok : nzd.
Hint Extern 1 (no_zero_division (throw _ _)) =>
  apply nzd_throw; discriminate : nzd.
Hint Extern 1 (no_zero_division (unsupported _ _ _)) =>
  apply nzd_throw; discriminate : nzd.

Lemma nzd_getitem v k : no_zero_division (getitem v k).
Proof. destruct v; cbn; try destruct (_ !! _); auto with nzd. Qed.

Lemma nzd_get v k d : no_zero_division (get v k d).
Proof. destruct v; cbn; auto with nzd. Qed.

Lemma nzd_iter v : no_zero_division (iter v).
Proof. destruct v; cbn; auto with nzd. Qed.

Lemma nzd_len v : no_zero_division (len v).
Proof. destruct v; cbn; auto with nzd. Qed.

Lemma nzd_getattr v name : no_zero_division (getattr v name).
Proof. unfold getattr. auto with nzd. Qed.

Lemma nzd_float_of_int z : no_zero_division (float_of_int z).
Proof. unfold float_of_int. destruct (is_infinite _); auto with nzd. Qed.

Lemma nzd_to_float n : no_zero_division (to_float n).
Proof. destruct n; cbn; auto using nzd_float_of_int with nzd. Qed.

Hint Resolve nzd_getitem nzd_get nzd_iter nzd_len nzd_getattr
  nzd_float_of_int nzd_to_float : nzd.

Lemma nzd_add a b : no_zero_division (add a b).
Proof.
  unfold add. destruct (as_number a) as [[x|x]|], (as_number b) as [[y|y]|];
    auto with nzd;
    (apply nzd_bind; [auto with nzd | intros ? _]);
    (apply nzd_bind; [auto with nzd | intros ? _]); auto with nzd.
Qed.

Lemma nzd_gt_int v k : no_zero_division (gt_int v k).
Proof. unfold gt_int, not_ordered. destruct (as_number v); auto with nzd. Qed.

Hint Resolve nzd_add nzd_gt_int : nzd.

Lemma nzd_sum_gen f xs :
  (forall x, no_zero_division (f x)) ->
  forall acc, no_zero_division (sum_gen f acc xs).
Proof.
  intros Hf. induction xs as [|x rest IH]; intros acc; cbn [sum_gen].
  - auto with nzd.
  - apply nzd_bind; [apply Hf | intros [v|] _; [|apply IH]].
    apply nzd_bind; [auto with nzd | intros acc' _; apply IH].
Qed.

Lemma nzd_sum_key xs key : no_zero_division (sum_key xs key).
Proof.
  unfold sum_key. apply nzd_bind; [auto with nzd | intros l _].
  apply nzd_sum_gen. intros x.
  apply nzd_bind; [auto with nzd | intros v _; auto with nzd].
Qed.

Lemma nzd_int_truediv x n : n <> 0 -> no_zero_division (int_truediv x n).
Proof.
  intros Hn. unfold int_truediv. apply Z.eqb_neq in Hn. rewrite Hn.
  destruct (is_infinite _); auto with nzd.
Qed.

Lemma nzd_truediv a n : n <> 0 -> no_zero_division (truediv a (PInt n)).
Proof.
  intros Hn. unfold truediv. cbn [as_number].
  destruct (as_number a) as [[x|x]|]; auto with nzd.
  - apply nzd_bind; [now apply nzd_int_truediv | auto with nzd].
  - apply nzd_bind; [auto with nzd | intros fx _].
    apply nzd_bind; [auto with nzd | intros fy _].
    cbn [is_zero]. apply Z.eqb_neq in Hn. rewrite Hn. auto with nzd.
Qed.

Lemma nzd_average total xs :
  truthy xs = true -> no_zero_division (average total xs).
Proof.
  intros Ht. unfold average.
  apply nzd_bind; [auto with nzd | intros n Hn].
  apply nzd_truediv.
  destruct xs as [| | | |s|l|d]; cbn in Hn; try discriminate Hn;
    unfold ok in Hn; injection Hn as <-; cbn in Ht.
  - destruct s; [discriminate | cbn; lia].
  - destruct l; [discriminate | cbn; lia].
  - destruct (size d); [discriminate | lia].
Qed.

Lemma nzd_asset_analysis assets :
  truthy assets = true -> no_zero_division (asset_analysis_of assets).
Proof.
  intros Ht. unfold asset_analysis_of.
  do 3 (apply nzd_bind; [apply nzd_sum_key | intros ? _]).
  do 3 (apply nzd_bind; [now apply nzd_average | intros ? _]).
  auto with nzd.
Qed.

Lemma nzd_recommend cond text m : no_zero_division (recommend cond text m).
Proof.
  unfold recommend. destruct cond; [|auto with nzd].
  apply nzd_bind; [auto with nzd | intros rs _].
  destruct rs; auto with nzd;
    (apply nzd_bind; [auto with nzd | intros ? _; auto with nzd]).
Qed.

Lemma page_structure_empty : page_structure_of (PList []) = ok zero_structure.
Proof. reflexivity. Qed.

(** C9: for a crawl result whose pages list is empty, the page structure
    is computed without a division, its four entries are the integer 0,
    an analysis that is produced carries them, and whatever the analysis
    may raise, it is not a division by zero. *)
Theorem empty_pages_no_division cr :
  getitem cr "pages" = ok (PList []) ->
  page_structure_of (PList []) = ok zero_structure
  /\ (forall key, In key ["header_percentage"; "footer_percentage";
                          "nav_percentage"; "avg_sections_per_page"] ->
                  zero_structure !! key = Some (PInt 0))
  /\ (forall a, analysis_of cr = ok a ->
                a !! "page_structure" = Some (PDict zero_structure))
  /\ no_zero_division (analysis_of cr).
Proof.
  intros Hpages. split; [exact page_structure_empty|]. split; [|split].
  - intros key Hin. cbn in Hin.
    destruct Hin as [<- | [<- | [<- | [<- | []]]]]; reflexivity.
  - intros a Ha.
    destruct (analysis_page_structure cr a Ha) as (pages & ps & Hp & Hps & Hl).
    rewrite Hpages in Hp. unfold ok in Hp. injection Hp as <-.
    rewrite page_structure_empty in Hps. unfold ok in Hps.
    injection Hps as <-. exact Hl.
  - unfold analysis_of.
    apply nzd_bind; [auto with nzd | intros base_url _].
    rewrite Hpages. cbn [rbind ok len].
    rewrite page_structure_empty. cbn [rbind ok].
    apply nzd_bind; [auto with nzd | intros assets _].
    apply nzd_bind.
    { destruct (truthy assets) eqn:Ht; [|auto with nzd].
      apply nzd_bind; [now apply nzd_asset_analysis | auto with nzd]. }
    intros a0 _.
    do 3 (apply nzd_bind; [auto with nzd | intros ? _]).
    apply nzd_bind; [apply nzd_recommend | intros ? _].
    do 3 (apply nzd_bind; [auto with nzd | intros ? _]).
    apply nzd_bind; [apply nzd_recommend | intros ? _].
    apply nzd_bind; [| intros ? _; apply nzd_recommend].
    destruct (_ !! "asset_analysis"); [|auto with nzd].
    do 2 (apply nzd_bind; [auto with nzd | intros ? _]).
    auto with nzd.
Qed.

Lemma empty_pages_no_division_witness :
  exists a,
    analysis_of (crawl [] three_assets) = ok a
    /\ a !! "page_structure" = Some (PDict zero_structure)
    /\ no_zero_division (analysis_of (crawl [] [])).
Proof.
  eexists. split; [reflexivity|].
  split.
  - destruct (empty_pages_no_division (crawl [] three_assets) eq_refl)
      as (_ & _ & H & _).
    apply H. reflexivity.
  - destruct (empty_pages_no_division (crawl [] []) eq_refl) as (_ & _ & _ & H).
    exact H.
Defined.
End AnalysisFacts.


(** * Further properties of the modelled code *)

(** ** Message *)

Section MessageDecoding.
Import Message.

Lemma AgentType_of_inv v a :
AgentType_of v = ok a -> v = PStr (AgentType_value a).
Proof.
unfold AgentType_of. destruct v as [| | | |s| |]; cbn; try discriminate.
repeat match goal with
       | |- context [String.eqb ?x ?y] =>
           destruct (String.eqb_spec x y);
           [subst; intros [= <-]; reflexivity|]
       end.
discriminate.
Qed.

Lemma MessageType_of_inv v t :
MessageType_of v = ok t -> v = PStr (MessageType_value t).
Proof.
unfold MessageType_of. destruct v as [| | | |s| |]; cbn; try discriminate.
repeat match goal with
       | |- context [String.eqb ?x ?y] =>
           destruct (String.eqb_spec x y);
           [subst; intros [= <-]; reflexivity|]
       end.
discriminate.
Qed.

Lemma getitem_ok v k x :
getitem v k = ok x -> exists d, v = PDict d /\ d !! k = Some x.
Proof.
destruct v as [| | | | | |d]; try discriminate. cbn.
destruct (d !! k) as [y|] eqn:H; [|discriminate].
intros [= <-]. eauto.
Qed.

Lemma getitem_dict (d : gmap string pyval) k x :
d !! k = Some x -> getitem (PDict d) k = ok x.
Proof. intros H. cbn. now rewrite H. Qed.

Lemma from_dict_inv amb data m :
from_dict amb data = ok m ->
exists d src dst mt payload mid ts prio md,
  data = PDict d
  /\ d !! "source_agent" = Some (PStr (AgentType_value src))
  /\ d !! "destination_agent" = Some (PStr (AgentType_value dst))
  /\ d !! "message_type" = Some (PStr (MessageType_value mt))
  /\ d !! "payload" = Some payload
  /\ d !! "message_id" = Some mid
  /\ d !! "timestamp" = Some ts
  /\ d !! "priority" = Some prio
  /\ d !! "metadata" = Some md
  /\ m = init amb src dst mt payload mid ts prio md.
Proof.
unfold from_dict. intros H.
apply rbind_ok in H as (sv & H1 & H).
apply rbind_ok in H as (src & H2 & H).
apply rbind_ok in H as (dv & H3 & H).
apply rbind_ok in H as (dst & H4 & H).
apply rbind_ok in H as (tv & H5 & H).
apply rbind_ok in H as (mt & H6 & H).
apply rbind_ok in H as (payload & H7 & H).
apply rbind_ok in H as (mid & H8 & H).
apply rbind_ok in H as (ts & H9 & H).
apply rbind_ok in H as (prio & H10 & H).
apply rbind_ok in H as (md & H11 & H).
apply AgentType_of_inv in H2, H4. apply MessageType_of_inv in H6. subst.
apply getitem_ok in H1 as (d & -> & H1).
apply getitem_ok in H3 as (? & [= <-] & H3).
apply getitem_ok in H5 as (? & [= <-] & H5).
apply getitem_ok in H7 as (? & [= <-] & H7).
apply getitem_ok in H8 as (? & [= <-] & H8).
apply getitem_ok in H9 as (? & [= <-] & H9).
apply getitem_ok in H10 as (? & [= <-] & H10).
apply getitem_ok in H11 as (? & [= <-] & H11).
unfold ok in H. injection H as <-.
exists d, src, dst, mt, payload, mid, ts, prio, md. auto 12.
Qed.

Lemma from_dict_entries amb (d : gmap string pyval)
  src dst mt payload mid ts prio md :
d !! "source_agent" = Some (PStr (AgentType_value src)) ->
d !! "destination_agent" = Some (PStr (AgentType_value dst)) ->
d !! "message_type" = Some (PStr (MessageType_value mt)) ->
d !! "payload" = Some payload ->
d !! "message_id" = Some mid ->
d !! "timestamp" = Some ts ->
d !! "priority" = Some prio ->
d !! "metadata" = Some md ->
from_dict amb (PDict d) = ok (init amb src dst mt payload mid ts prio md).
Proof.
intros H1 H2 H3 H4 H5 H6 H7 H8. unfold from_dict.
rewrite (getitem_dict _ _ _ H1), (getitem_dict _ _ _ H2),
  (getitem_dict _ _ _ H3), (getitem_dict _ _ _ H4), (getitem_dict _ _ _ H5),
  (getitem_dict _ _ _ H6), (getitem_dict _ _ _ H7), (getitem_dict _ _ _ H8).
cbn [rbind ok]. rewrite !AgentType_of_value. cbn [rbind ok].
rewrite MessageType_of_value. reflexivity.
Qed.

(** X1: [Message.from_dict] returns exactly on the dictionaries that hold
  all eight keys with the value of an agent type under both agent keys and
  the value of a message type under [message_type]; what it returns is
  the message its constructor builds from the eight entries.  On any
  other argument it raises. *)
Theorem from_dict_succeeds amb data m :
from_dict amb data = ok m <->
exists d src dst mt payload mid ts prio md,
  data = PDict d
  /\ d !! "source_agent" = Some (PStr (AgentType_value src))
  /\ d !! "destination_agent" = Some (PStr (AgentType_value dst))
  /\ d !! "message_type" = Some (PStr (MessageType_value mt))
  /\ d !! "payload" = Some payload
  /\ d !! "message_id" = Some mid
  /\ d !! "timestamp" = Some ts
  /\ d !! "priority" = Some prio
  /\ d !! "metadata" = Some md
  /\ m = init amb src dst mt payload mid ts prio md.
Proof.
split; [apply from_dict_inv|].
intros (d & src & dst & mt & payload & mid & ts & prio & md & -> & H1 & H2
        & H3 & H4 & H5 & H6 & H7 & H8 & ->).
now apply from_dict_entries.
Qed.

Lemma from_dict_succeeds_witness :
from_dict Examples.noon
  (PDict (to_dict (init Examples.noon CRAWLER ORCHESTRATOR ERROR
                     (PDict ∅) PNone PNone (PInt 5) PNone)))
= ok (init Examples.noon CRAWLER ORCHESTRATOR ERROR (PDict ∅)
        (PStr "1700000000-140000000000000") (PStr "2024-05-17T09:30:00")
        (PInt 5) (PDict ∅)).
Proof.
apply from_dict_succeeds.
eexists _, CRAWLER, ORCHESTRATOR, ERROR, _, _, _, _, _.
repeat split; reflexivity.
Defined.

(** X2: decoding and encoding again gives the dictionary back, provided
  it has no key beyond the eight and holds a true id, a true timestamp and
  a metadata entry that is true or the empty dictionary.  (A false id or
  timestamp is replaced by a generated one, any other false metadata by
  the empty dictionary, and further keys are dropped.) *)
Theorem to_dict_from_dict amb (d : gmap string pyval) m :
from_dict amb (PDict d) = ok m ->
dom d ⊆ Message_keys ->
truthy (default PNone (d !! "message_id")) = true ->
truthy (default PNone (d !! "timestamp")) = true ->
truthy (default PNone (d !! "metadata")) = true
\/ d !! "metadata" = Some (PDict ∅) ->
to_dict m = d.
Proof.
intros H Hdom Hid Hts Hmd.
apply from_dict_inv in H
  as (d' & src & dst & mt & pl & mid & ts & prio & md & [= <-] & H1 & H2
      & H3 & H4 & H5 & H6 & H7 & H8 & ->).
rewrite H5 in Hid. rewrite H6 in Hts. rewrite H8 in Hmd. cbn in Hid, Hts, Hmd.
unfold to_dict, init. cbn [message_id source_agent destination_agent
  message_type timestamp priority payload metadata].
rewrite (or_else_keep mid) by exact Hid.
rewrite (or_else_keep ts) by exact Hts.
assert (Hm : or_else md (PDict ∅) = md).
{ destruct Hmd as [Hmd | [= ->]]; [now apply or_else_keep | reflexivity]. }
rewrite Hm. apply map_eq. intros k.
destruct (decide (k = "message_id")) as [->|]; [now simplify_map_eq|].
destruct (decide (k = "source_agent")) as [->|]; [now simplify_map_eq|].
destruct (decide (k = "destination_agent")) as [->|]; [now simplify_map_eq|].
destruct (decide (k = "message_type")) as [->|]; [now simplify_map_eq|].
destruct (decide (k = "timestamp")) as [->|]; [now simplify_map_eq|].
destruct (decide (k = "priority")) as [->|]; [now simplify_map_eq|].
destruct (decide (k = "payload")) as [->|]; [now simplify_map_eq|].
destruct (decide (k = "metadata")) as [->|]; [now simplify_map_eq|].
simplify_map_eq. symmetry. apply not_elem_of_dom.
intros Hk. apply Hdom in Hk. unfold Message_keys in Hk.
rewrite !elem_of_union, !elem_of_singleton in Hk. intuition congruence.
Qed.

Lemma to_dict_from_dict_witness :
let d := to_dict (init Examples.noon CRAWLER ORCHESTRATOR ERROR
                    (PDict ∅) (PStr "7") (PStr "now") (PInt 5) PNone) in
to_dict (init Examples.noon CRAWLER ORCHESTRATOR ERROR
           (PDict ∅) (PStr "7") (PStr "now") (PInt 5) (PDict ∅)) = d.
Proof.
intros d.
apply (to_dict_from_dict Examples.noon d).
- vm_compute. reflexivity.
- apply (bool_decide_unpack (dom d ⊆ Message_keys)). vm_compute. exact I.
- reflexivity.
- reflexivity.
- right. reflexivity.
Defined.

End MessageDecoding.

(** ** Agent *)

Section AgentRuns.
Import Agent Examples Scenarios.

(** X3: saving a configuration and loading it again gives it back when
  the file can be written; when it cannot, the failure is swallowed and
  loading gives what it gave before the save.  Loading changes nothing. *)
Theorem load_config_after_save env E (st : State E) config :
let st' := (save_config env config st).2 in
load_config env st'
= (if writable env (clock (world st)) then ok config
   else (load_config env st).1,
   st').
Proof.
destruct st as [a [files q c]].
unfold save_config, write_json, write, load_config, load_json.
cbv [bind gets try_except ok ret raise on_world modify snd fst
     world fs clock queue].
destruct (writable env c).
- rewrite !lookup_insert_eq. reflexivity.
- destruct (files !! CONFIG_PATH env) as [[v|]|] eqn:H; rewrite ?H;
    reflexivity.
Qed.

Lemma requeued_permutation n : forall q, requeued n q ≡ₚ q.
Proof.
induction n as [|n IH]; intros [|m rest]; cbn [requeued]; try reflexivity.
rewrite IH. symmetry. apply Permutation_cons_append.
Qed.

Lemma while_running_requeues env E (cls : Methods) left (st : State E) :
running (self st) = true ->
queue (world st) <> [] ->
Forall (fun m => Message.destination_agent m <> agent_type (self st))
       (queue (world st)) ->
while_running env cls left st
= (ok None,
   {| self := self st;
      world := {| fs := fs (world st);
                  queue := requeued left (queue (world st));
                  clock := clock (world st) |} |}).
Proof.
revert st.
induction left as [|n IH]; intros [a [files q c]] Hr Hq Hall;
  cbn [self world queue fs clock] in *; cbn [while_running];
  cbv [bind gets ok ret]; cbn [self world]; rewrite Hr.
- now destruct q.
- destruct q as [|m rest]; [congruence|].
  unfold loop_body. cbv [bind gets ok on_world modify put].
  cbn [self world queue fs clock].
  apply Forall_cons in Hall as [Hm Hrest].
  destruct (decide _) as [Heq|_]; [contradiction|].
  cbn [requeued self world queue fs clock].
  rewrite (IH {| self := a;
                 world := {| fs := files; queue := rest ++ [m]; clock := c |} |});
    cbn [self world queue fs clock]; auto.
  + now destruct rest.
  + apply Forall_app. split; [exact Hrest | now constructor].
Qed.

(** X4: while the queue holds only messages addressed to other agents,
  the loop of [run] takes the first one and puts it back at the end, and
  nothing else: it never reaches [do_work] or a sleep, so no other task
  runs, no file changes, and after any number of iterations the agent is
  still in the loop with the same messages in the queue. *)
Theorem while_running_spins env E (cls : Methods) left (st : State E) :
running (self st) = true ->
queue (world st) <> [] ->
Forall (fun m => Message.destination_agent m <> agent_type (self st))
       (queue (world st)) ->
while_running env cls left st
= (ok None,
   {| self := self st;
      world := {| fs := fs (world st);
                  queue := requeued left (queue (world st));
                  clock := clock (world st) |} |})
/\ requeued left (queue (world st)) ≡ₚ queue (world st).
Proof.
intros Hr Hq Hall.
split; [now apply while_running_requeues | apply requeued_permutation].
Qed.

Lemma while_running_spins_witness :
while_running quiet_env (base_methods quiet_env) 7 waiting_analysis
= (ok None, waiting_analysis).
Proof.
refine (proj1 (while_running_spins quiet_env unit (base_methods quiet_env) 7
                 waiting_analysis _ _ _)).
- reflexivity.
- discriminate.
- repeat constructor. discriminate.
Defined.

Lemma stop_run env E (st : State E) :
exists w, stop env st
          = (ok tt, {| self := with_status "idle" (with_running false (self st));
                       world := w |}).
Proof.
destruct st as [[a rn s x] w]. unfold stop, update_status.
cbv [bind gets modify ok on_world on_self now write_json ret].
eexists. reflexivity.
Qed.

Lemma run_guarded_returns env E (cls : Methods) left (st : State E) :
exists o st1, run_guarded env cls left st = (ok o, st1).
Proof.
unfold run_guarded, try_except.
destruct ((m_start cls;; while_running env cls left) st) as [[e|o] st1].
- cbv [bind on_self modify ok].
  match goal with
  | |- context [update_status env ?err ?s] =>
      destruct (update_status_self env E s err) as (s' & w & ->)
  end.
  cbv [ret ok]. eauto.
- eauto.
Qed.

(** X5: an exception of class [Exception] raised by [start], by a
  handler or by [do_work] does not get out of [run]: the [except] clause
  catches it.  The exceptions met here are all of that class; a
  cancellation delivered at one of the awaits is a [BaseException], which
  the clause does not catch, and is not covered.  When [run] returns, the
  agent is not running and its status is idle, whether the loop ended
  because the agent was stopped or because a method raised. *)
Theorem run_ends_idle env E (cls : Methods) left (st st' : State E) r :
run env cls left st = (r, st') ->
r <> ok None ->
r = ok (Some tt) /\ running (self st') = false /\ status (self st') = "idle".
Proof.
unfold run, try_finally. intros H Hr.
destruct (run_guarded_returns env E cls left st) as (o & st1 & Hg).
rewrite Hg in H. unfold ok in H, Hr |- *.
destruct o as [[]|]; [|injection H as <- <-; congruence].
destruct (stop_run env E st1) as (w & Hs). rewrite Hs in H.
unfold ok in H. injection H as <- <-. auto.
Qed.

Lemma run_ends_idle_witness :
let final := run quiet_env failing_methods 5 idle_analysis in
final.1 = ok (Some tt)
/\ running (self final.2) = false /\ status (self final.2) = "idle".
Proof.
intros final.
apply (run_ends_idle quiet_env unit failing_methods 5 idle_analysis).
- apply surjective_pairing.
- vm_compute. discriminate.
Defined.

Lemma sleep_stops env E (st : State E) :
stop_requested env (clock (world st)) = true ->
exists st', sleep env st = (ok tt, st') /\ running (self st') = false.
Proof.
destruct st as [[a rn s x] [files q c]]. cbn [world clock]. intros H.
unfold sleep. cbv [bind gets modify ok on_world when ret world clock self].
rewrite H. unfold stop, update_status.
cbv [bind gets modify ok on_world on_self now write_json ret].
eexists; split; reflexivity.
Qed.

Lemma sleep_stopped env E (st : State E) :
running (self st) = false ->
exists st', sleep env st = (ok tt, st') /\ running (self st') = false.
Proof.
destruct st as [[a rn s x] [files q c]]. cbn [self running]. intros ->.
unfold sleep. cbv [bind gets modify ok on_world when ret world clock self].
destruct (stop_requested env c); [|eexists; split; reflexivity].
unfold stop, update_status.
cbv [bind gets modify ok on_world on_self now write_json ret].
eexists; split; reflexivity.
Qed.

Lemma start_run env E (st : State E) :
exists w,
  start env st
  = (ok tt, {| self := with_status "running" (with_running true (self st));
               world := w |})
  /\ queue w = queue (world st)
  /\ clock w = S (S (clock (world st))).
Proof.
destruct st as [[a rn s x] [files q c]]. unfold start, update_status.
cbv [bind gets modify ok on_world on_self now write_json ret].
eexists; repeat split; reflexivity.
Qed.

(** X6: an agent of the base class that finds the queue empty and is
  asked to stop during its first sleep leaves the loop at the next test
  of [running]: [run] returns after one iteration, with the agent stopped
  and idle. *)
Theorem run_stops_when_asked env E (st : State E) left :
queue (world st) = [] ->
stop_requested env (clock (world (start env st).2)) = true ->
exists st',
  run env (base_methods env) (S left) st = (ok (Some tt), st')
  /\ running (self st') = false /\ status (self st') = "idle".
Proof.
intros Hq Hstop.
destruct (start_run env E st) as (w1 & Hstart & Hq1 & Hc1).
rewrite Hstart in Hstop. cbn [snd world] in Hstop.
set (st1 := {| self := with_status "running" (with_running true (self st));
               world := w1 |}) in *.
destruct (sleep_stops env E st1 Hstop) as (st2 & Hs1 & Hr2).
destruct (sleep_stopped env E st2 Hr2) as (st3 & Hs2 & Hr3).
assert (Hbody : (m_start (base_methods env);;
                 while_running env (base_methods env) (S left)) st
                = (ok (Some tt), st3)).
{ cbv [bind]. cbn [m_start base_methods]. rewrite Hstart.
  cbn [while_running]. cbv [bind gets ok].
  change (running (self st1)) with true. cbv beta iota.
  unfold loop_body. cbv [bind gets ok].
  change (queue (world st1)) with (queue w1). rewrite Hq1, Hq.
  cbn [m_do_work base_methods]. unfold do_work.
  rewrite Hs1. cbv [ok]. rewrite Hs2. cbv [ok].
  destruct left; cbn [while_running]; cbv [bind gets ok ret];
    rewrite Hr3; reflexivity. }
assert (Hg : run_guarded env (base_methods env) (S left) st
             = (ok (Some tt), st3)).
{ unfold run_guarded, try_except. rewrite Hbody. reflexivity. }
destruct (stop_run env E st3) as (w4 & Hs).
eexists. unfold run, try_finally. rewrite Hg. cbv [ok]. rewrite Hs.
cbv [ok]. split; [reflexivity|]. split; reflexivity.
Qed.

Lemma run_stops_when_asked_witness :
exists st',
  run stopping_env (base_methods stopping_env) 1 idle_analysis
  = (ok (Some tt), st')
  /\ running (self st') = false /\ status (self st') = "idle".
Proof.
apply (run_stops_when_asked stopping_env unit idle_analysis 0); reflexivity.
Defined.

End AgentRuns.

(** ** Orchestrator *)

Section OrchestratorFrame.
Import Agent OrchestratorAgent Orchestration Frame Examples Scenarios.

Lemma framed_refl f : framed f f.
Proof. unfold framed. auto. Qed.

Lemma framed_trans f1 f2 f3 : framed f1 f2 -> framed f2 f3 -> framed f1 f3.
Proof.
intros (H1 & H2 & H3) (H4 & H5 & H6). unfold framed.
split; [congruence|]. split; auto.
Qed.

Lemma framed_status k s f :
framed f (with_agents_status (<[k := s]> (agents_status f)) f).
Proof.
unfold framed. cbn. split; [reflexivity|]. split; [auto|].
intros k' H. destruct (decide (k = k')) as [->|Hne].
- rewrite lookup_insert_eq. eauto.
- now rewrite lookup_insert_ne.
Qed.

Lemma is_Some_insert (m : gmap string string) k k' s :
is_Some (m !! k') -> is_Some (<[k := s]> m !! k').
Proof.
intros H. destruct (decide (k = k')) as [->|Hne].
- rewrite lookup_insert_eq. eauto.
- now rewrite lookup_insert_ne.
Qed.

Ltac framed_now :=
unfold framed; cbn;
repeat split; eauto using is_Some_insert.

Lemma framed_started f : framed f (started f).
Proof. unfold started. cbn. destruct (_ <? _); framed_now. Qed.

Lemma framed_advanced f : framed f (advanced f).
Proof.
unfold advanced. destruct (stage_done f); [|apply framed_refl].
destruct (system_state f); try apply framed_refl; try solve [framed_now].
destruct (_ <? _); [apply framed_started | framed_now].
Qed.

Lemma framed_checked f : framed f (checked f).
Proof.
unfold checked.
destruct (any_error _);
  [destruct (_ !! _) as [c|]; [destruct (String.eqb c _)|]|];
  auto using framed_advanced, framed_refl.
framed_now.
Qed.

Lemma check_result_ok f :
is_Some (agents_status f !! AgentType_value CRAWLER) -> check_result f = ok tt.
Proof.
intros [s H]. unfold check_result. rewrite H. now destruct (any_error _).
Qed.

Section Frames.
Context (env : Env).

Ltac steps :=
cbv [bind ret gets modify lift raise when ok throw
     on_fields on_self on_world fields now write_json put
     new_message send_message reply set_agent_status
     set_state update_system_state
     self world ext agent_type running status
     with_ext moved].

Ltac framed_any :=
first [ solve [framed_now]
      | solve [eapply framed_trans; [|apply framed_started]; framed_now]
      | solve [eapply framed_trans; [|apply framed_checked]; framed_now] ].

Ltac answers_now :=
unfold answers; intros reply Hreply; unfold ok in Hreply;
first [ discriminate Hreply
      | injection Hreply as <-; cbn; auto ].

Ltac returns_now :=
unfold returns; intros d' Hd' [[c' Hc'] Hk'];
first [ eexists; reflexivity | cbn in *; congruence ].

Ltac leaf :=
steps; do 3 eexists; split; [reflexivity|];
split; [framed_any | split; [answers_now | returns_now]].

Lemma handle_message_frame m st :
exists r w f',
  handle_message env m st = (r, moved st f' w)
  /\ framed (ext (self st)) f'
  /\ answers m st r
  /\ returns m st r.
Proof.
destruct (Message.message_type m) eqn:Hm.
- (* request *)
  unfold handle_message. rewrite Hm.
  destruct st as [[a rn s f] w].
  destruct (Message.payload m) eqn:Hp; try leaf.
  cbv [get lift bind ok].
  destruct (eq_str _ "set_url").
  { destruct (truthy _); [|leaf].
    cbv [setitem]. steps. cbn [config with_target_url].
    destruct (config f) eqn:Hc; try leaf.
    cbv [Agent.save_config]. steps.
    cbn [system_state with_config with_target_url].
    destruct (bool_decide _ || bool_decide _); [|leaf].
    match goal with
    | |- context [start_iteration env ?s] =>
        destruct (start_iteration_run env s) as (w' & ->)
    end.
    leaf. }
  destruct (eq_str _ "start").
  { steps. destruct (truthy (target_url f)); cbn [negb]; [|leaf].
    match goal with
    | |- context [start_iteration env ?s] =>
        destruct (start_iteration_run env s) as (w' & ->)
    end.
    leaf. }
  destruct (eq_str _ "stop"); leaf.
- (* response *)
  unfold handle_message. rewrite Hm. destruct st as [[a rn s f] w]. leaf.
- (* notification *)
  unfold handle_message. rewrite Hm.
  destruct st as [[a rn s f] w].
  destruct (Message.payload m) eqn:Hp; try leaf.
  cbv [get lift bind ok].
  destruct (eq_str _ "complete"); [|leaf].
  destruct (truthy _); steps;
    match goal with
    | |- context [check_system_progress env ?s] =>
        destruct (check_system_progress_run env s) as (w' & ->)
    end;
    cbn [self ext];
    (destruct (check_result _) as [e|[]] eqn:Hck;
     [ steps; do 3 eexists; split; [reflexivity|];
       split; [framed_any | split; [answers_now|]];
       unfold returns; intros d' Hd' [[c' Hc'] Hk'];
       rewrite check_result_ok in Hck
         by (cbn in *; eauto using is_Some_insert);
       discriminate Hck
     | leaf ]).
- (* error *)
  unfold handle_message. rewrite Hm.
  destruct st as [[a rn s f] w].
  destruct (Message.payload m) eqn:Hp; try leaf.
  cbv [get lift bind ok]. steps.
  match goal with
  | |- context [check_system_progress env ?s] =>
      destruct (check_system_progress_run env s) as (w' & ->)
  end;
  cbn [self ext];
  (destruct (check_result _) as [e|[]] eqn:Hck;
   [ steps; do 3 eexists; split; [reflexivity|];
     split; [framed_any | split; [answers_now|]];
     unfold returns; intros d' Hd' [[c' Hc'] Hk'];
     rewrite check_result_ok in Hck
       by (cbn in *; eauto using is_Some_insert);
     discriminate Hck
   | leaf ]).
Qed.

Lemma framed_well_formed f f' : framed f f' -> well_formed f -> well_formed f'.
Proof. intros (_ & Hc & Hk) [H1 H2]. split; auto. Qed.

(** X7: on a message whose payload is a dictionary, the orchestrator's
  handler raises nothing when its configuration is a dictionary and the
  crawler has a status entry, and it leaves both so: the [KeyError] of
  the progress check and the [TypeError] of the configuration update
  cannot occur in an orchestrator that started that way. *)
Theorem handle_message_returns m d st :
Message.payload m = PDict d ->
well_formed (attributes st) ->
exists reply st',
  handle_message env m st = (ok reply, st')
  /\ well_formed (attributes st').
Proof.
intros Hp Hwf.
destruct (handle_message_frame m st) as (r & w & f' & -> & Hf & _ & Hret).
destruct (Hret d Hp Hwf) as [x ->].
do 2 eexists. split; [reflexivity|].
unfold attributes. cbn. eapply framed_well_formed; eassumption.
Qed.

(** X8: a reply of the orchestrator is addressed to the sender of the
  message it answers, carries the orchestrator as its source and is a
  response or an error, never a request or a notification; and a
  response is never answered. *)
Theorem replies_go_to_sender m st :
(forall reply st',
   handle_message env m st = (ok (Some reply), st') ->
   Message.destination_agent reply = Message.source_agent m
   /\ Message.source_agent reply = agent_type (self st)
   /\ (Message.message_type reply = RESPONSE
       \/ Message.message_type reply = ERROR))
/\ (Message.message_type m = RESPONSE ->
    handle_message env m st = (ok None, st)).
Proof.
split.
- intros reply st' H.
  destruct (handle_message_frame m st) as (r & w & f' & Hrun & _ & Ha & _).
  rewrite Hrun in H. injection H as -> _. now apply Ha.
- intros Hm. unfold handle_message. rewrite Hm. reflexivity.
Qed.

(** *** The iteration budget *)

Lemma handle_message_budget m st :
max_iterations (attributes (handle_message env m st).2)
= max_iterations (attributes st).
Proof.
destruct (handle_message_frame m st) as (r & w & f' & -> & (H & _) & _).
exact H.
Qed.

Lemma start_budget st :
max_iterations (attributes (start env st).2) = max_iterations (attributes st).
Proof.
unfold start, Agent.start, update_status.
destruct st as [[a rn s f] w].
cbv [bind ret gets modify lift raise when ok throw
     on_fields on_self on_world fields now write_json
     self world ext agent_type running status with_running with_status].
match goal with
| |- context [load_config env ?s] =>
    destruct (load_config_pure env _ s) as (c & ->)
end.
destruct c as [| | | | | |d]; try reflexivity.
cbv [get ok]. steps.
destruct (truthy _); [|reflexivity].
match goal with
| |- context [start_iteration env ?s] =>
    destruct (start_iteration_run env s) as (w' & ->)
end.
unfold attributes. cbn.
match goal with
| |- max_iterations (started ?g) = _ =>
    rewrite (proj1 (framed_started g))
end.
reflexivity.
Qed.

Lemma loop_body_budget st :
max_iterations (attributes (loop_body env (methods env) st).2)
= max_iterations (attributes st).
Proof.
unfold loop_body. destruct st as [[a rn s f] [files q c]].
cbv [bind gets ok world queue]. destruct q as [|m rest].
- cbn [m_do_work methods]. unfold do_work.
  destruct (sleep_attributes env
              {| self := {| agent_type := a; running := rn; status := s; ext := f |};
                 world := {| fs := files; queue := []; clock := c |} |})
    as (st1 & -> & H1).
  destruct (sleep_attributes env st1) as (st2 & -> & H2).
  cbv [ok snd]. now rewrite H2, H1.
- cbv [on_world modify self world agent_type ok].
  destruct (decide _); [|reflexivity].
  cbn [m_handle_message methods].
  match goal with
  | |- context [handle_message env m ?s] =>
      pose proof (handle_message_budget m s) as H;
      destruct (handle_message env m s) as [[?|[reply|]] st']
  end; cbn in *; exact H.
Qed.

Lemma while_running_budget left :
forall st,
  max_iterations (attributes (while_running env (methods env) left st).2)
  = max_iterations (attributes st).
Proof.
induction left as [|n IH]; intros st; cbn [while_running];
  cbv [bind gets ok ret]; destruct (running (self st)); try reflexivity.
pose proof (loop_body_budget st) as H.
destruct (loop_body env (methods env) st) as [[e|[]] st']; [exact H|].
cbn [snd] in H. now rewrite IH.
Qed.

Lemma body_budget left st :
max_iterations
  (attributes ((m_start (methods env);;
                while_running env (methods env) left) st).2)
= max_iterations (attributes st).
Proof.
cbv [bind]. cbn [m_start methods].
pose proof (start_budget st) as Hs.
destruct (start env st) as [[e|[]] st1]; [exact Hs|].
cbn [snd] in Hs. now rewrite while_running_budget.
Qed.

Lemma run_guarded_budget left st :
max_iterations (attributes (run_guarded env (methods env) left st).2)
= max_iterations (attributes st).
Proof.
unfold run_guarded, try_except.
pose proof (body_budget left st) as H.
destruct ((m_start (methods env);;
           while_running env (methods env) left) st) as [[e|r] st1];
  cbn [snd] in H; [|exact H].
now rewrite handler_attributes.
Qed.

(** X9: no method of the orchestrator changes [max_iterations]: handling
  a message, starting, and a whole [run] leave the budget what it was, so
  it stays at the 3 that [__init__] sets. *)
Theorem max_iterations_constant :
max_iterations (ext init) = 3
/\ (forall m st,
      max_iterations (attributes (handle_message env m st).2)
      = max_iterations (attributes st))
/\ (forall st,
      max_iterations (attributes (start env st).2)
      = max_iterations (attributes st))
/\ (forall left st,
      max_iterations (attributes (run env (methods env) left st).2)
      = max_iterations (attributes st)).
Proof.
split; [reflexivity|].
split; [apply handle_message_budget|].
split; [apply start_budget|].
intros left st. unfold run, try_finally.
pose proof (run_guarded_budget left st) as Hg.
destruct (run_guarded env (methods env) left st) as [[e|[[]|]] st1];
  cbn [snd] in Hg; try exact Hg;
  destruct (stop_run env _ st1) as (w & ->); exact Hg.
Qed.
End Frames.

Lemma advanced_error_kept f :
system_state f = SystemState.ERROR -> advanced f = f.
Proof.
intros H. apply advanced_not_done. unfold stage_done. now rewrite H.
Qed.

Lemma checked_error_kept f :
system_state f = SystemState.ERROR ->
system_state (checked f) = SystemState.ERROR.
Proof.
intros H. unfold checked.
destruct (any_error _);
  [destruct (_ !! _) as [c|]; [destruct (String.eqb c _)|]|];
  rewrite ?advanced_error_kept; auto.
Qed.

(** X10: once the state is error, no notification, error notice, response
  or [set_url] request changes it: a [set_url] request starts an
  iteration only from the states complete and initializing, so after a
  failure only a [start] or [stop] request leaves the error state. *)
Theorem error_state_kept env st m :
system_state (attributes st) = SystemState.ERROR ->
Message.message_type m <> REQUEST \/ (exists url, is_set_url m url) ->
system_state (attributes (handle_message env m st).2) = SystemState.ERROR.
Proof.
intros Hs [Hm | [url Hu]].
- destruct (Message.message_type m) eqn:Ht; [congruence| | |].
  + unfold handle_message. rewrite Ht. exact Hs.
  + destruct (Message.payload m) as [| | | | | |d] eqn:Hp.
    1-6: (destruct (handle_other_notification env m st Ht) as (r & ->);
          [intros d' Hd'; congruence | exact Hs]).
    destruct (eq_str (default PNone (d !! "status")) "complete") eqn:Hc.
    * destruct (handle_completion_run env m d st Ht Hp Hc) as (r & w & -> & _).
      unfold attributes. cbn [snd moved self ext with_ext].
      unfold after_completion. apply checked_error_kept.
      unfold recorded. destruct (truthy _); exact Hs.
    * destruct (handle_other_notification env m st Ht) as (r & ->);
        [intros d' Hd'; congruence | exact Hs].
  + destruct (handle_error_run env m st Ht) as (r & w & ->).
    unfold attributes. cbn [snd moved self ext with_ext].
    unfold after_error. destruct (Message.payload m); try exact Hs.
    apply checked_error_kept. exact Hs.
- destruct (handle_set_url_run env m url st Hu) as (r & w & -> & _).
  unfold attributes. cbn [snd moved self ext with_ext].
  destruct (after_set_url_in_progress url (ext (self st))) as [-> _];
    [|exact Hs].
  unfold attributes in Hs. now rewrite Hs.
Qed.

Lemma error_state_kept_witness :
let failed :=
  (handle_message quiet_env (error_notice noon CRAWLER "boom")
     (start quiet_env (fresh 3 (configured_world example_url))).2).2 in
system_state
  (attributes
     (handle_message quiet_env (set_url_request noon FEEDBACK example_url)
        failed).2)
= SystemState.ERROR.
Proof.
intros failed. apply error_state_kept.
- vm_compute. reflexivity.
- right. exists example_url. split; [reflexivity|].
  eexists. repeat split; reflexivity.
Defined.

Lemma start_iteration_within env st :
current_iteration (attributes st) < max_iterations (attributes st) ->
let f := attributes st in
let st' := (start_iteration env st).2 in
system_state (attributes st') = SystemState.CRAWLING
/\ exists m,
     queue (world st') = (queue (world st) ++ [m])%list
     /\ Message.source_agent m = agent_type (self st)
     /\ Message.destination_agent m = CRAWLER
     /\ Message.message_type m = REQUEST
     /\ Message.payload m
        = PDict (<["action" := PStr "crawl"]>
                 (<["url" := target_url f]>
                 (<["iteration" := PInt (current_iteration f + 1)]> ∅))).
Proof.
destruct st as [[a rn s [cf ss ast ar ci mx tu]] [files q c]].
unfold attributes. cbn [self ext current_iteration max_iterations].
intros Hlt. unfold start_iteration.
cbv [bind ret gets modify lift raise when ok throw
     on_fields on_self on_world fields now write_json put
     new_message send_message set_state update_system_state
     self world ext agent_type running status with_ext].
cbv [with_current_iteration with_agent_results max_iterations current_iteration].
destruct (Z.ltb_spec mx (ci + 1)) as [H|H]; [lia|]. cbn.
split; [reflexivity|]. eexists. repeat split.
Qed.

Lemma start_iteration_beyond env st :
max_iterations (attributes st) <= current_iteration (attributes st) ->
let st' := (start_iteration env st).2 in
system_state (attributes st') = SystemState.COMPLETE
/\ queue (world st') = queue (world st).
Proof.
destruct st as [[a rn s [cf ss ast ar ci mx tu]] [files q c]].
unfold attributes. cbn [self ext current_iteration max_iterations].
intros Hle. unfold start_iteration.
cbv [bind ret gets modify lift raise when ok throw
     on_fields on_self on_world fields now write_json put
     new_message send_message set_state update_system_state
     self world ext agent_type running status with_ext].
cbv [with_current_iteration with_agent_results max_iterations current_iteration].
destruct (Z.ltb_spec mx (ci + 1)) as [H|H]; [|lia]. cbn. auto.
Qed.

(** X11: [start_iteration] always counts the iteration and forgets the
  recorded results.  Within the budget it moves to crawling and queues
  exactly one request, from the orchestrator to the crawler, asking to
  crawl the target URL and naming the new iteration; beyond the budget it
  moves to complete and queues nothing. *)
Theorem start_iteration_sends_one_request env st :
let f := attributes st in
let st' := (start_iteration env st).2 in
current_iteration (attributes st') = current_iteration f + 1
/\ agent_results (attributes st') = ∅
/\ if current_iteration f <? max_iterations f
   then system_state (attributes st') = SystemState.CRAWLING
        /\ exists m,
             queue (world st') = (queue (world st) ++ [m])%list
             /\ Message.source_agent m = agent_type (self st)
             /\ Message.destination_agent m = CRAWLER
             /\ Message.message_type m = REQUEST
             /\ Message.payload m
                = PDict (<["action" := PStr "crawl"]>
                         (<["url" := target_url f]>
                         (<["iteration" := PInt (current_iteration f + 1)]> ∅)))
   else system_state (attributes st') = SystemState.COMPLETE
        /\ queue (world st') = queue (world st).
Proof.
intros f st'. subst f st'.
split; [|split].
- destruct (start_iteration_run env st) as (w & ->).
  unfold attributes. cbn. apply current_iteration_started.
- destruct (start_iteration_run env st) as (w & ->).
  unfold attributes, started. cbn. now destruct (_ <? _).
- destruct (Z.ltb_spec (current_iteration (attributes st))
              (max_iterations (attributes st))) as [H|H].
  + now apply start_iteration_within.
  + now apply start_iteration_beyond.
Qed.

(** X12: a [start] request is refused with an error reply, and changes
  nothing, when no target URL is set.  With a target URL it starts an
  iteration whatever the state is, also in the middle of one and also
  when the budget is used up, and answers "started" with the new
  iteration number. *)
Theorem start_request env m d st :
Message.message_type m = REQUEST ->
Message.payload m = PDict d ->
d !! "action" = Some (PStr "start") ->
(truthy (target_url (attributes st)) = false ->
 exists reply,
   handle_message env m st
   = (ok (Some reply), {| self := self st; world := tick (world st) |})
   /\ Message.message_type reply = ERROR
   /\ Message.payload reply = PDict (<["error" := PStr "No target URL set"]> ∅))
/\ (truthy (target_url (attributes st)) = true ->
    exists reply w,
      handle_message env m st
      = (ok (Some reply), moved st (started (attributes st)) w)
      /\ Message.message_type reply = RESPONSE
      /\ Message.payload reply
         = PDict (<["iteration" := PInt (current_iteration (attributes st) + 1)]>
                  (<["status" := PStr "started"]> ∅))).
Proof.
intros Hm Hp Ha. unfold handle_message, attributes. rewrite Hm, Hp.
destruct st as [[a rn s f] w]. cbn [self ext].
cbv [get lift bind ok]. rewrite Ha.
change (eq_str (PStr "start") "set_url") with false.
change (eq_str (PStr "start") "start") with true. cbv iota.
split; intros Ht.
- cbv [bind ret gets modify lift raise when ok throw
       on_fields on_self on_world fields now write_json put
       new_message send_message reply
       self world ext agent_type running status with_ext].
  rewrite Ht. cbn [negb]. eexists. repeat split.
- cbv [fields bind gets ok self ext]. rewrite Ht. cbn [negb].
  match goal with
  | |- context [start_iteration env ?s] =>
      destruct (start_iteration_run env s) as (w' & ->)
  end.
  cbv [bind ret gets modify lift raise when ok throw
       on_fields on_self on_world fields now write_json put
       new_message send_message reply
       self world ext agent_type running status with_ext moved].
  do 2 eexists. split; [reflexivity|]. split; [reflexivity|].
  cbn. now rewrite current_iteration_started.
Qed.

Lemma start_request_witness :
let m := Message.init noon FEEDBACK ORCHESTRATOR REQUEST
           (PDict (<["action" := PStr "start"]> ∅)) PNone PNone (PInt 5) PNone in
exists reply w,
  handle_message quiet_env m finished
  = (ok (Some reply), moved finished (started (attributes finished)) w)
  /\ Message.message_type reply = RESPONSE
  /\ Message.payload reply
     = PDict (<["iteration" := PInt (current_iteration (attributes finished) + 1)]>
              (<["status" := PStr "started"]> ∅)).
Proof.
intros m.
apply (proj2 (start_request quiet_env m (<["action" := PStr "start"]> ∅)
                finished eq_refl eq_refl eq_refl)).
vm_compute. reflexivity.
Defined.

Lemma load_config_value env E (st : State E) :
load_config env st
= (ok match fs (world st) !! CONFIG_PATH env with
      | Some (Json c) => c
      | _ => PDict ∅
      end, st).
Proof.
unfold load_config, load_json. cbv [bind gets try_except ok ret raise].
destruct (fs (world st) !! CONFIG_PATH env) as [[v|]|] eqn:H;
  cbn; rewrite ?H; reflexivity.
Qed.

(** X13: started without a usable URL (no configuration file, an
  unreadable one, or a dictionary whose [website_url] is missing or
  false), the orchestrator is running and initializing, has started no
  iteration and has queued nothing.  When the file holds JSON that is not
  a dictionary, [start] raises an [AttributeError] instead. *)
Theorem start_without_url env st :
let st' := (start env st).2 in
(fs (world st) !! CONFIG_PATH env = None
 \/ fs (world st) !! CONFIG_PATH env = Some Unparsable
 \/ (exists c, fs (world st) !! CONFIG_PATH env = Some (Json (PDict c))
               /\ truthy (default PNone (c !! "website_url")) = false) ->
 (start env st).1 = ok tt
 /\ running (self st') = true
 /\ system_state (attributes st') = SystemState.INITIALIZING
 /\ current_iteration (attributes st') = current_iteration (attributes st)
 /\ queue (world st') = queue (world st))
/\ (forall v, fs (world st) !! CONFIG_PATH env = Some (Json v) ->
              (forall c, v <> PDict c) ->
              exists e, (start env st).1 = inl e
                        /\ exn_cls e = AttributeError
                        /\ system_state (attributes st')
                           = system_state (attributes st)).
Proof.
destruct st as [[a rn s f] [files q c]]. cbn [world fs].
unfold start, Agent.start, update_status, attributes.
cbv [bind ret gets modify lift raise when ok throw
     on_fields on_self on_world fields now write_json
     self world ext agent_type running status with_running with_status].
rewrite load_config_value. cbn [world].
rewrite fs_write_other by apply status_file_not_config.
unfold tick. cbn [fs]. cbv [ok].
split.
- intros H.
  assert (Hc : exists d, match files !! CONFIG_PATH env with
                         | Some (Json c0) => c0
                         | _ => PDict ∅
                         end = PDict d
                         /\ truthy (default PNone (d !! "website_url")) = false).
  { destruct H as [-> | [-> | (d & -> & Hd)]]; eauto. }
  destruct Hc as (d & -> & Hd).
  cbv [get ok].
  change (match d !! "website_url" with Some x => x | None => PNone end)
    with (default PNone (d !! "website_url")).
  rewrite Hd.
  cbv [bind ret gets modify lift raise when ok throw
       on_fields on_self on_world fields now write_json
       set_state update_system_state
       self world ext agent_type running status with_ext].
  cbn. auto.
- intros v -> Hv.
  destruct v as [| | | | | |d]; try (eexists; repeat split; reflexivity).
  now destruct (Hv d).
Qed.

Lemma start_without_url_witness :
let st' := (start quiet_env (fresh 3 empty_world)).2 in
(start quiet_env (fresh 3 empty_world)).1 = ok tt
/\ running (self st') = true
/\ system_state (attributes st') = SystemState.INITIALIZING
/\ current_iteration (attributes st')
   = current_iteration (attributes (fresh 3 empty_world))
/\ queue (world st') = queue (world (fresh 3 empty_world)).
Proof.
apply (proj1 (start_without_url quiet_env (fresh 3 empty_world))).
left. reflexivity.
Defined.

Lemma replies_go_to_sender_witness :
handle_message quiet_env
  (Message.init noon CRAWLER ORCHESTRATOR RESPONSE
     (PDict (<["status" := PStr "crawling"]> ∅)) PNone PNone (PInt 5) PNone)
  (fresh 3 empty_world)
= (ok None, fresh 3 empty_world).
Proof.
set (m := Message.init noon CRAWLER ORCHESTRATOR RESPONSE
            (PDict (<["status" := PStr "crawling"]> ∅))
            PNone PNone (PInt 5) PNone).
destruct (replies_go_to_sender quiet_env m (fresh 3 empty_world)) as [_ H].
exact (H eq_refl).
Defined.

Lemma handle_message_returns_witness :
exists reply st',
  handle_message quiet_env (set_url_request noon CRAWLER example_url)
    (fresh 3 empty_world)
  = (ok reply, st')
  /\ well_formed (attributes st').
Proof.
apply (handle_message_returns quiet_env _
         (<["action" := PStr "set_url"]> (<["url" := example_url]> ∅))).
- reflexivity.
- split; [eexists; reflexivity | eexists; vm_compute; reflexivity].
Defined.

End OrchestratorFrame.

(** ** Crawler *)

Section CrawlerFacts.
Import Agent Orchestration Examples Scenarios.

Lemma send_message_run env E (st : State E) dst mt payload :
send_message env dst mt payload st
= (ok (Message.message_id (sent env st dst mt payload)),
   {| self := self st;
      world := {| fs := fs (world st);
                  queue := queue (world st) ++ [sent env st dst mt payload];
                  clock := S (clock (world st)) |} |}).
Proof. destruct st as [a [files q c]]. reflexivity. Qed.

Lemma execute_code_entered spawn self code timeout :
ForeverVMSandbox.execute_code spawn (ForeverVMSandbox.enter self) code timeout
= ok (ForeverVMSandbox.failure "'dict' object has no attribute 'output'").
Proof.
unfold ForeverVMSandbox.execute_code, ForeverVMSandbox.enter. cbn.
destruct (spawn code timeout); reflexivity.
Qed.

Lemma failure_success e :
getitem (PDict (ForeverVMSandbox.failure e)) "success" = ok (PBool false).
Proof. reflexivity. Qed.

Lemma failure_error e :
getitem (PDict (ForeverVMSandbox.failure e)) "error" = ok (PStr e).
Proof. reflexivity. Qed.

Lemma result_file_not_status env a b : result_file env a <> status_file env b.
Proof.
unfold result_file, status_file, output_dir, path_join.
rewrite !append_assoc. intros H. apply append_inv_head in H.
destruct a, b; vm_compute in H; discriminate.
Qed.

Lemma crawl_website_run env token spawn render crawl_code url
  (st : State CrawlerAgent.Fields) :
exists w,
  CrawlerAgent.crawl_website env token spawn render crawl_code url st
  = (ok tt,
     {| self := if FOREVERVM_AVAILABLE env && String.eqb token ""
                then with_status "error" (self st) else self st;
        world := w |})
  /\ queue w
     = (queue (world st)
          ++ [sent env st ORCHESTRATOR ERROR
                (PDict (<["error" := PStr (crawl_failure env token)]> ∅))])%list
  /\ (forall p, p <> status_file env (agent_type (self st)) ->
                fs w !! p = fs (world st) !! p).
Proof.
destruct st as [[a rn s f] [files q c]].
unfold CrawlerAgent.crawl_website, crawl_failure, try_except.
destruct (FOREVERVM_AVAILABLE env); cbn [andb].
- unfold ForeverVMSandbox.init. destruct (String.eqb token "") eqn:Ht.
  + cbv [bind lift throw]. rewrite send_message_run.
    unfold error_payload, update_status. cbn.
    eexists. split; [reflexivity|]. split; [reflexivity|].
    intros p Hp. cbn. destruct (writable env _); [|reflexivity].
    now apply lookup_insert_ne.
  + unfold ForeverVMSandbox.install_package.
    cbv [bind lift ok]. cbn [rbind].
    rewrite !(execute_code_entered spawn). cbv [ok].
    rewrite failure_success. cbv [ok truthy].
    rewrite failure_error. cbv [ok]. rewrite send_message_run.
    cbn. eexists. repeat split.
- cbv [bind]. rewrite send_message_run. cbn. eexists. repeat split.
Qed.

(** X14: [crawl_website] never saves a crawl result and never announces
  one.  Whatever the URL and however the sandboxed process ends, it
  returns having queued exactly one message, an error notice to the
  orchestrator: the sandbox refusal when the integration is absent, the
  missing token when there is none, and otherwise the attribute error
  that [execute_code] turns every run into.  Only the missing token marks
  the agent itself as failed; no file but the status file changes. *)
Theorem crawl_website_reports_failure env token spawn render crawl_code url
  (st : State CrawlerAgent.Fields) :
let run := CrawlerAgent.crawl_website env token spawn render crawl_code url st in
run.1 = ok tt
/\ queue (world run.2)
   = (queue (world st)
        ++ [sent env st ORCHESTRATOR ERROR
              (PDict (<["error" := PStr (crawl_failure env token)]> ∅))])%list
/\ (forall p, p <> status_file env (agent_type (self st)) ->
              fs (world run.2) !! p = fs (world st) !! p)
/\ fs (world run.2) !! result_file env CRAWLER
   = fs (world st) !! result_file env CRAWLER
/\ status (self run.2)
   = (if FOREVERVM_AVAILABLE env && String.eqb token ""
      then "error" else status (self st)).
Proof.
destruct (crawl_website_run env token spawn render crawl_code url st)
  as (w & Hrun & Hq & Hfs).
cbv zeta. rewrite Hrun. cbn [fst snd world self].
split; [reflexivity|]. split; [exact Hq|]. split; [exact Hfs|].
split; [apply Hfs, result_file_not_status|].
now destruct (_ && _).
Qed.

Lemma last_snoc {A} (l : list A) x : last (l ++ [x]) = Some x.
Proof. induction l as [|y [|z l] IH]; cbn in *; auto. Qed.

Lemma crawler_error_escalates env (ost : State OrchestratorAgent.Fields) m :
Message.message_type m = ERROR ->
Message.source_agent m = CRAWLER ->
(exists d, Message.payload m = PDict d) ->
OrchestratorAgent.system_state
  (attributes (OrchestratorAgent.handle_message env m ost).2)
= SystemState.ERROR.
Proof.
intros Hm Hs [d Hp].
destruct (handle_error_run env m ost Hm) as (r & w & ->).
unfold attributes. cbn [snd moved self ext with_ext].
unfold after_error. rewrite Hp, Hs.
apply checked_crawler_error. cbn. now rewrite lookup_insert_eq.
Qed.

(** X15: every crawl ends the iteration in the error state: the last
  message [crawl_website] leaves in the queue is a notice that, once the
  orchestrator handles it, puts the system state at error, whatever the
  orchestrator's state was. *)
Theorem crawl_ends_in_error env token spawn render crawl_code url
  (cst : State CrawlerAgent.Fields) (ost : State OrchestratorAgent.Fields) :
agent_type (self cst) = CRAWLER ->
exists notice,
  last (queue (world (CrawlerAgent.crawl_website env token spawn render
                        crawl_code url cst).2)) = Some notice
  /\ Message.destination_agent notice = ORCHESTRATOR
  /\ OrchestratorAgent.system_state
       (attributes (OrchestratorAgent.handle_message env notice ost).2)
     = SystemState.ERROR.
Proof.
intros Ha.
destruct (crawl_website_run env token spawn render crawl_code url cst)
  as (w & -> & Hq & _).
cbn [snd world]. rewrite Hq. eexists. split; [apply last_snoc|]. split; [reflexivity|].
apply crawler_error_escalates; [reflexivity | exact Ha | eexists; reflexivity].
Qed.

Lemma crawl_ends_in_error_witness :
exists notice,
  last (queue (world (CrawlerAgent.crawl_website quiet_env "token" hanging
                        no_render code_for example_url idle_crawler).2))
  = Some notice
  /\ Message.destination_agent notice = ORCHESTRATOR
  /\ OrchestratorAgent.system_state
       (attributes
          (OrchestratorAgent.handle_message quiet_env notice
             (OrchestratorAgent.start quiet_env
                (fresh 3 (configured_world example_url))).2).2)
     = SystemState.ERROR.
Proof.
apply (crawl_ends_in_error quiet_env "token" hanging no_render code_for
         example_url idle_crawler).
reflexivity.
Defined.

(** X16: the request [start_iteration] queues is one the crawler's
  handler accepts: within the budget and with a target URL set, the
  crawler adopts that URL, creates the task that crawls it, and answers
  the orchestrator with a response. *)
Theorem crawl_request_accepted env
  (ost : State OrchestratorAgent.Fields) (cst : State CrawlerAgent.Fields) :
OrchestratorAgent.current_iteration (attributes ost)
  < OrchestratorAgent.max_iterations (attributes ost) ->
truthy (OrchestratorAgent.target_url (attributes ost)) = true ->
exists request reply cst',
  last (queue (world (OrchestratorAgent.start_iteration env ost).2))
  = Some request
  /\ Message.destination_agent request = CRAWLER
  /\ CrawlerAgent.handle_message env request cst
     = (ok (Some reply,
            Some (crawl_website_task
                    (OrchestratorAgent.target_url (attributes ost)))),
        cst')
  /\ Message.destination_agent reply = agent_type (self ost)
  /\ Message.message_type reply = RESPONSE
  /\ CrawlerAgent.target_url (ext (self cst'))
     = OrchestratorAgent.target_url (attributes ost).
Proof.
intros Hlt Hurl.
destruct (start_iteration_within env ost Hlt)
  as (_ & m & Hq & Hsrc & Hdst & Hty & Hp).
rewrite Hq. exists m.
destruct cst as [[a rn s f] [files q c]].
unfold CrawlerAgent.handle_message. rewrite Hty, Hp.
cbv [get lift bind ok].
rewrite lookup_insert_eq.
rewrite lookup_insert_ne by discriminate. rewrite lookup_insert_eq.
change (eq_str (PStr "crawl") "crawl") with true. cbv iota.
cbv [CrawlerAgent.fields gets ok].
unfold Message.or_else. rewrite Hurl. cbv iota. rewrite Hurl.
cbv [bind ret gets modify lift raise when ok throw
     CrawlerAgent.on_fields on_self on_world now new_message
     self world ext agent_type running status with_ext].
do 2 eexists. split; [apply last_snoc|]. split; [exact Hdst|].
split; [reflexivity|]. cbn. auto.
Qed.

Lemma crawl_request_accepted_witness :
let ost := (OrchestratorAgent.start quiet_env
              (fresh 3 (configured_world example_url))).2 in
exists request reply cst',
  last (queue (world (OrchestratorAgent.start_iteration quiet_env ost).2))
  = Some request
  /\ Message.destination_agent request = CRAWLER
  /\ CrawlerAgent.handle_message quiet_env request idle_crawler
     = (ok (Some reply,
            Some (crawl_website_task
                    (OrchestratorAgent.target_url (attributes ost)))),
        cst')
  /\ Message.destination_agent reply = agent_type (self ost)
  /\ Message.message_type reply = RESPONSE
  /\ CrawlerAgent.target_url (ext (self cst'))
     = OrchestratorAgent.target_url (attributes ost).
Proof.
intros ost. apply (crawl_request_accepted quiet_env ost idle_crawler).
- vm_compute. reflexivity.
- vm_compute. reflexivity.
Defined.

Lemma no_url_config env (w : World) :
no_url env w ->
exists d, match fs w !! CONFIG_PATH env with
          | Some (Json c) => c
          | _ => PDict ∅
          end = PDict d
          /\ truthy (default PNone (d !! "website_url")) = false.
Proof.
unfold no_url. destruct (fs w !! CONFIG_PATH env) as [[[| | | | | |d]|]|];
  try contradiction; eauto.
Qed.

Lemma crawler_start_queue env (st : State CrawlerAgent.Fields) :
no_url env (world st) ->
exists notice,
  CrawlerAgent.start env st = (ok tt, (CrawlerAgent.start env st).2)
  /\ queue (world (CrawlerAgent.start env st).2)
     = (queue (world st) ++ [notice])%list
  /\ Message.source_agent notice = agent_type (self st)
  /\ Message.destination_agent notice = ORCHESTRATOR
  /\ Message.message_type notice = ERROR
  /\ Message.payload notice
     = PDict (<["error" := PStr "No target URL specified"]> ∅).
Proof.
intros H. apply no_url_config in H as (d & Hc & Hd).
destruct st as [[a rn s f] [files q c]]. cbn [world fs] in Hc.
unfold CrawlerAgent.start, Agent.start, update_status.
cbv [bind ret gets modify lift raise when ok throw
     CrawlerAgent.on_fields on_self on_world now write_json
     self world ext agent_type running status with_running with_status].
rewrite load_config_value. cbn [world].
rewrite fs_write_other by apply status_file_not_config.
unfold tick. cbn [fs]. cbv [ok]. rewrite Hc.
cbv [get ok].
change (match d !! "website_url" with Some x => x | None => PNone end)
  with (default PNone (d !! "website_url")).
rewrite Hd. cbn [negb]. rewrite send_message_run. cbn.
eexists. repeat split.
Qed.

(** X17: a system started without a usable URL is stuck.  The crawler's
  [start] then queues an error notice for the orchestrator; handling it
  puts the system state at error, whatever it was; and from there no
  [set_url] request starts an iteration: each leaves the state at error
  and queues no crawl request. *)
Theorem crawler_start_without_url env
  (cst : State CrawlerAgent.Fields) (ost : State OrchestratorAgent.Fields) :
no_url env (world cst) ->
agent_type (self cst) = CRAWLER ->
exists notice,
  queue (world (CrawlerAgent.start env cst).2)
  = (queue (world cst) ++ [notice])%list
  /\ Message.message_type notice = ERROR
  /\ Message.destination_agent notice = ORCHESTRATOR
  /\ let ost1 := (OrchestratorAgent.handle_message env notice ost).2 in
     OrchestratorAgent.system_state (attributes ost1) = SystemState.ERROR
     /\ forall m url,
          is_set_url m url ->
          let ost2 := (OrchestratorAgent.handle_message env m ost1).2 in
          OrchestratorAgent.system_state (attributes ost2) = SystemState.ERROR
          /\ queue (world ost2) = queue (world ost1).
Proof.
intros Hno Ha.
destruct (crawler_start_queue env cst Hno)
  as (notice & _ & Hq & Hsrc & Hdst & Hty & Hp).
exists notice. split; [exact Hq|]. split; [exact Hty|]. split; [exact Hdst|].
assert (Herr : OrchestratorAgent.system_state
                 (attributes (OrchestratorAgent.handle_message env notice ost).2)
               = SystemState.ERROR).
{ apply crawler_error_escalates; [exact Hty | congruence | eauto]. }
cbv zeta. split; [exact Herr|].
intros m url Hm.
set (ost1 := (OrchestratorAgent.handle_message env notice ost).2) in *.
assert (Hidle : idle_state (OrchestratorAgent.system_state (ext (self ost1)))
                = false).
{ unfold attributes in Herr. now rewrite Herr. }
destruct (handle_set_url_run env m url ost1 Hm) as (r & w & -> & Hw).
unfold attributes. cbn [snd moved self ext with_ext world].
destruct (after_set_url_in_progress url (ext (self ost1)) Hidle) as [-> _].
split; [exact Herr | now apply Hw].
Qed.

Lemma crawler_start_without_url_witness :
exists notice,
  queue (world (CrawlerAgent.start quiet_env idle_crawler).2)
  = (queue (world idle_crawler) ++ [notice])%list
  /\ Message.message_type notice = ERROR
  /\ Message.destination_agent notice = ORCHESTRATOR
  /\ let ost1 := (OrchestratorAgent.handle_message quiet_env notice
                    (fresh 3 empty_world)).2 in
     OrchestratorAgent.system_state (attributes ost1) = SystemState.ERROR
     /\ forall m url,
          is_set_url m url ->
          let ost2 := (OrchestratorAgent.handle_message quiet_env m ost1).2 in
          OrchestratorAgent.system_state (attributes ost2) = SystemState.ERROR
          /\ queue (world ost2) = queue (world ost1).
Proof.
apply (crawler_start_without_url quiet_env idle_crawler (fresh 3 empty_world)).
- exact I.
- reflexivity.
Defined.
End CrawlerFacts.

(** ** Analysis *)

Section AnalysisMore.
Import Agent AnalysisAgent Examples Scenarios.

(** X18: a crawl result whose [assets] are empty (or otherwise false) is
  never analysed: the recommendation step looks up the average number of
  scripts, which is only computed when there are assets, so
  [analyze_crawl_result] saves no result, sends the orchestrator an error
  notice and leaves the agent's status at error. *)
Theorem analysis_needs_assets env (st : State unit) path cr assets :
agent_type (self st) = ANALYSIS ->
fs (world st) !! path = Some (Json cr) ->
getitem cr "assets" = ok assets ->
truthy assets = false ->
(exists e, analysis_of cr = inl e)
/\ let st' := (analyze_crawl_result env path st).2 in
   fs (world st') !! result_file env ANALYSIS
   = fs (world st) !! result_file env ANALYSIS
   /\ status (self st') = "error"
   /\ exists notice,
        queue (world st') = (queue (world st) ++ [notice])%list
        /\ Message.message_type notice = ERROR
        /\ Message.destination_agent notice = ORCHESTRATOR.
Proof.
intros Ha Hf Hassets Ht.
destruct (analysis_of cr) as [e|a] eqn:H.
- split; [eauto|]. now apply (analyze_crawl_result_fails env st path cr e).
- exfalso. apply analysis_of_assets in H as (assets' & Hassets' & Ht').
  rewrite Hassets in Hassets'. unfold ok in Hassets'.
  injection Hassets' as <-. congruence.
Qed.

Lemma analysis_needs_assets_witness :
let st := {| self := self idle_analysis;
             world := {| fs := <["crawl.json" := Json (crawl three_pages [])]> ∅;
                         queue := []; clock := 0 |} |} in
(exists e, analysis_of (crawl three_pages []) = inl e)
/\ let st' := (analyze_crawl_result quiet_env "crawl.json" st).2 in
   fs (world st') !! result_file quiet_env ANALYSIS
   = fs (world st) !! result_file quiet_env ANALYSIS
   /\ status (self st') = "error"
   /\ exists notice,
        queue (world st') = (queue (world st) ++ [notice])%list
        /\ Message.message_type notice = ERROR
        /\ Message.destination_agent notice = ORCHESTRATOR.
Proof.
intros st.
apply (analysis_needs_assets quiet_env st "crawl.json" (crawl three_pages [])
         (PList [])); reflexivity.
Defined.


Lemma recommend_recs cond text (m m' : gmap string pyval) l :
m !! "recommendations" = Some (PList l) ->
recommend cond text m = ok m' ->
m' !! "recommendations"
= Some (PList (l ++ if cond then [PStr text] else [])%list)
/\ dom m' = dom m.
Proof.
intros Hl. unfold recommend. destruct cond.
- cbn. rewrite Hl. cbn. unfold ok. intros [= <-].
  rewrite lookup_insert_eq. split; [reflexivity|].
  rewrite dom_insert_L. apply elem_of_dom_2 in Hl.
  now apply subseteq_union_1_L, singleton_subseteq_l.
- unfold ok. intros [= <-]. now rewrite app_nil_r.
Qed.

(** X19: an analysis has exactly six keys; [common_patterns] is always
  the empty dictionary; and its recommendations are decided by three
  strict thresholds: the header and the footer text when the respective
  percentage is above 90, the script text when the average number of
  scripts per page is above 5, in this order and nothing else. *)
Theorem analysis_shape cr a :
analysis_of cr = ok a ->
dom a = Analysis_keys
/\ a !! "common_patterns" = Some (PDict ∅)
/\ exists base_url ps aa hp fp js header footer scripts,
     getitem cr "base_url" = ok base_url
     /\ a !! "base_url" = Some base_url
     /\ a !! "page_structure" = Some (PDict ps)
     /\ a !! "asset_analysis" = Some (PDict aa)
     /\ ps !! "header_percentage" = Some hp /\ gt_int hp 90 = ok header
     /\ ps !! "footer_percentage" = Some fp /\ gt_int fp 90 = ok footer
     /\ aa !! "avg_js_per_page" = Some js /\ gt_int js 5 = ok scripts
     /\ a !! "recommendations"
        = Some (PList (recommendations_of header footer scripts)).
Proof.
unfold analysis_of. intros H.
apply rbind_ok in H as (base_url & Hbase & H).
apply rbind_ok in H as (pages & Hpages & H).
apply rbind_ok in H as (n & _ & H).
apply rbind_ok in H as (ps & Hps & H).
apply rbind_ok in H as (assets & Hassets & H).
apply rbind_ok in H as (a0 & H0 & H).
apply rbind_ok in H as (ps1 & Hps1 & H).
apply rbind_ok in H as (hp & Hhp & H).
apply rbind_ok in H as (c1 & Hc1 & H).
apply rbind_ok in H as (a1 & H1 & H).
apply rbind_ok in H as (ps2 & Hps2 & H).
apply rbind_ok in H as (fp & Hfp & H).
apply rbind_ok in H as (c2 & Hc2 & H).
apply rbind_ok in H as (a2 & H2 & H).
apply rbind_ok in H as (c3 & Hc3 & H).
set (base := <["base_url" := base_url]>
             (<["pages_analyzed" := PInt n]>
             (<["page_structure" := PDict ∅]>
             (<["common_patterns" := PDict ∅]>
             (<["asset_analysis" := PDict ∅]>
             (<["recommendations" := PList []]> (∅ : gmap string pyval))))))) in *.
assert (Ha0 : a0 !! "recommendations" = Some (PList [])
              /\ dom a0 = Analysis_keys
              /\ a0 !! "base_url" = Some base_url
              /\ a0 !! "common_patterns" = Some (PDict ∅)
              /\ a0 !! "page_structure" = Some (PDict ps)).
{ destruct (truthy assets).
  - apply rbind_ok in H0 as (aa & _ & H0). unfold ok in H0. injection H0 as <-.
    subst base. repeat split; now simplify_map_eq.
  - unfold ok in H0. injection H0 as <-.
    subst base. repeat split; now simplify_map_eq. }
destruct Ha0 as (Hr0 & Hd0 & Hb0 & Hcp0 & Hps0).
destruct (recommend_recs _ _ _ _ _ Hr0 H1) as [Hr1 Hd1].
destruct (recommend_recs _ _ _ _ _ Hr1 H2) as [Hr2 Hd2].
destruct (recommend_recs _ _ _ _ _ Hr2 H) as [Hr3 Hd3].
assert (Hk : forall k, k <> "recommendations" -> a !! k = a0 !! k).
{ intros k Hk.
  rewrite (recommend_lookup _ _ _ _ _ H) by exact Hk.
  rewrite (recommend_lookup _ _ _ _ _ H2) by exact Hk.
  now rewrite (recommend_lookup _ _ _ _ _ H1) by exact Hk. }
split; [congruence|].
split; [rewrite Hk by discriminate; exact Hcp0|].
(* the values the three tests read *)
apply getitem_ok in Hps1 as (? & [= <-] & Hps1). rewrite Hps0 in Hps1.
injection Hps1 as <-.
apply getitem_ok in Hhp as (? & [= <-] & Hhp).
apply getitem_ok in Hps2 as (? & [= <-] & Hps2).
rewrite (recommend_lookup _ _ _ _ _ H1) in Hps2 by discriminate.
rewrite Hps0 in Hps2. injection Hps2 as <-.
apply getitem_ok in Hfp as (? & [= <-] & Hfp).
destruct (a2 !! "asset_analysis") as [aav|] eqn:Haa.
2:{ exfalso.
    assert (Hin : "asset_analysis" ∈ dom a2).
    { rewrite Hd2, Hd1, Hd0.
      apply (bool_decide_unpack ("asset_analysis" ∈ Analysis_keys)).
      vm_compute. exact I. }
    apply elem_of_dom in Hin as [x Hx]. congruence. }
apply rbind_ok in Hc3 as (aa' & Haa' & Hc3).
apply rbind_ok in Hc3 as (js & Hjs & Hc3).
apply getitem_ok in Haa' as (? & [= <-] & Haa'). rewrite Haa in Haa'.
injection Haa' as <-.
apply getitem_ok in Hjs as (aa & -> & Hjs).
exists base_url, ps, aa, hp, fp, js, c1, c2, c3.
rewrite !Hk by discriminate. rewrite Hps0, Hb0.
rewrite <- (recommend_lookup _ _ _ _ _ H1) by discriminate.
rewrite <- (recommend_lookup _ _ _ _ _ H2) by discriminate.
rewrite Haa. repeat split; try assumption.
rewrite Hr3. unfold recommendations_of. now rewrite <- app_assoc.
Qed.

Lemma analysis_shape_witness :
exists a, analysis_of (crawl three_pages three_assets) = ok a
          /\ dom a = Analysis_keys
          /\ a !! "recommendations" = Some (PList []).
Proof.
eexists. split; [reflexivity|].
destruct (analysis_shape (crawl three_pages three_assets) _ eq_refl)
  as (Hd & _ & _).
split; [exact Hd | reflexivity].
Defined.

End AnalysisMore.

(** ** Feedback *)

Section FeedbackMore.
Import Agent FeedbackAgent Examples Scenarios.

(** X20: whenever an evaluation succeeds, the point for the
  recommendations is awarded, whatever the implementation did with them,
  so the score is an integer from 1 to 3, equal to the number of
  strengths listed; the half point and the assessment for scores below 1
  are never given; and the three suggestions are always the same. *)
Theorem feedback_counts_strengths path implementation analysis fb :
feedback_of path implementation analysis = ok fb ->
exists s,
  score fb = PInt s
  /\ 1 <= s <= 3
  /\ Z.of_nat (length (strengths fb)) = s
  /\ (length (weaknesses fb) <= 2)%nat
  /\ In "Implementation follows all recommendations from analysis"
        (strengths fb)
  /\ suggestions fb
     = ["Add more responsive design features";
        "Implement accessibility improvements";
        "Consider adding animation effects for better user experience"]
  /\ overall_assessment fb <> "Implementation needs significant improvement"
  /\ implementation_path fb = path.
Proof.
unfold feedback_of. intros H.
apply rbind_ok in H as (files & Hfiles & H).
apply rbind_ok in H as (n & Hn & H).
apply rbind_ok in H as (fb1 & H1 & H).
apply rbind_ok in H as (passed & Hp & H).
apply rbind_ok in H as (fb2 & H2 & H).
apply rbind_ok in H as (recs & Hrecs & H).
apply rbind_ok in H as (visited & Hi & H).
apply rbind_ok in H as (recs' & Hrecs' & H).
apply rbind_ok in H as (total & Hl & H).
apply rbind_ok in H as (fb3 & H3 & H).
rewrite Hrecs in Hrecs'. injection Hrecs' as <-.
rewrite (iter_len _ _ _ Hi Hl), Z.eqb_refl in H3.
rewrite Hp in H2. cbn [rbind ok] in H2.
destruct (3 <=? n); read_ok H1;
  destruct (truthy passed); [| destruct (is_False passed) | | destruct (is_False passed)];
  read_ok H2; read_ok H3;
  vm_compute in H; injection H as <-; cbn;
  eexists; (split; [reflexivity|]);
  repeat split; try lia; auto; discriminate.
Qed.

Lemma feedback_counts_strengths_witness :
exists fb,
  feedback_of "result.json" (PDict (<["files" := PList []]> ∅)) (PDict ∅)
  = ok fb
  /\ score fb = PInt 1
  /\ strengths fb
     = ["Implementation follows all recommendations from analysis"].
Proof.
eexists. split; [vm_compute; reflexivity|].
match goal with
| |- score ?f = _ /\ _ =>
    destruct (feedback_counts_strengths "result.json"
                (PDict (<["files" := PList []]> ∅)) (PDict ∅) f)
      as (s & Hs & _); [vm_compute; reflexivity|]
end.
split; reflexivity.
Defined.


(** X21: [evaluate_implementation] needs the crawl result file only to
  exist and parse: whatever it holds, the feedback saved and the notice
  sent are those computed from the implementation and the analysis, and
  the notice carries the score and the path of the result file; without
  the file nothing is saved, the orchestrator gets an error notice and the
  agent's status becomes error. *)
Theorem evaluate_implementation_ignores_crawl env (st : State unit)
  p1 p2 p3 implementation analysis fb :
agent_type (self st) = FEEDBACK ->
fs (world st) !! p1 = Some (Json implementation) ->
fs (world st) !! p2 = Some (Json analysis) ->
feedback_of p1 implementation analysis = ok fb ->
let st' := (evaluate_implementation env p1 p2 p3 st).2 in
(forall crawl_result,
   fs (world st) !! p3 = Some (Json crawl_result) ->
   (writable env (clock (world st)) = true ->
    fs (world st') !! result_file env FEEDBACK = Some (Json (to_pyval fb)))
   /\ status (self st') = status (self st)
   /\ exists notice,
        queue (world st') = (queue (world st) ++ [notice])%list
        /\ Message.message_type notice = NOTIFICATION
        /\ Message.destination_agent notice = ORCHESTRATOR
        /\ Message.payload notice
           = PDict (<["status" := PStr "complete"]>
                    (<["score" := score fb]>
                    (<["result_path" := PStr (result_file env FEEDBACK)]> ∅))))
/\ (fs (world st) !! p3 = None ->
    fs (world st') !! result_file env FEEDBACK
    = fs (world st) !! result_file env FEEDBACK
    /\ status (self st') = "error"
    /\ exists notice,
         queue (world st') = (queue (world st) ++ [notice])%list
         /\ Message.message_type notice = ERROR
         /\ Message.destination_agent notice = ORCHESTRATOR).
Proof.
intros Ht H1 H2 Hfb. cbv zeta. unfold evaluate_implementation.
destruct st as [[t rn s x] [files q c]]. cbn in Ht, H1, H2. subst t.
unfold load_json, save_result, send_message, new_message, update_status.
cbv [try_except bind gets ok lift ret world fs self agent_type].
rewrite H1, H2. split.
- intros crawl_result H3. rewrite H3, Hfb.
  cbv [write_json on_world modify now put write tick ok ret bind gets world
       fs self agent_type clock queue status snd].
  split; [|split; [reflexivity | eexists; repeat split]].
  intros Hw. cbn. rewrite Hw. apply lookup_insert_eq.
- intros H3. rewrite H3.
  cbv [write_json on_world on_self modify now put write tick ok ret bind gets
       world fs self agent_type status with_status clock queue snd raise].
  assert (Hne : status_file env FEEDBACK <> result_file env FEEDBACK)
    by apply not_eq_sym, result_file_not_status.
  destruct (negb _); cbn;
    (split; [|split; [reflexivity | eexists; repeat split; reflexivity]]);
    destruct (writable env _); try reflexivity;
    now apply lookup_insert_ne.
Qed.

Lemma evaluate_implementation_ignores_crawl_witness :
let st := {| self := Agent.init FEEDBACK tt;
             world := {| fs := <["i.json" := Json (implementation_result PNone)]>
                               (<["a.json" := Json analysis_result]> ∅);
                         queue := []; clock := 0 |} |} in
let st' := (evaluate_implementation quiet_env "i.json" "a.json" "c.json" st).2 in
fs (world st') !! result_file quiet_env FEEDBACK = None
/\ status (self st') = "error"
/\ exists notice,
     queue (world st') = (queue (world st) ++ [notice])%list
     /\ Message.message_type notice = ERROR
     /\ Message.destination_agent notice = ORCHESTRATOR.
Proof.
intros st.
match goal with
| |- let st' := _ in _ =>
    refine (proj2 (evaluate_implementation_ignores_crawl quiet_env st
                     "i.json" "a.json" "c.json" (implementation_result PNone)
                     analysis_result _ eq_refl eq_refl eq_refl _) eq_refl)
end.
vm_compute. reflexivity.
Defined.

End FeedbackMore.

(** ** Sandbox *)

Section SandboxMore.
Import ForeverVMSandbox SandboxFiles Examples Scenarios.

(** X22: a sandbox can be constructed exactly when the token given or,
  failing that, the module constant is not empty; otherwise the
  constructor raises a [ValueError].  A constructed sandbox has no
  machine, and [execute_code] raises a [RuntimeError] before the [with]
  block is entered and again after it is left, while inside the block it
  always returns; leaving the block gives back the sandbox as it was
  constructed. *)
Theorem sandbox_lifecycle token api_token spawn code timeout :
((exists e, init token api_token = inl e /\ exn_cls e = ValueError)
 <-> (api_token = None \/ api_token = Some "") /\ token = "")
/\ forall s,
     init token api_token = ok s ->
     ForeverVMSandbox.api_token s <> ""
     /\ machine s = None
     /\ (exists e, execute_code spawn s code timeout = inl e
                   /\ exn_cls e = RuntimeError)
     /\ (exists r, execute_code spawn (enter s) code timeout = ok r)
     /\ exit (enter s) = s
     /\ (exists e, execute_code spawn (exit (enter s)) code timeout = inl e
                   /\ exn_cls e = RuntimeError).
Proof.
unfold init.
set (tok := match api_token with
            | Some t => if String.eqb t "" then token else t
            | None => token
            end).
assert (Htok : tok = "" <-> (api_token = None \/ api_token = Some "") /\ token = "").
{ subst tok. destruct api_token as [t|]; [destruct (String.eqb_spec t "")|];
    subst; split; intros H; try tauto; try (destruct H as [[H|H] H']);
    try congruence; auto. }
split.
- split.
  + intros (e & H & _). apply Htok.
    destruct (String.eqb_spec tok ""); [assumption | discriminate H].
  + intros H. apply Htok in H. rewrite H. eexists; split; reflexivity.
- intros s H.
  assert (Hs : exists t, t <> "" /\ s = {| api_token := t; machine := None |}).
  { destruct (String.eqb_spec tok ""); [discriminate H|].
    unfold ok in H. injection H as <-. eauto. }
  clearbody tok. destruct Hs as (t & Ht & ->).
  split; [exact Ht|]. split; [reflexivity|].
  split; [eexists; split; reflexivity|].
  split; [rewrite (execute_code_entered spawn); eauto|].
  split; [reflexivity|]. eexists; split; reflexivity.
Qed.

Lemma sandbox_lifecycle_witness :
exists s,
  init "secret" None = ok s
  /\ machine s = None
  /\ exists r, execute_code hanging (enter s) "print(1)" 30 = ok r.
Proof.
eexists. split; [reflexivity|].
destruct (proj2 (sandbox_lifecycle "secret" None hanging "print(1)" 30)
            {| api_token := "secret"; machine := None |} eq_refl)
  as (_ & Hm & _ & Hr & _).
split; [exact Hm | exact Hr].
Defined.

(** X23: [execute_file] never raises and, the sandbox being what it is,
  never reports success.  A file that cannot be read is reported as
  such; so is, in the same words, a sandbox that is used outside its
  [with] block, although the file was read; and inside the block the
  result is the attribute error of [execute_code], whatever the file
  holds. *)
Theorem execute_file_never_succeeds read_text spawn self file_path timeout :
exists error,
  execute_file read_text spawn self file_path timeout = ok (failure error)
  /\ (forall e, read_text file_path = inl e ->
                error = "Error reading file: " +:+ exn_str e)
  /\ (forall code, read_text file_path = ok code -> machine self = None ->
                   error = "Error reading file: ForeverVM machine not created. Use with-statement or create_machine().")
  /\ (forall code, read_text file_path = ok code -> machine self <> None ->
                   error = "'dict' object has no attribute 'output'").
Proof.
unfold execute_file.
destruct (read_text file_path) as [e|code] eqn:Hr.
- eexists. split; [reflexivity|]. repeat split; intros; try discriminate.
  unfold ok in *. congruence.
- destruct self as [t [m|]].
  + cbn [rbind ok]. unfold execute_code. cbn [machine].
    exists "'dict' object has no attribute 'output'". split.
    * destruct (spawn code timeout); reflexivity.
    * repeat split; intros; try discriminate; reflexivity.
  + eexists. split; [reflexivity|].
    repeat split; intros; try discriminate; try reflexivity.
    cbn in *. congruence.
Qed.

End SandboxMore.

(** ** Requests between the agents *)

Section Protocol.
Import Agent Handlers Orchestration Frame Examples Scenarios.

Lemma truthy_PStr s : s <> "" -> truthy (PStr s) = true.
Proof. intros H. cbn. now apply String.eqb_neq in H as ->. Qed.

Lemma analyze_crawl_result_queue env (st : State unit) path cr a :
fs (world st) !! path = Some (Json cr) ->
AnalysisAgent.analysis_of cr = ok a ->
exists notice request,
  queue (world (AnalysisAgent.analyze_crawl_result env path st).2)
  = (queue (world st) ++ [notice; request])%list
  /\ Message.message_type notice = NOTIFICATION
  /\ Message.destination_agent notice = ORCHESTRATOR
  /\ Message.source_agent request = agent_type (self st)
  /\ Message.destination_agent request = IMPLEMENTATION
  /\ Message.message_type request = REQUEST
  /\ Message.payload request
     = PDict (<["action" := PStr "implement"]>
              (<["analysis_result_path" := PStr (result_file env ANALYSIS)]>
              (<["crawl_result_path" := PStr path]> ∅))).
Proof.
intros Hf Ha. unfold AnalysisAgent.analyze_crawl_result.
destruct st as [[t rn s x] [files q c]]. cbn in Hf.
unfold load_json, save_result, send_message, new_message.
cbv [try_except bind gets ok lift ret world fs self agent_type].
rewrite Hf, Ha.
assert (Hp : exists pages n,
           getitem cr "pages" = inr pages /\ len pages = inr n).
{ unfold AnalysisAgent.analysis_of in Ha.
  apply rbind_ok in Ha as (base_url & _ & Ha).
  apply rbind_ok in Ha as (pages & Hpages & Ha).
  apply rbind_ok in Ha as (n & Hn & _). eauto. }
destruct Hp as (pages & n & -> & ->).
cbv [write_json on_world modify now put write tick ok ret bind gets world fs
     self agent_type clock queue snd].
do 2 eexists. rewrite <- app_assoc. repeat split.
Qed.

(** X24: the request the analysis agent sends after a successful analysis
  is one the implementation agent's handler accepts: it creates the task
  that implements from the analysis result file and the same crawl result
  file, and answers the analysis agent with a response.  The analysis
  result file holds the analysis by then, if it could be written. *)
Theorem implement_request_accepted env (ast ist : State unit) path cr a :
agent_type (self ast) = ANALYSIS ->
fs (world ast) !! path = Some (Json cr) ->
AnalysisAgent.analysis_of cr = ok a ->
path <> "" ->
let ast' := (AnalysisAgent.analyze_crawl_result env path ast).2 in
exists notice request reply ist',
  queue (world ast') = (queue (world ast) ++ [notice; request])%list
  /\ Message.destination_agent notice = ORCHESTRATOR
  /\ Message.destination_agent request = IMPLEMENTATION
  /\ ImplementationAgent_handle_message env request ist
     = (ok (Some reply,
            Some (implement_website_task (PStr (result_file env ANALYSIS))
                    (PStr path))),
        ist')
  /\ Message.message_type reply = RESPONSE
  /\ Message.destination_agent reply = ANALYSIS
  /\ (writable env (clock (world ast)) = true ->
      fs (world ast') !! result_file env ANALYSIS = Some (Json (PDict a))).
Proof.
intros Ht Hf Ha Hpath. cbv zeta.
destruct (analyze_crawl_result_queue env ast path cr a Hf Ha)
  as (notice & request & Hq & _ & Hn & Hsrc & Hdst & Hty & Hp).
exists notice, request.
destruct ist as [[t rn s x] [files q c]].
unfold ImplementationAgent_handle_message. rewrite Hty, Hp.
cbv [get lift bind ok].
rewrite lookup_insert_eq.
rewrite lookup_insert_ne by discriminate. rewrite lookup_insert_eq.
rewrite lookup_insert_ne by discriminate.
rewrite lookup_insert_ne by discriminate. rewrite lookup_insert_eq.
change (eq_str (PStr "implement") "implement") with true. cbv iota.
rewrite result_file_truthy, (truthy_PStr path Hpath). cbn [andb].
cbv [respond bind ret gets modify lift ok on_world now new_message
     self world agent_type].
do 2 eexists. split; [exact Hq|]. split; [exact Hn|]. split; [exact Hdst|].
split; [reflexivity|]. split; [reflexivity|].
split; [cbn; congruence|].
intros Hw. now apply (analyze_crawl_result_saves env ast path cr a).
Qed.

Lemma implement_request_accepted_witness :
let ast' := (AnalysisAgent.analyze_crawl_result quiet_env "crawl.json"
               crawled_analysis).2 in
exists notice request reply ist',
  queue (world ast') = (queue (world crawled_analysis) ++ [notice; request])%list
  /\ Message.destination_agent notice = ORCHESTRATOR
  /\ Message.destination_agent request = IMPLEMENTATION
  /\ ImplementationAgent_handle_message quiet_env request idle_implementation
     = (ok (Some reply,
            Some (implement_website_task
                    (PStr (result_file quiet_env ANALYSIS))
                    (PStr "crawl.json"))),
        ist')
  /\ Message.message_type reply = RESPONSE
  /\ Message.destination_agent reply = ANALYSIS.
Proof.
intros ast'.
assert (Ha : exists a, AnalysisAgent.analysis_of (crawl three_pages three_assets)
                       = ok a)
  by (eexists; reflexivity).
destruct Ha as [a Ha].
destruct (implement_request_accepted quiet_env crawled_analysis
            idle_implementation "crawl.json" (crawl three_pages three_assets)
            a eq_refl eq_refl Ha)
  as (notice & request & reply & ist' & H1 & H2 & H3 & H4 & H5 & H6 & _).
- discriminate.
- exists notice, request, reply, ist'. repeat split; assumption.
Defined.

(** X25: a reply of the orchestrator ends the exchange: none of the four
  stage agents answers it, creates a task for it or changes for it; and
  more generally their handlers act on requests only. *)
Theorem replies_end_the_exchange env m :
(Message.message_type m <> REQUEST
 \/ exists request ost ost',
      OrchestratorAgent.handle_message env request ost = (ok (Some m), ost')) ->
(forall st, CrawlerAgent.handle_message env m st = (ok (None, None), st))
/\ (forall st, AnalysisAgent_handle_message env m st = (ok (None, None), st))
/\ (forall st, ImplementationAgent_handle_message env m st
               = (ok (None, None), st))
/\ (forall st, FeedbackAgent_handle_message env m st = (ok (None, None), st)).
Proof.
intros H.
assert (Hm : Message.message_type m <> REQUEST).
{ destruct H as [H | (request & ost & ost' & H)]; [exact H|].
  destruct (handle_message_frame env request ost)
    as (r & w & f' & Hrun & _ & Ha & _).
  rewrite Hrun in H. injection H as -> _.
  destruct (Ha m eq_refl) as (_ & _ & [-> | ->]); discriminate. }
unfold CrawlerAgent.handle_message, AnalysisAgent_handle_message,
  ImplementationAgent_handle_message, FeedbackAgent_handle_message.
destruct (Message.message_type m); [congruence| | |]; repeat split.
Qed.

Lemma replies_end_the_exchange_witness :
CrawlerAgent.handle_message quiet_env
  (Message.init noon ORCHESTRATOR CRAWLER RESPONSE
     (PDict (<["status" := PStr "acknowledged"]> ∅)) PNone PNone (PInt 5) PNone)
  idle_crawler
= (ok (None, None), idle_crawler).
Proof.
set (m := Message.init noon ORCHESTRATOR CRAWLER RESPONSE
            (PDict (<["status" := PStr "acknowledged"]> ∅))
            PNone PNone (PInt 5) PNone).
assert (Hm : Message.message_type m <> REQUEST) by discriminate.
destruct (replies_end_the_exchange quiet_env m (or_introl Hm)) as [H _].
exact (H idle_crawler).
Defined.
End Protocol.

(** ** The orchestrator's loop *)

Section Spinning.
Import Agent OrchestratorAgent Orchestration Examples Scenarios.

Lemma requeued_singleton n (m : Message) : requeued n [m] = [m].
Proof. induction n as [|n IH]; [reflexivity | exact IH]. Qed.

Lemma start_through_iteration env st c url :
fs (world st) !! CONFIG_PATH env = Some (Json (PDict c)) ->
default PNone (c !! "website_url") = url ->
truthy url = true ->
exists st0,
  start env st = start_iteration env st0
  /\ queue (world st0) = queue (world st)
  /\ self st0
     = with_ext
         (with_system_state SystemState.INITIALIZING
            (with_target_url url (with_config (PDict c) (ext (self st)))))
         (with_status "running" (with_running true (self st))).
Proof.
intros Hc Hu Ht. unfold start, Agent.start, update_status.
destruct st as [[a rn s f] [files q k]]. cbn [world fs] in Hc.
cbv [bind ret gets modify lift raise when ok throw
     on_fields on_self on_world fields now write_json
     self world ext agent_type running status with_running with_status].
rewrite load_config_value. cbn [world].
rewrite fs_write_other by apply status_file_not_config.
unfold tick. cbn [fs]. rewrite Hc. cbv [get ok].
change (match c !! "website_url" with Some x => x | None => PNone end)
  with (default PNone (c !! "website_url")).
rewrite Hu, Ht.
cbv [bind ret gets modify lift raise when ok throw
     on_fields on_self on_world fields now write_json
     set_state update_system_state
     self world ext agent_type running status with_ext].
eexists. split; [reflexivity|]. split; reflexivity.
Qed.

(** X27: an orchestrator that starts with a configured URL never gets
  past its own crawl request.  [start] queues the request for the crawler;
  the loop of [run] then finds a message that is not for the orchestrator,
  puts it back and looks again, without ever sleeping: however many
  iterations are followed, [run] has not returned, the clock has not moved
  since [start], the state is still crawling and the request is still the
  only message in the queue. *)
Theorem orchestrator_spins_after_start env st c url left :
fs (world st) !! CONFIG_PATH env = Some (Json (PDict c)) ->
default PNone (c !! "website_url") = url ->
truthy url = true ->
agent_type (self st) = ORCHESTRATOR ->
queue (world st) = [] ->
current_iteration (attributes st) < max_iterations (attributes st) ->
exists request st',
  run env (methods env) left st = (ok None, st')
  /\ queue (world st') = [request]
  /\ Message.destination_agent request = CRAWLER
  /\ Message.payload request
     = PDict (<["action" := PStr "crawl"]>
              (<["url" := url]>
              (<["iteration" := PInt (current_iteration (attributes st) + 1)]> ∅)))
  /\ system_state (attributes st') = SystemState.CRAWLING
  /\ world st' = world (start env st).2.
Proof.
intros Hc Hu Ht Ha Hq Hlt.
destruct (start_through_iteration env st c url Hc Hu Ht)
  as (st0 & Hstart & Hq0 & Hself0).
assert (Hlt0 : current_iteration (attributes st0) < max_iterations (attributes st0)).
{ unfold attributes. rewrite Hself0. exact Hlt. }
destruct (start_iteration_within env st0 Hlt0)
  as (Hstate & m & Hqm & _ & Hdst & _ & Hp).
destruct (start_iteration_run env st0) as (w1 & Hrun).
rewrite Hrun in Hstate, Hqm. cbn [snd world] in Hqm.
rewrite Hq0, Hq in Hqm. cbn [app] in Hqm.
set (st1 := moved st0 (started (ext (self st0))) w1) in *.
assert (Hr1 : running (self st1) = true).
{ unfold st1, moved. cbn. now rewrite Hself0. }
assert (Ha1 : agent_type (self st1) = ORCHESTRATOR).
{ unfold st1, moved. cbn. now rewrite Hself0. }
assert (Hspin : while_running env (methods env) left st1
                = (ok None, st1)).
{ rewrite while_running_requeues; auto.
  - rewrite Hqm, requeued_singleton. unfold st1, moved. cbn [self world].
    destruct w1 as [files q k]. cbn in Hqm. now subst q.
  - now rewrite Hqm.
  - rewrite Hqm. constructor; [|constructor]. rewrite Ha1, Hdst. discriminate. }
assert (Hg : run_guarded env (methods env) left st = (ok None, st1)).
{ unfold run_guarded, try_except. cbv [bind]. cbn [m_start methods].
  rewrite Hstart, Hrun. cbv [ok]. fold st1. rewrite Hspin. reflexivity. }
exists m, st1. unfold run. rewrite Hg. cbv [ok].
split; [reflexivity|]. split; [exact Hqm|]. split; [exact Hdst|].
split.
{ rewrite Hp. unfold attributes. rewrite Hself0. cbn. reflexivity. }
split; [exact Hstate|].
rewrite Hstart, Hrun. reflexivity.
Qed.

Lemma orchestrator_spins_after_start_witness :
exists request st',
  run quiet_env (methods quiet_env) 50 (fresh 3 (configured_world example_url))
  = (ok None, st')
  /\ queue (world st') = [request]
  /\ Message.destination_agent request = CRAWLER
  /\ Message.payload request
     = PDict (<["action" := PStr "crawl"]>
              (<["url" := example_url]>
              (<["iteration" :=
                   PInt (current_iteration
                           (attributes (fresh 3 (configured_world example_url)))
                         + 1)]> ∅)))
  /\ system_state (attributes st') = SystemState.CRAWLING
  /\ world st'
     = world (start quiet_env (fresh 3 (configured_world example_url))).2.
Proof.
apply (orchestrator_spins_after_start quiet_env
         (fresh 3 (configured_world example_url))
         (<["website_url" := example_url]> ∅) example_url 50);
  try reflexivity.
Defined.

End Spinning.

(** ** Configuration *)

Section Configuration.
Import Agent OrchestratorAgent Orchestration Examples Scenarios.

(** X26: the URL given to [run_system] is the one the orchestrator
  adopts: once the configuration step has run with a true URL, on a
  configuration that was absent, unreadable or a dictionary, and the file
  could be written, the orchestrator's [start] sets its target to that URL
  and starts the first iteration, which is a crawl when the budget allows
  one.  On a configuration that is JSON but no dictionary the step raises
  a [TypeError] and writes nothing. *)
Theorem configured_url_is_adopted env (st : State Fields) url :
truthy url = true ->
let step := update_configuration env url st in
(forall v, fs (world st) !! CONFIG_PATH env = Some (Json v) ->
           (forall c, v <> PDict c) ->
           exists e, step = (inl e, st) /\ exn_cls e = TypeError)
/\ ((forall v, fs (world st) !! CONFIG_PATH env = Some (Json v) ->
               exists c, v = PDict c) ->
    writable env (clock (world st)) = true ->
    let st' := (start env step.2).2 in
    step.1 = ok tt
    /\ target_url (attributes st') = url
    /\ current_iteration (attributes st') = current_iteration (attributes st) + 1
    /\ (current_iteration (attributes st) < max_iterations (attributes st) ->
        system_state (attributes st') = SystemState.CRAWLING)).
Proof.
intros Hurl. cbv zeta. unfold update_configuration. cbv [bind].
rewrite load_config_value. rewrite Hurl. cbv [ok lift].
split.
- intros v Hv Hnd. rewrite Hv.
  destruct v as [| | | | | |d]; try (eexists; split; reflexivity).
  now destruct (Hnd d).
- intros Hd Hw.
  assert (Hc : exists c, match fs (world st) !! CONFIG_PATH env with
                         | Some (Json c0) => c0
                         | _ => PDict ∅
                         end = PDict c).
  { destruct (fs (world st) !! CONFIG_PATH env) as [[v|]|]; eauto. }
  destruct Hc as [c ->]. cbn [setitem]. cbv [ok].
  unfold save_config, write_json, on_world, modify. cbv [ok fst snd].
  destruct (start_configured env
              {| self := self st;
                 world := write env (CONFIG_PATH env)
                            (PDict (<["website_url" := url]> c)) (world st) |}
              (<["website_url" := url]> c) url) as (w & ->).
  + unfold write. cbn [world fs]. rewrite Hw. apply lookup_insert_eq.
  + now rewrite lookup_insert_eq.
  + exact Hurl.
  + unfold attributes. cbn [snd self ext with_ext].
    split; [reflexivity|]. split.
    * unfold started. cbn. now destruct (_ <? _).
    * split; [now rewrite current_iteration_started|].
      intros Hlt. now apply started_below_max.
Qed.

Lemma configured_url_is_adopted_witness :
let step := update_configuration quiet_env example_url (fresh 3 empty_world) in
let st' := (start quiet_env step.2).2 in
step.1 = ok tt
/\ target_url (attributes st') = example_url
/\ current_iteration (attributes st')
   = current_iteration (attributes (fresh 3 empty_world)) + 1
/\ (current_iteration (attributes (fresh 3 empty_world))
      < max_iterations (attributes (fresh 3 empty_world)) ->
    system_state (attributes st') = SystemState.CRAWLING).
Proof.
refine (proj2 (configured_url_is_adopted quiet_env (fresh 3 empty_world)
                 example_url eq_refl) _ eq_refl).
intros v Hv. vm_compute in Hv. discriminate Hv.
Defined.

End Configuration.
